(** * Lossy: escrow sessions, payment polling, mint and sweep

    A shallow embedding of the escrow-session core of the Lossy backend:
    - [lib/wallet.js]   key derivation ([deriveKeypair], [getMasterKeypair],
                        [getSessionKeypair]);
    - [lib/solana.js]   ledger utilities ([getUsdcBalance], [findUsdcSender],
                        [fundDerivedWallet], [initUsdcAta], [sweepUsdc],
                        [sweepSol]);
    - [lib/redis.js]    the requests to the store ([getJson], [set], [incr]),
                        each of which throws on an error reply;
    - [api/session.js]  the session-creation handler;
    - [api/poll/[sessionId].js] the poll handler, in the version that has
                        the [minting] guard and the [needs_funding] status,
                        and [mintNft];
    - [api/health.js]   the health endpoint.

    Every [await] of the JavaScript source, and every read of the process
    environment and of the clock that a handler branches on or stores, is
    one operation [Op] of a small free monad [Prog]; [exec] gives each
    operation its meaning on a [World] (process environment, clock, Redis
    store, ledger).  The reads that only fill in the request of the mint
    are part of that request (see [mintNft]).  Every request that
    leaves the process (Redis, ledger, pinning service) can fail.  [run]
    executes one invocation to completion and returns the operations it
    performed, so that "no side effect" is a statement about that list;
    [runTwo] runs two invocations under a schedule, one operation at a
    time.  Strings are their UTF-8 bytes. *)

From Stdlib Require Import ZArith Lia Ascii.
From stdpp Require Import base gmap strings pretty list.

Open Scope string_scope.
Open Scope Z_scope.
Open Scope list_scope.

(** ** Data model *)

(** The message of a thrown JavaScript [Error]. *)
Definition Err : Type := string.

Inductive Outcome (A : Type) : Type :=
| Ok (a : A)
| Thrown (e : Err).
Arguments Ok {A} a.
Arguments Thrown {A} e.

(** [Keypair] of [@solana/web3.js]; the public key is kept in base58. *)
Record Keypair := mkKeypair { publicKey : string; secretKey : string }.

(** The external key and address primitives ([bip39], [ed25519-hd-key],
    [Keypair.fromSeed], [getAssociatedTokenAddress]): pure functions of their
    arguments, otherwise unknown.  [endpointRejected] is what the
    constructor [Connection] of [@solana/web3.js] throws, if anything, for
    an endpoint that starts with [http:] or [https:]. *)
Class SolanaPrimitives := {
  mnemonicToSeed : string -> string;
  derivePath : string -> string -> string;
  keypairFromSeed : string -> Keypair;
  getAssociatedTokenAddress : string -> string -> string;
  endpointRejected : string -> option Err
}.

(** The values the [status] field of a stored session takes. *)
Inductive Status := Pending | Minting | Minted | NeedsFunding | Paid | Swept.

Global Instance Status_eq_dec : EqDecision Status.
Proof. solve_decision. Defined.

Definition status_string (st : Status) : string :=
  match st with
  | Pending => "pending" | Minting => "minting" | Minted => "minted"
  | NeedsFunding => "needs_funding" | Paid => "paid" | Swept => "swept"
  end.

(** [req.body.metadata], carried through to the mint. *)
Record Metadata := mkMetadata {
  answers : list (string * string);
  mode : option string;
  speed : option string;
  fileUri : option string
}.

(** The session record of [api/session.js]; [null] is [None]. *)
Record Session := mkSession {
  sessionId : string;
  sessionIndex : Z;
  paymentAddress : string;
  outputType : string;
  metadata : Metadata;
  status : Status;
  createdAt : Z;
  expiresAt : Z;
  requiredUsdc : Z;
  buyerWallet : option string;
  mintAddress : option string;
  mintSignature : option string;
  sweepSignature : option string
}.

(** In-place assignments [session.f = v] on the handler's copy. *)
Definition set_status (st : Status) (s : Session) : Session :=
  mkSession (sessionId s) (sessionIndex s) (paymentAddress s) (outputType s)
    (metadata s) st (createdAt s) (expiresAt s) (requiredUsdc s)
    (buyerWallet s) (mintAddress s) (mintSignature s) (sweepSignature s).

Definition set_buyerWallet (b : option string) (s : Session) : Session :=
  mkSession (sessionId s) (sessionIndex s) (paymentAddress s) (outputType s)
    (metadata s) (status s) (createdAt s) (expiresAt s) (requiredUsdc s)
    b (mintAddress s) (mintSignature s) (sweepSignature s).

Definition set_mint (addr sig : string) (s : Session) : Session :=
  mkSession (sessionId s) (sessionIndex s) (paymentAddress s) (outputType s)
    (metadata s) (status s) (createdAt s) (expiresAt s) (requiredUsdc s)
    (buyerWallet s) (Some addr) (Some sig) (sweepSignature s).

Definition set_sweepSignature (sig : option string) (s : Session) : Session :=
  mkSession (sessionId s) (sessionIndex s) (paymentAddress s) (outputType s)
    (metadata s) (status s) (createdAt s) (expiresAt s) (requiredUsdc s)
    (buyerWallet s) (mintAddress s) (mintSignature s) sig.

(** What a Redis key holds: a JSON session, a plain string, or the integer
    of a counter. *)
Inductive StoreVal :=
| VSession (s : Session)
| VString (s : string)
| VInt (n : Z).

(** One entry of [preTokenBalances] / [postTokenBalances]; [amount] is
    [uiTokenAmount.amount]. *)
Record TokenBalance := mkTokenBalance {
  accountIndex : nat;
  tokenMint : string;
  owner : string;
  amount : Z
}.

(** [tx.meta] of a confirmed transaction; a missing list is [[]]. *)
Record TxMeta := mkTxMeta {
  preTokenBalances : list TokenBalance;
  postTokenBalances : list TokenBalance
}.

(** The answer of the pinning service, [pinData]: its [IpfsHash] field and
    the text [JSON.stringify] gives for the whole answer. *)
Record PinData := mkPinData {
  pin_IpfsHash : option string;
  pin_json : string
}.

(** The two transactions the code builds for [sendAndConfirmTransaction]. *)
Inductive Tx :=
| SystemTransfer (fromPubkey toPubkey : string) (lamports : Z)
| TokenTransfer (fromAta toAta ownerKey : string) (amount : Z).

(** ** Operations *)

Inductive Op :=
| RedisGetJson (key : string)
| RedisSet (key : string) (value : StoreVal) (exSeconds : Z)
| RedisIncr (key : string)
| DateNow
| GetEnv (name : string)
| ConsoleError (label : string)
| GetAccount (ata : string)
| GetSignaturesForAddress (ata : string) (limit : nat)
| GetTransaction (signature : string)
| GetBalance (pubkey : string)
| SendAndConfirmTransaction (tx : Tx) (signer : string)
| GetOrCreateAssociatedTokenAccount (payer mint ownerKey : string)
| PinFileToIPFS (s : Session) (creator : string)
| GenerateSigner
| CreateNft (mint uri tokenOwner : string).

(** The type of what each operation resolves to. *)
Definition resT (o : Op) : Type :=
  match o with
  | RedisGetJson _ => option StoreVal
  | RedisSet _ _ _ => unit
  | RedisIncr _ => Z
  | DateNow => Z
  | GetEnv _ => option string
  | ConsoleError _ => unit
  | GetAccount _ => Z
  | GetSignaturesForAddress _ _ => list string
  | GetTransaction _ => option TxMeta
  | GetBalance _ => Z
  | SendAndConfirmTransaction _ _ => string
  | GetOrCreateAssociatedTokenAccount _ _ _ => string
  | PinFileToIPFS _ _ => PinData
  | GenerateSigner => string
  | CreateNft _ _ _ => string
  end.

(** Operations that leave the process: the REST calls of [lib/redis.js]
    ([redisRequest] and [redisPost] throw on an error reply and when the
    request itself fails), ledger RPC and HTTP uploads.  These are the ones
    that can fail for reasons outside the program. *)
Definition external (o : Op) : bool :=
  match o with
  | RedisGetJson _ | RedisSet _ _ _ | RedisIncr _
  | GetAccount _ | GetSignaturesForAddress _ _ | GetTransaction _
  | GetBalance _ | SendAndConfirmTransaction _ _
  | GetOrCreateAssociatedTokenAccount _ _ _ | PinFileToIPFS _ _
  | CreateNft _ _ _ => true
  | _ => false
  end.

Definition is_mint_submission (o : Op) : bool :=
  match o with CreateNft _ _ _ => true | _ => false end.

Definition is_transfer (o : Op) : bool :=
  match o with SendAndConfirmTransaction _ _ => true | _ => false end.

Definition is_store_write (o : Op) : bool :=
  match o with RedisSet _ _ _ | RedisIncr _ => true | _ => false end.

Definition is_store_op (o : Op) : bool :=
  match o with RedisGetJson _ | RedisSet _ _ _ | RedisIncr _ => true | _ => false end.

Definition is_ledger_read (o : Op) : bool :=
  match o with
  | GetAccount _ | GetSignaturesForAddress _ _ | GetTransaction _
  | GetBalance _ => true
  | _ => false
  end.

(** ** Programs *)

Inductive Prog (A : Type) : Type :=
| Ret (a : A)
| Throw (e : Err)
| Vis (o : Op) (k : Outcome (resT o) -> Prog A).
Arguments Ret {A} a.
Arguments Throw {A} e.
Arguments Vis {A} o k.

Fixpoint bind {A B : Type} (p : Prog A) (f : A -> Prog B) : Prog B :=
  match p with
  | Ret a => f a
  | Throw e => Throw e
  | Vis o k => Vis o (fun r => bind (k r) f)
  end.

(** [await op]: a rejected promise throws. *)
Definition call (o : Op) : Prog (resT o) :=
  Vis o (fun r => match r with Ok v => Ret v | Thrown e => Throw e end).

(** [try { p } catch (e) { h e }]; what [h] throws is not caught here. *)
Fixpoint tryCatch {A : Type} (p : Prog A) (h : Err -> Prog A) : Prog A :=
  match p with
  | Ret a => Ret a
  | Throw e => h e
  | Vis o k => Vis o (fun r => tryCatch (k r) h)
  end.

Notation "x <- p ;; q" := (bind p (fun x => q))
  (at level 100, p at next level, right associativity,
   format "'[v' x  <-  p  ;;  '/' q ']'").
Notation "p ;;; q" := (bind p (fun _ => q))
  (at level 100, right associativity).

(** ** The world the operations act on *)

(** The Redis server, the Solana ledger, the pinning service and the clock
    are outside the repository.  [World] holds what the code can observe of
    them, and [perform] gives each operation the behaviour its caller in
    [lib/redis.js], [lib/solana.js] or the handlers relies on: [GET], [SET ..
    EX] and [INCR] on a key-value store; token and lamport balances that
    transfers move; the recent signatures of an account and the token
    balances before and after each transaction.  Which external calls fail,
    what the pinning service answers, which signatures come back and which
    keys [generateSigner] draws are fields of the world, so that a statement
    about every world is a statement about every behaviour of the outside.
    A request that fails leaves the world as it was.  Two things are
    assumptions of the model and not read off the code: an invocation is
    instantaneous on the clock (every [Date.now()] of one run reads the same
    value), and a mint is not charged to anyone (fees and rent of
    [createNft] are left out), whereas creating a token account is charged
    to its payer. *)

Record World := mkWorld {
  env : gmap string string;            (* process.env *)
  now : Z;                             (* Date.now(), milliseconds *)
  store : gmap string (StoreVal * option Z);   (* Redis: value and EX seconds *)
  usdc : gmap string Z;                (* token account -> raw USDC amount *)
  lamports : gmap string Z;            (* wallet -> lamports *)
  signatures : gmap string (list string);  (* token account -> signatures, newest first *)
  transactions : gmap string TxMeta;   (* signature -> confirmed transaction *)
  rpcFault : Op -> option Err;         (* external calls that fail, with the message *)
  pinData : PinData;                   (* what the pinning service answers *)
  signatureOf : Op -> string;          (* signature of a confirmed submission *)
  mintKeys : nat -> string;            (* the keys generateSigner draws *)
  drawn : nat;                         (* how many it has drawn *)
  nfts : list (string * string * string);  (* assets created: mint, uri, owner *)
  accountRent : Z                      (* lamports charged for a new token account *)
}.

(** [pinData.IpfsHash]. *)
Definition ipfsHash (w : World) : option string := pin_IpfsHash (pinData w).

Definition with_store (f : gmap string (StoreVal * option Z) -> gmap string (StoreVal * option Z))
    (w : World) : World :=
  mkWorld (env w) (now w) (f (store w)) (usdc w) (lamports w) (signatures w)
    (transactions w) (rpcFault w) (pinData w) (signatureOf w) (mintKeys w)
    (drawn w) (nfts w) (accountRent w).

Definition with_usdc (f : gmap string Z -> gmap string Z) (w : World) : World :=
  mkWorld (env w) (now w) (store w) (f (usdc w)) (lamports w) (signatures w)
    (transactions w) (rpcFault w) (pinData w) (signatureOf w) (mintKeys w)
    (drawn w) (nfts w) (accountRent w).

Definition with_lamports (f : gmap string Z -> gmap string Z) (w : World) : World :=
  mkWorld (env w) (now w) (store w) (usdc w) (f (lamports w)) (signatures w)
    (transactions w) (rpcFault w) (pinData w) (signatureOf w) (mintKeys w)
    (drawn w) (nfts w) (accountRent w).

Definition with_drawn (n : nat) (w : World) : World :=
  mkWorld (env w) (now w) (store w) (usdc w) (lamports w) (signatures w)
    (transactions w) (rpcFault w) (pinData w) (signatureOf w) (mintKeys w)
    n (nfts w) (accountRent w).

Definition with_nfts (l : list (string * string * string)) (w : World) : World :=
  mkWorld (env w) (now w) (store w) (usdc w) (lamports w) (signatures w)
    (transactions w) (rpcFault w) (pinData w) (signatureOf w) (mintKeys w)
    (drawn w) l (accountRent w).

Definition balanceIn (m : gmap string Z) (a : string) : Z := default 0 (m !! a).

(** Moving [n] units from [a] to [b]. *)
Definition move (a b : string) (n : Z) (m : gmap string Z) : gmap string Z :=
  let m1 := <[a := balanceIn m a - n]> m in
  <[b := balanceIn m1 b + n]> m1.

Definition int64_max : Z := 9223372036854775807.

(** [redis.getJson]: [if (!raw) return null]. *)
Definition getJson_result (e : option (StoreVal * option Z)) : option StoreVal :=
  match e with
  | Some (VString "", _) => None
  | Some (v, _) => Some v
  | None => None
  end.

(** [redis.set(key, value, exSeconds)]: [EX] only when [exSeconds] is truthy. *)
Definition ttl_of (exSeconds : Z) : option Z :=
  if exSeconds =? 0 then None else Some exSeconds.

(** The ledger's answer to a submitted transaction. *)
Definition submit (tx : Tx) (w : World) : Outcome unit * World :=
  match tx with
  | SystemTransfer a b n =>
      if balanceIn (lamports w) a <? n
      then (Thrown ("Transfer: insufficient lamports " +:+ pretty (balanceIn (lamports w) a)
                      +:+ ", need " +:+ pretty n), w)
      else (Ok tt, with_lamports (move a b n) w)
  | TokenTransfer a b _ n =>
      match usdc w !! a with
      | None => (Thrown "invalid account data for instruction", w)
      | Some have =>
          if have <? n then (Thrown "Error: insufficient funds", w)
          else (Ok tt, with_usdc (move a b n) w)
      end
  end.

(** The message of a transaction that the payer cannot pay for. *)
Definition insufficientLamports (have need : Z) : Err :=
  "Transfer: insufficient lamports " +:+ pretty have +:+ ", need " +:+ pretty need.

(** The meaning of an operation when the request itself goes through. *)
Definition perform `{SolanaPrimitives} (o : Op) (w : World) : Outcome (resT o) * World :=
  match o return Outcome (resT o) * World with
  | RedisGetJson key => (Ok (getJson_result (store w !! key)), w)
  | RedisSet key v ex => (Ok tt, with_store (insert key (v, ttl_of ex)) w)
  | RedisIncr key =>
      match store w !! key with
      | None => (Ok 1, with_store (insert key (VInt 1, None)) w)
      | Some (VInt n, ttl) =>
          if n <? int64_max
          then (Ok (n + 1), with_store (insert key (VInt (n + 1), ttl)) w)
          else (Thrown "Redis error: ERR increment or decrement would overflow", w)
      | Some _ => (Thrown "Redis error: ERR value is not an integer or out of range", w)
      end
  | DateNow => (Ok (now w), w)
  | GetEnv name => (Ok (env w !! name), w)
  | ConsoleError _ => (Ok tt, w)
  | GetAccount ata =>
      match usdc w !! ata with
      | Some n => (Ok n, w)
      | None => (Thrown "TokenAccountNotFoundError", w)
      end
  | GetSignaturesForAddress ata limit =>
      (Ok (take limit (default [] (signatures w !! ata))), w)
  | GetTransaction sig => (Ok (transactions w !! sig), w)
  | GetBalance pk => (Ok (balanceIn (lamports w) pk), w)
  | SendAndConfirmTransaction tx signer =>
      match submit tx w with
      | (Ok _, w') => (Ok (signatureOf w (SendAndConfirmTransaction tx signer)), w')
      | (Thrown e, w') => (Thrown e, w')
      end
  | GetOrCreateAssociatedTokenAccount payer mint ownerKey =>
      let ata := getAssociatedTokenAddress mint ownerKey in
      match usdc w !! ata with
      | Some _ => (Ok ata, w)
      | None =>
          (* the account is created by a transaction of its own, paid by [payer] *)
          if balanceIn (lamports w) payer <? accountRent w
          then (Thrown (insufficientLamports (balanceIn (lamports w) payer) (accountRent w)), w)
          else (Ok ata,
                with_usdc (insert ata 0)
                  (with_lamports
                     (insert payer (balanceIn (lamports w) payer - accountRent w)) w))
      end
  | PinFileToIPFS _ _ => (Ok (pinData w), w)
  | GenerateSigner => (Ok (mintKeys w (drawn w)), with_drawn (S (drawn w)) w)
  | CreateNft mint uri tokenOwner =>
      (Ok (signatureOf w (CreateNft mint uri tokenOwner)),
       with_nfts (nfts w ++ [(mint, uri, tokenOwner)]) w)
  end.

(** One operation: an external call fails, leaving the world as it is, when
    [rpcFault] says so.  A failure is told by the operation and its
    arguments: two requests that are the same in everything fail or go
    through together within one world. *)
Definition exec `{SolanaPrimitives} (o : Op) (w : World) : Outcome (resT o) * World :=
  match (if external o then rpcFault w o else None) with
  | Some e => (Thrown e, w)
  | None => perform o w
  end.

(** One invocation run to completion: result, final world, operations. *)
Fixpoint run `{SolanaPrimitives} {A : Type} (p : Prog A) (w : World)
    : Outcome A * World * list Op :=
  match p with
  | Ret a => (Ok a, w, [])
  | Throw e => (Thrown e, w, [])
  | Vis o k =>
      let '(r, w1) := exec o w in
      let '(x, w2, t) := run (k r) w1 in
      (x, w2, o :: t)
  end.

(** JavaScript truthiness of a string that may be [undefined]. *)
Definition truthy (s : option string) : bool :=
  match s with
  | None | Some "" => false
  | Some _ => true
  end.

(** [haystack.includes(needle)]. *)
Fixpoint includes (needle haystack : string) : bool :=
  String.prefix needle haystack ||
  match haystack with
  | EmptyString => false
  | String _ rest => includes needle rest
  end.

(** The white space and line terminators that [String.prototype.trim]
    strips, by their UTF-8 bytes: U+0009 to U+000D and U+0020; U+00A0;
    U+1680, U+2000 to U+200A, U+2028, U+2029, U+202F, U+205F, U+3000 and
    U+FEFF. *)
Definition space1 (c : ascii) : bool :=
  let n := nat_of_ascii c in
  ((9 <=? n) && (n <=? 13) || (n =? 32))%nat.

Definition space2 (c1 c2 : ascii) : bool :=
  ((nat_of_ascii c1 =? 194) && (nat_of_ascii c2 =? 160))%nat.

Definition space3 (c1 c2 c3 : ascii) : bool :=
  let a := nat_of_ascii c1 in
  let b := nat_of_ascii c2 in
  let c := nat_of_ascii c3 in
  ((a =? 225) && (b =? 154) && (c =? 128)
   || (a =? 226) && (b =? 128) &&
      ((128 <=? c) && (c <=? 138) || (c =? 168) || (c =? 169) || (c =? 175))
   || (a =? 226) && (b =? 129) && (c =? 159)
   || (a =? 227) && (b =? 128) && (c =? 128)
   || (a =? 239) && (b =? 187) && (c =? 191))%nat.

(** Whether [s.trim()] is the empty string. *)
Fixpoint blank (s : string) : bool :=
  match s with
  | EmptyString => true
  | String c1 rest1 =>
      if space1 c1 then blank rest1
      else
        match rest1 with
        | EmptyString => false
        | String c2 rest2 =>
            if space2 c1 c2 then blank rest2
            else
              match rest2 with
              | EmptyString => false
              | String c3 rest3 => space3 c1 c2 c3 && blank rest3
              end
        end
  end.

(** ** lib/wallet.js *)

Module wallet.
Section defs.
Context `{SolanaPrimitives}.

Definition derivationPath (index : Z) : string :=
  "m/44'/501'/" +:+ pretty index +:+ "'/0'".

Definition deriveKeypair (index : Z) : Prog Keypair :=
  mnemonic <- call (GetEnv "MASTER_SEED_PHRASE") ;;
  match mnemonic with
  | None | Some "" => Throw "MASTER_SEED_PHRASE not configured"
  | Some phrase =>
      let seed := mnemonicToSeed phrase in
      let key := derivePath (derivationPath index) seed in
      Ret (keypairFromSeed key)
  end.

Definition getMasterKeypair : Prog Keypair := deriveKeypair 0.

Definition getSessionKeypair (sessionIndex : Z) : Prog Keypair :=
  deriveKeypair (1000 + sessionIndex).
End defs.
End wallet.

(** ** lib/solana.js *)

Module solana.
Section defs.
Context `{SolanaPrimitives}.

Definition USDC_MINT : string := "EPjFWdd5AufqSSqeM2qN1xzybapC8G4wEGGkZwyTDt1v".
Definition REQUIRED_USDC : Z := 2250000.
(** [Math.ceil(ATA_INIT_SOL * LAMPORTS_PER_SOL)] with [ATA_INIT_SOL = 0.003]. *)
Definition ATA_INIT_LAMPORTS : Z := 3000000.

(** The [TypeError] of [new Connection(endpoint)] for an endpoint that does
    not match [/^https?:/]; an unset variable is tested as "undefined". *)
Definition ENDPOINT_ERROR : Err := "Endpoint URL must start with `http:` or `https:`.".

Definition connectionError (endpoint : option string) : option Err :=
  match endpoint with
  | None => Some ENDPOINT_ERROR
  | Some url =>
      if String.prefix "http:" url || String.prefix "https:" url
      then endpointRejected url
      else Some ENDPOINT_ERROR
  end.

(** [getConnection]: [new Connection(process.env.SOLANA_RPC_URL, 'confirmed')]. *)
Definition getConnection : Prog unit :=
  endpoint <- call (GetEnv "SOLANA_RPC_URL") ;;
  match connectionError endpoint with
  | Some e => Throw e
  | None => Ret tt
  end.

Definition getUsdcBalance (walletPublicKey : string) : Prog Z :=
  tryCatch
    (let ata := getAssociatedTokenAddress USDC_MINT walletPublicKey in
     account <- call (GetAccount ata) ;;
     Ret account)
    (fun _ => Ret 0).

(** The inner loop of [findUsdcSender] over [preTokenBalances]. *)
Fixpoint scanPreBalances (receiver : string) (postBalances pres : list TokenBalance)
    : option string :=
  match pres with
  | [] => None
  | pre :: rest =>
      if negb (bool_decide (tokenMint pre = USDC_MINT))
      then scanPreBalances receiver postBalances rest
      else
        let post := List.find (fun p => Nat.eqb (accountIndex p) (accountIndex pre)) postBalances in
        let preAmt := amount pre in
        let postAmt := match post with Some p => amount p | None => 0 end in
        if (preAmt >? postAmt) && negb (bool_decide (owner pre = receiver))
        then Some (owner pre)
        else scanPreBalances receiver postBalances rest
  end.

(** The outer loop of [findUsdcSender] over the signatures. *)
Fixpoint scanSignatures (receiver : string) (sigs : list string) : Prog (option string) :=
  match sigs with
  | [] => Ret None
  | sig :: rest =>
      tx <- call (GetTransaction sig) ;;
      match tx with
      | None => scanSignatures receiver rest
      | Some meta =>
          match scanPreBalances receiver (postTokenBalances meta) (preTokenBalances meta) with
          | Some sender => Ret (Some sender)
          | None => scanSignatures receiver rest
          end
      end
  end.

Definition findUsdcSender (receiverPublicKey : string) : Prog (option string) :=
  tryCatch
    (let ata := getAssociatedTokenAddress USDC_MINT receiverPublicKey in
     sigs <- call (GetSignaturesForAddress ata 10) ;;
     scanSignatures receiverPublicKey sigs)
    (fun _ => call (ConsoleError "findUsdcSender error:") ;;; Ret None).

Definition fundDerivedWallet (masterKeypair : Keypair) (derivedPublicKey : string)
    : Prog string :=
  let tx := SystemTransfer (publicKey masterKeypair) derivedPublicKey ATA_INIT_LAMPORTS in
  sig <- call (SendAndConfirmTransaction tx (publicKey masterKeypair)) ;;
  Ret sig.

Definition initUsdcAta (masterKeypair derivedKeypair : Keypair) : Prog string :=
  ata <- call (GetOrCreateAssociatedTokenAccount
                 (publicKey masterKeypair) USDC_MINT (publicKey derivedKeypair)) ;;
  Ret ata.

Definition sweepUsdc (derivedKeypair : Keypair) (masterPublicKey : string)
    : Prog (option string) :=
  balance <- getUsdcBalance (publicKey derivedKeypair) ;;
  if balance =? 0 then Ret None
  else
    let fromAta := getAssociatedTokenAddress USDC_MINT (publicKey derivedKeypair) in
    let toAta := getAssociatedTokenAddress USDC_MINT masterPublicKey in
    let tx := TokenTransfer fromAta toAta (publicKey derivedKeypair) balance in
    sig <- call (SendAndConfirmTransaction tx (publicKey derivedKeypair)) ;;
    Ret (Some sig).

Definition SOL_FEE : Z := 5000.

Definition sweepSol (derivedKeypair : Keypair) (masterPublicKey : string)
    : Prog (option string) :=
  balance <- call (GetBalance (publicKey derivedKeypair)) ;;
  let fee := SOL_FEE in
  let toSend := balance - fee in
  if toSend <=? 0 then Ret None
  else
    let tx := SystemTransfer (publicKey derivedKeypair) masterPublicKey toSend in
    sig <- call (SendAndConfirmTransaction tx (publicKey derivedKeypair)) ;;
    Ret (Some sig).
End defs.
End solana.

(** ** api/session.js *)

Module session.
Record Body := mkBody {
  body_outputType : option string;
  body_metadata : option Metadata
}.

Record Request := mkRequest {
  method : string;
  body : option Body
}.

Inductive Json :=
| JEnd
| JError (error : string)
| JCreated (sessionId paymentAddress : string) (requiredUsdc expiresAt : Z).

Record Response := mkResponse { code : Z; json : Json }.

(** Session expires after 30 minutes. *)
Definition SESSION_TTL : Z := 60 * 30.

Definition counterKey : string := "day-after-day:session-counter".

Section defs.
Context `{SolanaPrimitives}.

(** Lines 62-63: the [try] block that funds the derived wallet. *)
Definition fund (masterKeypair sessionKeypair : Keypair) : Prog unit :=
  solana.fundDerivedWallet masterKeypair (publicKey sessionKeypair) ;;;
  solana.initUsdcAta masterKeypair sessionKeypair ;;;
  Ret tt.

(** The body of the handler's [try]. *)
Definition create (req : Request) : Prog Response :=
  match body req with
  | None => Throw "Cannot destructure property 'outputType' of 'req.body' as it is undefined."
  | Some b =>
      match body_outputType b with
      | None | Some "" => Ret (mkResponse 400 (JError "Missing outputType"))
      | Some outputType =>
          match body_metadata b with
          | None => Ret (mkResponse 400 (JError "Missing metadata"))
          | Some metadata =>
              sessionIndex <- call (RedisIncr counterKey) ;;
              masterKeypair <- wallet.getMasterKeypair ;;
              sessionKeypair <- wallet.getSessionKeypair sessionIndex ;;
              let paymentAddress := publicKey sessionKeypair in
              t0 <- call DateNow ;;
              let sessionId := "sess_" +:+ pretty sessionIndex +:+ "_" +:+ pretty t0 in
              t1 <- call DateNow ;;
              t2 <- call DateNow ;;
              let session :=
                mkSession sessionId sessionIndex paymentAddress outputType metadata
                  Pending t1 (t2 + SESSION_TTL * 1000) solana.REQUIRED_USDC
                  None None None None in
              call (RedisSet ("session:" +:+ sessionId) (VSession session) SESSION_TTL) ;;;
              call (RedisSet ("address:" +:+ paymentAddress) (VString sessionId) SESSION_TTL) ;;;
              solana.getConnection ;;;
              tryCatch (fund masterKeypair sessionKeypair)
                (fun _ => call (ConsoleError "ATA init error:")) ;;;
              Ret (mkResponse 200
                     (JCreated sessionId paymentAddress solana.REQUIRED_USDC (expiresAt session)))
          end
      end
  end.

Definition handler (req : Request) : Prog Response :=
  if bool_decide (method req = "OPTIONS") then Ret (mkResponse 200 JEnd)
  else if negb (bool_decide (method req = "POST"))
  then Ret (mkResponse 405 (JError "Method not allowed"))
  else
    tryCatch (create req)
      (fun err =>
         call (ConsoleError "Session creation error:") ;;;
         Ret (mkResponse 500 (JError err))).
End defs.
End session.

(** ** api/poll/[sessionId].js *)

Module poll.
Record Request := mkRequest {
  method : string;
  query_sessionId : option string;
  query_test : option string
}.

(** The JSON bodies the handler answers with.  [explorerUrl] and
    [exchangeArtUrl] repeat [mintAddress] and are left out; the
    [needs_funding] text is built from the mint error message, which
    [JNeedsFunding] carries. *)
Inductive Json :=
| JEnd
| JError (error : string)
| JMinting
| JMintedStored (mintAddress mintSignature : option string)
| JExpired
| JPending (paymentAddress : string) (requiredUsdc receivedUsdc : Z)
| JNeedsFunding (errMsg : string) (buyerWallet : option string)
| JPaid (errMsg : string) (buyerWallet : option string)
| JMinted (mintAddress mintSignature : option string) (buyerWallet : option string).

Record Response := mkResponse { code : Z; json : Json }.

(** The [status] field of a response, when it has one. *)
Definition status_of (r : Response) : option string :=
  match json r with
  | JMinting => Some "minting"
  | JMintedStored _ _ | JMinted _ _ _ => Some "minted"
  | JExpired => Some "expired"
  | JPending _ _ _ => Some "pending"
  | JNeedsFunding _ _ => Some "needs_funding"
  | JPaid _ _ => Some "paid"
  | JEnd | JError _ => None
  end.

Record MintResult := mkMintResult {
  mr_mintAddress : string;
  mr_signature : string;
  mr_metadataUri : string
}.

Definition sessionKey (sessionId : string) : string := "session:" +:+ sessionId.

(** [mintErr.message || String(mintErr)] for an [Error]. *)
Definition errMsgOf (mintErr : Err) : string :=
  if bool_decide (mintErr = "") then "Error" else mintErr.

Definition isInsufficientSol (errMsg : string) : bool :=
  includes "insufficient lamports" errMsg || includes "Insufficient lamports" errMsg.

Section defs.
Context `{SolanaPrimitives}.

(** [mintNft]: the metadata document is a function of the session and the
    master key and is named by them in [PinFileToIPFS]; the signature is
    kept as the ledger returns it.  The date of line 143 and the
    [Date.now()] of line 195 go into the document and its file name only,
    and [SOLANA_RPC_URL] (line 207), [COLLECTION_MINT] (line 218) and
    [PERSONAL_WALLET_PUBLIC_KEY] (line 230) into the request that
    [sendAndConfirm] submits: they are part of [PinFileToIPFS] and of
    [CreateNft], whose failures are any error of the request; an address
    that [umiPublicKey] refuses (lines 214-230) is such a failure, raised
    with nothing submitted and the ledger unchanged. *)
Definition mintNft (session : Session) (buyerWallet : option string) : Prog MintResult :=
  masterKeypair <- wallet.getMasterKeypair ;;
  pinataJwt <- call (GetEnv "PINATA_JWT") ;;
  if blank (default "" pinataJwt) then Throw "PINATA_JWT not configured"
  else
    pinData <- call (PinFileToIPFS session (publicKey masterKeypair)) ;;
    match pin_IpfsHash pinData with
    | None | Some "" => Throw ("Pinata metadata upload failed: " +:+ pin_json pinData)
    | Some hash =>
        let metadataUri := "https://gateway.pinata.cloud/ipfs/" +:+ hash in
        mint <- call GenerateSigner ;;
        let tokenOwner :=
          if truthy buyerWallet then default "" buyerWallet
          else publicKey masterKeypair in
        signature <- call (CreateNft mint metadataUri tokenOwner) ;;
        Ret (mkMintResult mint signature metadataUri)
    end.

(** Lines 104-108: the [try] block of the sweep. *)
Definition sweepBody (key : string) (session : Session) (sessionKeypair : Keypair)
    : Prog unit :=
  masterKeypair <- wallet.getMasterKeypair ;;
  sweepSignature <- solana.sweepUsdc sessionKeypair (publicKey masterKeypair) ;;
  let session := set_sweepSignature sweepSignature session in
  solana.sweepSol sessionKeypair (publicKey masterKeypair) ;;;
  let session := set_status Swept session in
  call (RedisSet key (VSession session) (60 * 60 * 24)).

(** Lines 103-111: the sweep and its [catch]. *)
Definition sweepStep (key : string) (session : Session) (sessionKeypair : Keypair)
    : Prog unit :=
  tryCatch (sweepBody key session sessionKeypair)
    (fun _ => call (ConsoleError "Sweep error (non-fatal):")).

(** Lines 76-100: the [catch] of the mint, on the session object as the
    [try] block left it. *)
Definition mintFailed (key : string) (session : Session) (buyerWallet : option string)
    (mintErr : Err) : Prog (Session + Response) :=
  call (ConsoleError "Mint error:") ;;;
  let errMsg := errMsgOf mintErr in
  if isInsufficientSol errMsg then
    let session := set_status NeedsFunding session in
    call (RedisSet key (VSession session) (60 * 60 * 24)) ;;;
    Ret (inr (mkResponse 200 (JNeedsFunding errMsg buyerWallet)))
  else
    let session := set_status Paid session in
    call (RedisSet key (VSession session) (60 * 60 * 24)) ;;;
    Ret (inr (mkResponse 200 (JPaid errMsg buyerWallet))).

(** Lines 70-101: the mint and its [catch].  [inl] is the session the
    handler goes on with, [inr] the response the [catch] returns.  The [try]
    block assigns the mint result to the session object before it writes
    the object to the store, and the [catch] assigns to the same object: when
    [mintNft] throws, the [catch] finds the object as it was, and when the
    write of the [minted] record throws, it finds the object with [minted],
    [mintAddress] and [mintSignature] assigned.  So the one [try] is
    written here in two steps with the same [catch]. *)
Definition mintStep (key : string) (session : Session) (buyerWallet : option string)
    : Prog (Session + Response) :=
  attempt <- tryCatch (mintResult <- mintNft session buyerWallet ;; Ret (inl mintResult))
               (fun mintErr => Ret (inr mintErr)) ;;
  match attempt with
  | inr mintErr => mintFailed key session buyerWallet mintErr
  | inl mintResult =>
      let session := set_status Minted session in
      let session := set_mint (mr_mintAddress mintResult) (mr_signature mintResult) session in
      tryCatch
        (call (RedisSet key (VSession session) (60 * 60 * 24)) ;;;
         Ret (inl session))
        (mintFailed key session buyerWallet)
  end.

(** Lines 63-120: from the write of [minting] to the final response. *)
Definition confirmed (key : string) (session : Session) (sessionKeypair : Keypair)
    : Prog Response :=
  let session := set_status Minting session in
  call (RedisSet key (VSession session) (60 * 60)) ;;;
  buyerWallet <- solana.findUsdcSender (publicKey sessionKeypair) ;;
  let session := set_buyerWallet buyerWallet session in
  call (RedisSet key (VSession session) (60 * 60)) ;;;
  minted <- mintStep key session buyerWallet ;;
  match minted with
  | inr response => Ret response
  | inl session =>
      sweepStep key session sessionKeypair ;;;
      Ret (mkResponse 200
             (JMinted (mintAddress session) (mintSignature session) buyerWallet))
  end.

(** Lines 27-61: load, guards, expiry, balance. *)
Definition poll (sessionId : string) (test : option string) : Prog Response :=
  let key := sessionKey sessionId in
  loaded <- call (RedisGetJson key) ;;
  match loaded with
  | None => Ret (mkResponse 404 (JError "Session not found or expired"))
  | Some (VSession session) =>
      if bool_decide (status session = Minting)
      then Ret (mkResponse 200 JMinting)
      else if bool_decide (status session = Minted)
      then Ret (mkResponse 200
                  (JMintedStored (mintAddress session) (mintSignature session)))
      else
        t <- call DateNow ;;
        if t >? expiresAt session then Ret (mkResponse 200 JExpired)
        else
          solana.getConnection ;;;
          sessionKeypair <- wallet.getSessionKeypair (sessionIndex session) ;;
          let testMode := bool_decide (test = Some "true") in
          balance <- (if testMode then Ret solana.REQUIRED_USDC
                      else solana.getUsdcBalance (publicKey sessionKeypair)) ;;
          if negb testMode && (balance <? solana.REQUIRED_USDC)
          then Ret (mkResponse 200
                      (JPending (paymentAddress session) solana.REQUIRED_USDC balance))
          else confirmed key session sessionKeypair
  | Some (VInt 0) => Ret (mkResponse 404 (JError "Session not found or expired"))
  | Some _ =>
      (* A stored value that is not a session object has none of the fields:
         the guards and the expiry check fall through, and the derivation at
         [1000 + undefined] is refused. *)
      call DateNow ;;;
      solana.getConnection ;;;
      mnemonic <- call (GetEnv "MASTER_SEED_PHRASE") ;;
      if truthy mnemonic then Throw "Invalid derivation path"
      else Throw "MASTER_SEED_PHRASE not configured"
  end.

Definition handler (req : Request) : Prog Response :=
  if bool_decide (method req = "OPTIONS") then Ret (mkResponse 200 JEnd)
  else if negb (bool_decide (method req = "GET"))
  then Ret (mkResponse 405 (JError "Method not allowed"))
  else
    match query_sessionId req with
    | None | Some "" => Ret (mkResponse 400 (JError "Missing sessionId"))
    | Some sessionId =>
        tryCatch (poll sessionId (query_test req))
          (fun err =>
             call (ConsoleError "Poll error:") ;;;
             Ret (mkResponse 500 (JError err)))
    end.
End defs.
End poll.

(** ** Two invocations at once *)

(** One operation of [p], if it has one left. *)
Definition step `{SolanaPrimitives} {A : Type} (p : Prog A) (w : World)
    : Prog A * World * list Op :=
  match p with
  | Vis o k => let '(r, w1) := exec o w in (k r, w1, [o])
  | _ => (p, w, [])
  end.

(** Two invocations under a schedule: [true] lets the first one take its
    next operation, [false] the second; when the schedule ends the first
    runs to completion, then the second. *)
Fixpoint runTwo `{SolanaPrimitives} {A : Type} (sched : list bool) (p q : Prog A)
    (w : World) : Outcome A * Outcome A * World * list Op :=
  match sched with
  | [] =>
      let '(a, w1, t1) := run p w in
      let '(b, w2, t2) := run q w1 in
      (a, b, w2, t1 ++ t2)
  | true :: rest =>
      let '(p1, w1, t1) := step p w in
      let '(a, b, w2, t2) := runTwo rest p1 q w1 in
      (a, b, w2, t1 ++ t2)
  | false :: rest =>
      let '(q1, w1, t1) := step q w in
      let '(a, b, w2, t2) := runTwo rest p q1 w1 in
      (a, b, w2, t1 ++ t2)
  end.

(** Number of mint transactions among the operations performed. *)
Definition mintSubmissions (t : list Op) : nat :=
  length (filter (fun o => is_mint_submission o = true) t).

(** ** Vocabulary of the statements *)

Section vocabulary.
Context `{SolanaPrimitives}.

(** The master secret of a world, if [MASTER_SEED_PHRASE] is configured. *)
Definition masterSecret (w : World) : option string :=
  match env w !! "MASTER_SEED_PHRASE" with
  | None | Some "" => None
  | Some phrase => Some phrase
  end.

(** The keypair at an index under a master secret. *)
Definition keypairAt (phrase : string) (index : Z) : Keypair :=
  keypairFromSeed (derivePath (wallet.derivationPath index) (mnemonicToSeed phrase)).

(** What [getUsdcBalance] reads: the amount of the wallet's token account,
    [0] when the account does not exist or the read fails. *)
Definition usdcBalanceOf (w : World) (walletPublicKey : string) : Z :=
  let ata := getAssociatedTokenAddress solana.USDC_MINT walletPublicKey in
  match rpcFault w (GetAccount ata) with
  | Some _ => 0
  | None => default 0 (usdc w !! ata)
  end.

(** The store answers every request. *)
Definition storeAnswers (w : World) : Prop :=
  forall o, is_store_op o = true -> rpcFault w o = None.

(** What [getConnection] throws in a world, if anything. *)
Definition connectionFailure (w : World) : option Err :=
  solana.connectionError (env w !! "SOLANA_RPC_URL").

(** [getConnection] returns. *)
Definition connects (w : World) : Prop := connectionFailure w = None.

(** [needle] occurs in [haystack]. *)
Definition occursIn (needle haystack : string) : Prop :=
  exists before after, haystack = before +:+ needle +:+ after.

(** The message of a failed mint says that the treasury lacks lamports. *)
Definition gasSignal (errMsg : string) : Prop :=
  occursIn "insufficient lamports" errMsg \/ occursIn "Insufficient lamports" errMsg.

(** The reads of the ledger succeed. *)
Definition readable (w : World) : Prop :=
  forall o, is_ledger_read o = true -> rpcFault w o = None.

(** Operations that submit nothing and write nothing. *)
Definition passive (o : Op) : bool :=
  negb (is_store_write o) && negb (is_transfer o) && negb (is_mint_submission o).

(** The sender the scan finds when the reads succeed. *)
Fixpoint firstSender (w : World) (receiver : string) (sigs : list string) : option string :=
  match sigs with
  | [] => None
  | sig :: rest =>
      match transactions w !! sig with
      | None => firstSender w receiver rest
      | Some meta =>
          match solana.scanPreBalances receiver (postTokenBalances meta) (preTokenBalances meta) with
          | Some sender => Some sender
          | None => firstSender w receiver rest
          end
      end
  end.

(** The window [findUsdcSender] scans: at most ten signatures, newest first. *)
Definition scannedWindow (w : World) (receiver : string) : list string :=
  take 10 (default [] (signatures w !! getAssociatedTokenAddress solana.USDC_MINT receiver)).

(** The amount [findUsdcSender] takes as the balance after the transaction
    of the account [pre] belongs to. *)
Definition postAmount (postBalances : list TokenBalance) (pre : TokenBalance) : Z :=
  match List.find (fun p => Nat.eqb (accountIndex p) (accountIndex pre)) postBalances with
  | Some p => amount p
  | None => 0
  end.

(** [pre] is a USDC account whose balance decreased across the transaction
    and whose owner is not the receiver. *)
Definition sentFrom (receiver : string) (meta : TxMeta) (pre : TokenBalance) : Prop :=
  In pre (preTokenBalances meta) /\
  tokenMint pre = solana.USDC_MINT /\
  amount pre > postAmount (postTokenBalances meta) pre /\
  owner pre <> receiver.

(** The transfer [sweepUsdc] submits for a balance. *)
Definition usdcSweepTx (derivedKeypair : Keypair) (masterPublicKey : string) (balance : Z) : Op :=
  SendAndConfirmTransaction
    (TokenTransfer (getAssociatedTokenAddress solana.USDC_MINT (publicKey derivedKeypair))
       (getAssociatedTokenAddress solana.USDC_MINT masterPublicKey)
       (publicKey derivedKeypair) balance)
    (publicKey derivedKeypair).

(** The transfer [sweepSol] submits for an amount. *)
Definition solSweepTx (derivedKeypair : Keypair) (masterPublicKey : string) (toSend : Z) : Op :=
  SendAndConfirmTransaction
    (SystemTransfer (publicKey derivedKeypair) masterPublicKey toSend)
    (publicKey derivedKeypair).

Definition someSignature (r : Outcome string) : Outcome (option string) :=
  match r with Ok sig => Ok (Some sig) | Thrown e => Thrown e end.

(** The session a stored key holds, if it holds one. *)
Definition storedSession (w : World) (sessionId : string) : option Session :=
  match store w !! poll.sessionKey sessionId with
  | Some (VSession s, _) => Some s
  | _ => None
  end.

(** The status a failed mint leaves, by the kind of the failure. *)
Definition failureStatus (mintErr : Err) : Status :=
  if poll.isInsufficientSol (poll.errMsgOf mintErr) then NeedsFunding else Paid.

(** The response to a failed mint. *)
Definition failureResponse (mintErr : Err) (buyerWallet : option string) : poll.Response :=
  if poll.isInsufficientSol (poll.errMsgOf mintErr)
  then poll.mkResponse 200 (poll.JNeedsFunding (poll.errMsgOf mintErr) buyerWallet)
  else poll.mkResponse 200 (poll.JPaid (poll.errMsgOf mintErr) buyerWallet).

(** The [buyerWallet] field of a response, when it has one. *)
Definition buyer_of (r : poll.Response) : option (option string) :=
  match poll.json r with
  | poll.JNeedsFunding _ b | poll.JPaid _ b | poll.JMinted _ _ b => Some b
  | _ => None
  end.

(** The session as the handler stores it after a successful mint. *)
Definition mintedSession (m : poll.MintResult) (session : Session) : Session :=
  set_mint (poll.mr_mintAddress m) (poll.mr_signature m) (set_status Minted session).

(** The world after [redis.set(key, session, ex)]. *)
Definition stored (key : string) (session : Session) (ex : Z) (w : World) : World :=
  with_store (insert key (VSession session, Some ex)) w.

(** What [findUsdcSender] answers in a world, and the operations it takes. *)
Definition detectedBuyer (w : World) (receiver : string) : option string :=
  match run (solana.findUsdcSender receiver) w with
  | (Ok b, _, _) => b
  | _ => None
  end.

Definition detectionTrace (w : World) (receiver : string) : list Op :=
  snd (run (solana.findUsdcSender receiver) w).

(** The session and the world at the moment the handler calls [mintNft]:
    [minting] written, the buyer detected and written. *)
Definition sessionAtMint (key : string) (session : Session) (kp : Keypair) (w : World)
    : Session :=
  let s1 := set_status Minting session in
  set_buyerWallet (detectedBuyer (stored key s1 3600 w) (publicKey kp)) s1.

Definition worldAtMint (key : string) (session : Session) (kp : Keypair) (w : World)
    : World :=
  stored key (sessionAtMint key session kp w) 3600
    (stored key (set_status Minting session) 3600 w).

(** The operations of the handler from the write of [minting] to the call
    of [mintNft]. *)
Definition traceToMint (key : string) (session : Session) (kp : Keypair) (w : World)
    : list Op :=
  let s1 := set_status Minting session in
  RedisSet key (VSession s1) 3600 ::
  detectionTrace (stored key s1 3600 w) (publicKey kp) ++
  [RedisSet key (VSession (sessionAtMint key session kp w)) 3600].

(** A well-formed poll of a session. *)
Definition pollRequest (sessionId : string) (test : option string) : poll.Request :=
  poll.mkRequest "GET" (Some sessionId) test.

(** The poll reaches the mint: the store answers, the session is stored,
    is neither [minting] nor [minted], has not expired, the endpoint is
    accepted, the master secret is configured, and the payment is confirmed
    (by the balance, or by the test parameter of the request). *)
Definition mintDue (w : World) (sessionId : string) (test : option string)
    (s : Session) (phrase : string) : Prop :=
  sessionId <> "" /\
  storeAnswers w /\
  connects w /\
  storedSession w sessionId = Some s /\
  status s <> Minting /\ status s <> Minted /\
  now w <= expiresAt s /\
  masterSecret w = Some phrase /\
  (test = Some "true" \/
   solana.REQUIRED_USDC <= usdcBalanceOf w (publicKey (keypairAt phrase (1000 + sessionIndex s)))).

(** The operations of a poll before the write of [minting]. *)
Definition traceToConfirm (sessionId : string) (test : option string) (kp : Keypair)
    : list Op :=
  [RedisGetJson (poll.sessionKey sessionId); DateNow; GetEnv "SOLANA_RPC_URL";
   GetEnv "MASTER_SEED_PHRASE"] ++
  (if bool_decide (test = Some "true") then []
   else [GetAccount (getAssociatedTokenAddress solana.USDC_MINT (publicKey kp))]).

(** The trace has a write of a session record with status [minting]. *)
Definition writesMinting (t : list Op) : bool :=
  existsb (fun o => match o with
                    | RedisSet _ (VSession s) _ => bool_decide (status s = Minting)
                    | _ => false
                    end) t.

(** The poll treats the payment as confirmed: it goes on to write
    [minting]. *)
Definition confirmsPayment (w : World) (sessionId : string) (test : option string) : bool :=
  writesMinting (snd (run (poll.handler (pollRequest sessionId test)) w)).

(** A well-formed request to create a session. *)
Definition createRequest (outputType : string) (metadata : Metadata) : session.Request :=
  session.mkRequest "POST" (Some (session.mkBody (Some outputType) (Some metadata))).

(** The session counter holds nothing yet, or an integer that is not
    negative. *)
Definition counterOk (w : World) : Prop :=
  forall v ttl, store w !! session.counterKey = Some (v, ttl) ->
    exists n, v = VInt n /\ 0 <= n.

(** The record [api/session.js] builds for an index at a time. *)
Definition newSession (phrase : string) (sessionIndex t : Z) (outputType : string)
    (metadata : Metadata) : Session :=
  mkSession ("sess_" +:+ pretty sessionIndex +:+ "_" +:+ pretty t) sessionIndex
    (publicKey (keypairAt phrase (1000 + sessionIndex))) outputType metadata
    Pending t (t + 1800000) 2250000 None None None None.

(** The two writes of the creation of [s] answer and the endpoint is
    accepted. *)
Definition creationProceeds (w : World) (s : Session) : Prop :=
  rpcFault w (RedisSet ("session:" +:+ sessionId s) (VSession s) 1800) = None /\
  rpcFault w (RedisSet ("address:" +:+ paymentAddress s) (VString (sessionId s)) 1800) = None /\
  connects w.

(** Every operation a program can perform satisfies [P]. *)
Fixpoint allOps {A : Type} (P : Op -> Prop) (p : Prog A) : Prop :=
  match p with
  | Ret _ | Throw _ => True
  | Vis o k => P o /\ forall r, allOps P (k r)
  end.

(** Every value a program can return satisfies [Q]. *)
Fixpoint returns {A : Type} (Q : A -> Prop) (p : Prog A) : Prop :=
  match p with
  | Ret a => Q a
  | Throw _ => True
  | Vis o k => forall r, returns Q (k r)
  end.

(** The answers of the handler once it has written [minting]. *)
Definition answered (response : poll.Response) : Prop :=
  poll.code response = 200 /\
  (poll.status_of response = Some "minted" \/
   poll.status_of response = Some "needs_funding" \/
   poll.status_of response = Some "paid").

(** The operation does not overwrite the session counter. *)
Definition keepsCounter (o : Op) : Prop :=
  match o with
  | RedisSet key _ _ => key <> session.counterKey
  | _ => True
  end.

(** The worlds the two handlers can bring about from an empty store, while
    the ledger, the clock and the environment move on their own and Redis
    drops keys that have a time to live. *)
Inductive reachable : World -> Prop :=
| reach_empty w : store w = ∅ -> reachable w
| reach_session w req r w' t :
    reachable w -> run (session.handler req) w = (r, w', t) -> reachable w'
| reach_poll w req r w' t :
    reachable w -> run (poll.handler req) w = (r, w', t) -> reachable w'
| reach_outside w w' :
    reachable w -> store w' = store w -> reachable w'
| reach_evict w key v ttl :
    reachable w -> store w !! key = Some (v, Some ttl) ->
    reachable (with_store (delete key) w).

End vocabulary.

(** ** A concrete instance *)

(** Stand-ins for the external primitives, and small worlds to run the
    handlers in. *)
Definition demoPrimitives : SolanaPrimitives := {|
  mnemonicToSeed m := m;
  derivePath path seed := seed +:+ "/" +:+ path;
  keypairFromSeed k := mkKeypair ("pub:" +:+ k) ("sec:" +:+ k);
  getAssociatedTokenAddress mint ownerKey := "ata:" +:+ ownerKey;
  endpointRejected url := None
|}.

Definition demoPhrase : string := "seed".

(** The environment of a configured deployment. *)
Definition demoEnv : gmap string string :=
  {[ "MASTER_SEED_PHRASE" := demoPhrase; "PINATA_JWT" := "jwt";
     "SOLANA_RPC_URL" := "https://api.mainnet-beta.solana.com" ]}.

(** An answer of the pinning service with an [IpfsHash]. *)
Definition demoPin : PinData :=
  let q := String (ascii_of_nat 34) EmptyString in
  mkPinData (Some "QmHash")
    ("{" +:+ q +:+ "IpfsHash" +:+ q +:+ ":" +:+ q +:+ "QmHash" +:+ q +:+ "}").

(** The rent of a token account. *)
Definition demoRent : Z := 2039280.

Definition demoMaster : Keypair := keypairAt (H := demoPrimitives) demoPhrase 0.
Definition demoEscrow : Keypair := keypairAt (H := demoPrimitives) demoPhrase 1001.
Definition demoAta : string :=
  getAssociatedTokenAddress (SolanaPrimitives := demoPrimitives)
    solana.USDC_MINT (publicKey demoEscrow).

Definition demoMetadata : Metadata := mkMetadata [("volume", "7")] (Some "drift") None None.

(** The session the handler creates at index 1 at time 1000. *)
Definition demoSession : Session :=
  newSession (H := demoPrimitives) demoPhrase 1 1000 "photo" demoMetadata.

Definition demoId : string := sessionId demoSession.

(** A payment of 2,250,000 from [buyer] into the escrow token account. *)
Definition demoPayment : TxMeta :=
  mkTxMeta
    [mkTokenBalance 0 solana.USDC_MINT "buyer" 5000000;
     mkTokenBalance 1 solana.USDC_MINT (publicKey demoEscrow) 0]
    [mkTokenBalance 0 solana.USDC_MINT "buyer" 2750000;
     mkTokenBalance 1 solana.USDC_MINT (publicKey demoEscrow) 2250000].

(** A later transaction in which only the escrow account itself decreases. *)
Definition demoOwnMove : TxMeta :=
  mkTxMeta
    [mkTokenBalance 0 solana.USDC_MINT (publicKey demoEscrow) 2250000;
     mkTokenBalance 1 "other-mint" "stranger" 9]
    [mkTokenBalance 0 solana.USDC_MINT (publicKey demoEscrow) 0;
     mkTokenBalance 1 "other-mint" "stranger" 1].

Definition noFault : Op -> option Err := fun _ => None.

(** The treasury cannot pay for the mint. *)
Definition mintFaultGas : Op -> option Err := fun o =>
  match o with
  | CreateNft _ _ _ => Some "Transfer: insufficient lamports 1000, need 15616720"
  | _ => None
  end.

(** The mint fails for another reason. *)
Definition mintFaultOther : Op -> option Err := fun o =>
  match o with
  | CreateNft _ _ _ => Some "Transaction simulation failed: Blockhash not found"
  | _ => None
  end.

(** Every transfer is refused. *)
Definition transferFault : Op -> option Err := fun o =>
  match o with
  | SendAndConfirmTransaction _ _ => Some "failed to send transaction"
  | _ => None
  end.

(** A world that stores [demoSession] with a given status, at a given time,
    with a given escrow balance and given failures. *)
Definition demoWorld (st : Status) (t : Z) (balance : Z) (fault : Op -> option Err) : World :=
  mkWorld demoEnv
    t
    {[ poll.sessionKey demoId := (VSession (set_status st demoSession), Some 1800) ]}
    {[ demoAta := balance ]}
    {[ publicKey demoEscrow := 3000000; publicKey demoMaster := 7000000 ]}
    {[ demoAta := ["sigB"; "sigA"] ]}
    {[ "sigA" := demoPayment; "sigB" := demoOwnMove ]}
    fault demoPin (fun _ => "5ig") (fun n => "mint" +:+ pretty n) 0 [] demoRent.

(** The session as it is stored once minted and swept. *)
Definition demoSwept : Session :=
  set_sweepSignature (Some "5ig")
    (set_mint "mint0" "5ig" (set_buyerWallet (Some "buyer") (set_status Swept demoSession))).

Definition demoSweptWorld (t : Z) : World :=
  mkWorld demoEnv
    t
    {[ poll.sessionKey demoId := (VSession demoSwept, Some 86400) ]}
    {[ demoAta := 0 ]}
    {[ publicKey demoMaster := 10000000 ]}
    {[ demoAta := ["sigS"; "sigA"] ]}
    {[ "sigA" := demoPayment ]}
    noFault demoPin (fun _ => "5ig") (fun n => "mint" +:+ pretty n) 1
    [("mint0", "https://gateway.pinata.cloud/ipfs/QmHash", "buyer")] demoRent.

(** A world before any session, with a treasury that holds [treasury]
    lamports. *)
Definition demoFreshWorld (treasury : Z) : World :=
  mkWorld demoEnv
    1000 ∅ ∅ {[ publicKey demoMaster := treasury ]} ∅ ∅
    noFault demoPin (fun _ => "5ig") (fun n => "mint" +:+ pretty n) 0 [] demoRent.

(** ** [api/health.js] *)

(** The handler reads six environment variables and pings Redis inside a
    [try] whose [catch] is empty.  It calls [redis.get], which is not an
    operation of the two handlers above, so it is written here with the
    world passed along; what the ping meets is an input. *)
Module health.
Record Checks := mkChecks {
  seedPhrase : bool;
  solanaRpc : bool;
  nftStorage : bool;
  personalWallet : bool;
  upstashUrl : bool;
  upstashToken : bool
}.

Record Response := mkResponse {
  code : Z;
  status : string;
  checks : Checks;
  redis : string
}.

(** The ping goes through, or [redis.set] throws, or [redis.get] throws. *)
Inductive Ping := Answers | SetFails | GetFails.

Definition pingKey : string := "health-ping".

(** [!!process.env.NAME]. *)
Definition configured (w : World) (name : string) : bool := truthy (env w !! name).

(** [Object.values(checks).every(Boolean)]. *)
Definition every (c : Checks) : bool :=
  seedPhrase c && solanaRpc c && nftStorage c && personalWallet c &&
  upstashUrl c && upstashToken c.

Definition handler (ping : Ping) (w : World) : Response * World :=
  let checks :=
    mkChecks (configured w "MASTER_SEED_PHRASE") (configured w "SOLANA_RPC_URL")
      (configured w "NFT_STORAGE_KEY") (configured w "PERSONAL_WALLET_PUBLIC_KEY")
      (configured w "dayafterday_KV_REST_API_URL")
      (configured w "dayafterday_KV_REST_API_TOKEN") in
  let allOk := every checks in
  let written := with_store (insert pingKey (VString "1", ttl_of 10)) w in
  let '(redisPing, w1) :=
    match ping with
    | SetFails => (false, w)
    | GetFails => (false, written)
    | Answers =>
        (match store written !! pingKey with
         | Some (VString val, _) => bool_decide (val = "1")
         | _ => false
         end, written)
    end in
  (mkResponse (if allOk then 200 else 500) (if allOk then "ok" else "degraded") checks
     (if redisPing then "connected" else "error"),
   w1).

(** The variables the handler looks at. *)
Definition checked : list string :=
  ["MASTER_SEED_PHRASE"; "SOLANA_RPC_URL"; "NFT_STORAGE_KEY";
   "PERSONAL_WALLET_PUBLIC_KEY"; "dayafterday_KV_REST_API_URL";
   "dayafterday_KV_REST_API_TOKEN"].
End health.

(** ** Vocabulary of the further statements *)

Section further_vocabulary.
Context `{SolanaPrimitives}.

(** The fields of a session that no handler assigns after creation. *)
Definition sameIdentity (s s' : Session) : Prop :=
  sessionId s' = sessionId s /\
  sessionIndex s' = sessionIndex s /\
  paymentAddress s' = paymentAddress s /\
  outputType s' = outputType s /\
  metadata s' = metadata s /\
  createdAt s' = createdAt s /\
  expiresAt s' = expiresAt s /\
  requiredUsdc s' = requiredUsdc s.

(** The operation writes nothing to the store but a session record under
    [key], for one hour or for a day. *)
Definition writesOnly (key : string) (o : Op) : Prop :=
  match o with
  | RedisSet k (VSession _) ex => k = key /\ (ex = 3600 \/ ex = 86400)
  | RedisSet _ _ _ => False
  | RedisIncr _ => False
  | _ => True
  end.

(** The record a poll leaves in the store when it has reached the mint:
    the loaded record with [buyerWallet] assigned and then either a failure
    status, or the mint result, or the mint result and the sweep. *)
Inductive afterPoll (s : Session) : Session -> Prop :=
| after_failed buyer st :
    st = NeedsFunding \/ st = Paid ->
    afterPoll s (set_status st (set_buyerWallet buyer (set_status Minting s)))
| after_minted buyer addr sig :
    afterPoll s (set_mint addr sig
                   (set_status Minted (set_buyerWallet buyer (set_status Minting s))))
| after_swept buyer addr sig sweep :
    afterPoll s (set_status Swept
                   (set_sweepSignature sweep
                      (set_mint addr sig
                         (set_status Minted (set_buyerWallet buyer (set_status Minting s)))))).

(** The record a poll can leave behind when one of its writes to the store
    fails, with the seconds it is kept for: the loaded record marked
    [minting], with or without the buyer, for an hour; or a failure status
    on a record that has the mint result, when the mint went through and
    the write of [minted] did not. *)
Inductive brokenPoll (s : Session) : Session -> Z -> Prop :=
| broken_minting : brokenPoll s (set_status Minting s) 3600
| broken_buyer buyer :
    brokenPoll s (set_buyerWallet buyer (set_status Minting s)) 3600
| broken_minted buyer addr sig st :
    st = NeedsFunding \/ st = Paid ->
    brokenPoll s
      (set_status st
         (set_mint addr sig
            (set_status Minted (set_buyerWallet buyer (set_status Minting s))))) 86400.

(** A write to the store among the operations [t] is one the world
    refuses. *)
Definition writeFailed (w : World) (t : list Op) : Prop :=
  exists o e, In o t /\ is_store_write o = true /\ rpcFault w o = Some e.

(** The value of the session counter; [0] before the first [INCR]. *)
Definition counterValue (w : World) : Z :=
  match store w !! session.counterKey with
  | Some (VInt n, _) => n
  | _ => 0
  end.

(** From one world to a later one: handlers run, the ledger, the clock and
    the environment move on their own while the store stays, and Redis drops
    keys that have a time to live. *)
Inductive history : World -> World -> Prop :=
| history_here w : history w w
| history_session w w1 req r w2 t :
    history w w1 -> run (session.handler req) w1 = (r, w2, t) -> history w w2
| history_poll w w1 req r w2 t :
    history w w1 -> run (poll.handler req) w1 = (r, w2, t) -> history w w2
| history_outside w w1 w2 :
    history w w1 -> store w2 = store w1 -> history w w2
| history_evict w w1 key v ttl :
    history w w1 -> store w1 !! key = Some (v, Some ttl) ->
    history w (with_store (delete key) w1).

(** The session counter, when present, is a non-negative integer without a
    time to live. *)
Definition counterKept (w : World) : Prop :=
  forall v ttl, store w !! session.counterKey = Some (v, ttl) ->
    ttl = None /\ exists n, v = VInt n /\ 0 <= n.

(** What holds of a record stored under the key of session [id]. *)
Definition recordOk (id : string) (s : Session) : Prop :=
  sessionId s = id /\
  1 <= sessionIndex s /\
  (exists t : Z, id = "sess_" +:+ pretty (sessionIndex s) +:+ "_" +:+ pretty t) /\
  requiredUsdc s = solana.REQUIRED_USDC /\
  (status s = Minted \/ status s = Swept ->
   is_Some (mintAddress s) /\ is_Some (mintSignature s)) /\
  (status s = Pending ->
   buyerWallet s = None /\ mintAddress s = None /\ mintSignature s = None /\
   sweepSignature s = None).

(** Every key of the form [session:id] holds a session record, that record
    is in order, and its index is one the counter has handed out. *)
Definition storeTyped (w : World) : Prop :=
  forall id v ttl, store w !! poll.sessionKey id = Some (v, ttl) ->
    exists s, v = VSession s /\ recordOk id s /\ sessionIndex s <= counterValue w.

(** No character of the string is an underscore. *)
Fixpoint underscoreFree (s : string) : Prop :=
  match s with
  | EmptyString => True
  | String c rest => c <> "_"%char /\ underscoreFree rest
  end.

(** The operation is not a write to the store. *)
Definition quietOp (o : Op) : Prop := is_store_write o = false.

(** The operations of [mintNft] up to the upload of the metadata. *)
Definition mintUpload (session : Session) (phrase : string) : list Op :=
  [GetEnv "MASTER_SEED_PHRASE"; GetEnv "PINATA_JWT";
   PinFileToIPFS session (publicKey (keypairAt phrase 0))].

(** The owner [mintNft] names for the new asset. *)
Definition mintRecipient (phrase : string) (buyerWallet : option string) : string :=
  if truthy buyerWallet then default "" buyerWallet
  else publicKey (keypairAt phrase 0).

(** The transfer [fundDerivedWallet] submits. *)
Definition fundingTx (masterKeypair : Keypair) (derivedPublicKey : string) : Op :=
  SendAndConfirmTransaction
    (SystemTransfer (publicKey masterKeypair) derivedPublicKey solana.ATA_INIT_LAMPORTS)
    (publicKey masterKeypair).

(** The number of calls of [sendAndConfirmTransaction] in a trace. *)
Definition transfers (t : list Op) : nat :=
  length (filter (fun o => is_transfer o = true) t).

(** On every path through the program, at most [n] operations are of the
    kind [P]. *)
Fixpoint bounded {A : Type} (P : Op -> bool) (n : nat) (p : Prog A) : Prop :=
  match p with
  | Ret _ | Throw _ => True
  | Vis o k =>
      if P o then
        match n with
        | O => False
        | S m => forall r, bounded P m (k r)
        end
      else forall r, bounded P n (k r)
  end.

(** The operation leaves the ledger as it is: no transaction, no mint, no
    token account created. *)
Definition keepsLedger (o : Op) : Prop :=
  match o with
  | SendAndConfirmTransaction _ _ | GetOrCreateAssociatedTokenAccount _ _ _
  | CreateNft _ _ _ => False
  | _ => True
  end.

(** The token account [initUsdcAta] asks for. *)
Definition ataInit (masterKeypair : Keypair) (derivedPublicKey : string) : Op :=
  GetOrCreateAssociatedTokenAccount (publicKey masterKeypair) solana.USDC_MINT
    derivedPublicKey.
End further_vocabulary.

(** ** Further concrete worlds *)

Section further_instance.
Local Existing Instance demoPrimitives.

(** The world of [demoWorld] at time 2000 with the payment received, under
    another environment. *)
Definition demoEnvWorld (environment : gmap string string) : World :=
  mkWorld environment 2000
    {[ poll.sessionKey demoId := (VSession demoSession, Some 1800) ]}
    {[ demoAta := 2250000 ]}
    {[ publicKey demoEscrow := 3000000; publicKey demoMaster := 7000000 ]}
    {[ demoAta := ["sigB"; "sigA"] ]}
    {[ "sigA" := demoPayment; "sigB" := demoOwnMove ]}
    noFault demoPin (fun _ => "5ig") (fun n => "mint" +:+ pretty n) 0 [] demoRent.


(** The endpoint is set, the master secret is not. *)
Definition demoNoSecret : gmap string string :=
  {[ "SOLANA_RPC_URL" := "https://api.mainnet-beta.solana.com" ]}.



(** The store refuses the write of a [minting] record that names a
    buyer. *)
Definition buyerWriteFault : Op -> option Err := fun o =>
  match o with
  | RedisSet _ (VSession s) _ =>
      if bool_decide (status s = Minting) && bool_decide (buyerWallet s = Some "buyer")
      then Some "Redis error: ERR max daily request limit exceeded"
      else None
  | _ => None
  end.

(** The world [w] at a later time and with other failures, the store, the
    ledger and the environment as they are. *)
Definition demoLater (w : World) (t : Z) (fault : Op -> option Err) : World :=
  mkWorld (env w) t (store w) (usdc w) (lamports w) (signatures w) (transactions w)
    fault (pinData w) (signatureOf w) (mintKeys w) (drawn w) (nfts w) (accountRent w).

(** Every read of a token account is refused. *)
Definition accountFault : Op -> option Err := fun o =>
  match o with
  | GetAccount _ => Some "429 Too Many Requests"
  | _ => None
  end.

(** The newest transaction of the escrow account cannot be read. *)
Definition newestFault : Op -> option Err := fun o =>
  match o with
  | GetTransaction "sigB" => Some "503 Service Unavailable"
  | _ => None
  end.

(** The first creation in a fresh world, and the world it leaves. *)
Definition demoCreation : Outcome session.Response * World * list Op :=
  run (session.handler (createRequest "photo" demoMetadata)) (demoFreshWorld 10000000).

Definition demoCreated : World := snd (fst demoCreation).

(** A second creation, in the world the first one leaves. *)
Definition demoSecond : Outcome session.Response * World * list Op :=
  run (session.handler (createRequest "audio" demoMetadata)) demoCreated.
End further_instance.

(** * Properties *)

(** ** Running programs *)

Section running.
Context `{SolanaPrimitives}.

Lemma run_bind {A B : Type} (p : Prog A) (f : A -> Prog B) (w : World) :
  run (bind p f) w =
  match run p w with
  | (Ok a, w1, t1) => let '(r, w2, t2) := run (f a) w1 in (r, w2, t1 ++ t2)
  | (Thrown e, w1, t1) => (Thrown e, w1, t1)
  end.
Proof.
  revert w. induction p as [a | e | o k IH]; intros w; simpl.
  - destruct (run (f a) w) as [[r w2] t2]. reflexivity.
  - reflexivity.
  - destruct (exec o w) as [r w1]. rewrite IH.
    destruct (run (k r) w1) as [[[a | e] w2] t2]; simpl.
    + destruct (run (f a) w2) as [[r' w3] t3]. reflexivity.
    + reflexivity.
Qed.

Lemma run_tryCatch {A : Type} (p : Prog A) (h : Err -> Prog A) (w : World) :
  run (tryCatch p h) w =
  match run p w with
  | (Ok a, w1, t1) => (Ok a, w1, t1)
  | (Thrown e, w1, t1) => let '(r, w2, t2) := run (h e) w1 in (r, w2, t1 ++ t2)
  end.
Proof.
  revert w. induction p as [a | e | o k IH]; intros w; simpl.
  - reflexivity.
  - destruct (run (h e) w) as [[r w2] t2]. reflexivity.
  - destruct (exec o w) as [r w1]. rewrite IH.
    destruct (run (k r) w1) as [[[a | e] w2] t2]; simpl.
    + reflexivity.
    + destruct (run (h e) w2) as [[r' w3] t3]. reflexivity.
Qed.

Lemma run_call (o : Op) (w : World) :
  run (call o) w =
  match exec o w with
  | (Ok v, w1) => (Ok v, w1, [o])
  | (Thrown e, w1) => (Thrown e, w1, [o])
  end.
Proof. simpl. destruct (exec o w) as [[v | e] w1]; reflexivity. Qed.

Lemma run_Ret {A : Type} (a : A) (w : World) : run (Ret a) w = (Ok a, w, []).
Proof. reflexivity. Qed.

Lemma run_Throw {A : Type} (e : Err) (w : World) :
  run (@Throw A e) w = (Thrown e, w, []).
Proof. reflexivity. Qed.

(** The requests to the store fail when the world says so; the clock, the
    environment and the console never fail. *)
Lemma exec_RedisGetJson key w :
  exec (RedisGetJson key) w =
  match rpcFault w (RedisGetJson key) with
  | Some e => (Thrown e, w)
  | None => (Ok (getJson_result (store w !! key)), w)
  end.
Proof. reflexivity. Qed.

Lemma exec_RedisSet key v ex w :
  exec (RedisSet key v ex) w =
  match rpcFault w (RedisSet key v ex) with
  | Some e => (Thrown e, w)
  | None => (Ok tt, with_store (insert key (v, ttl_of ex)) w)
  end.
Proof. reflexivity. Qed.

Lemma exec_DateNow w : exec DateNow w = (Ok (now w), w).
Proof. reflexivity. Qed.

Lemma exec_GetEnv name w : exec (GetEnv name) w = (Ok (env w !! name), w).
Proof. reflexivity. Qed.

Lemma exec_ConsoleError l w : exec (ConsoleError l) w = (Ok tt, w).
Proof. reflexivity. Qed.

Lemma run_RedisSet key v ex w :
  storeAnswers w ->
  run (A := unit) (call (RedisSet key v ex)) w =
  (Ok tt, with_store (insert key (v, ttl_of ex)) w, [RedisSet key v ex]).
Proof.
  intros Hs. cbn [run call]. rewrite exec_RedisSet, (Hs (RedisSet key v ex) eq_refl).
  reflexivity.
Qed.

(** A write to the store goes through or throws and changes nothing. *)
Lemma run_RedisSet_cases key v ex w :
  run (A := unit) (call (RedisSet key v ex)) w =
  match rpcFault w (RedisSet key v ex) with
  | Some e => (Thrown e, w, [RedisSet key v ex])
  | None => (Ok tt, with_store (insert key (v, ttl_of ex)) w, [RedisSet key v ex])
  end.
Proof. cbn [run call]. rewrite exec_RedisSet. destruct (rpcFault w _); reflexivity. Qed.

Lemma run_ConsoleError l w :
  run (A := unit) (call (ConsoleError l)) w = (Ok tt, w, [ConsoleError l]).
Proof. reflexivity. Qed.

Lemma run_DateNow w : run (A := Z) (call DateNow) w = (Ok (now w), w, [DateNow]).
Proof. reflexivity. Qed.

Lemma run_RedisGetJson key w :
  rpcFault w (RedisGetJson key) = None ->
  run (A := option StoreVal) (call (RedisGetJson key)) w =
  (Ok (getJson_result (store w !! key)), w, [RedisGetJson key]).
Proof. intros Hs. cbn [run call]. rewrite exec_RedisGetJson, Hs. reflexivity. Qed.

Lemma run_RedisGetJson_fault key w e :
  rpcFault w (RedisGetJson key) = Some e ->
  run (A := option StoreVal) (call (RedisGetJson key)) w = (Thrown e, w, [RedisGetJson key]).
Proof. intros Hs. cbn [run call]. rewrite exec_RedisGetJson, Hs. reflexivity. Qed.

Lemma run_GetEnv name w :
  run (A := option string) (call (GetEnv name)) w = (Ok (env w !! name), w, [GetEnv name]).
Proof. reflexivity. Qed.

Lemma exec_GenerateSigner w :
  exec GenerateSigner w = (Ok (mintKeys w (drawn w)), with_drawn (S (drawn w)) w).
Proof. reflexivity. Qed.

(** No operation changes which requests fail, nor the rent. *)
Lemma submit_rpcFault (tx : Tx) (w : World) :
  rpcFault (snd (submit tx w)) = rpcFault w.
Proof.
  destruct tx; simpl;
    repeat match goal with
      | |- context [match ?x with _ => _ end] => destruct x; simpl
      end; reflexivity.
Qed.

Lemma exec_rpcFault (o : Op) (w : World) : rpcFault (snd (exec o w)) = rpcFault w.
Proof.
  unfold exec. destruct (if external o then rpcFault w o else None); [reflexivity|].
  destruct o; simpl;
    try (pose proof (submit_rpcFault tx w) as Hs; destruct (submit tx w) as [[[] | e] ws];
         exact Hs);
    repeat match goal with
      | |- context [match ?x with _ => _ end] => destruct x; simpl
      end; reflexivity.
Qed.

Lemma run_rpcFault {A : Type} (p : Prog A) (w w1 : World) r t :
  run p w = (r, w1, t) -> rpcFault w1 = rpcFault w.
Proof.
  revert w w1 r t. induction p as [a | e | o k IH]; intros w w1 r t; simpl.
  - now intros [= _ <- _].
  - now intros [= _ <- _].
  - pose proof (exec_rpcFault o w) as Hx. destruct (exec o w) as [x wx].
    destruct (run (k x) wx) as [[r' w''] t'] eqn:Hrun.
    intros [= _ <- _]. rewrite (IH x _ _ _ _ Hrun). exact Hx.
Qed.

Lemma storeAnswers_same (w w1 : World) :
  rpcFault w1 = rpcFault w -> storeAnswers w -> storeAnswers w1.
Proof. intros Heq Hs o Ho. rewrite Heq. now apply Hs. Qed.

Lemma run_storeAnswers {A : Type} (p : Prog A) (w w1 : World) r t :
  run p w = (r, w1, t) -> storeAnswers w -> storeAnswers w1.
Proof. intros Hrun. exact (storeAnswers_same _ _ (run_rpcFault _ _ _ _ _ Hrun)). Qed.

(** [getConnection] by what the constructor makes of the endpoint. *)
Lemma run_getConnection (w : World) :
  run solana.getConnection w =
  (match connectionFailure w with Some e => Thrown e | None => Ok tt end, w,
   [GetEnv "SOLANA_RPC_URL"]).
Proof.
  unfold solana.getConnection, connectionFailure.
  rewrite run_bind, run_call, exec_GetEnv.
  destruct (solana.connectionError _); reflexivity.
Qed.
End running.

(** ** lib/wallet.js and lib/solana.js, function by function *)

Section library.
Context `{SolanaPrimitives}.

Lemma run_deriveKeypair (index : Z) (w : World) :
  run (wallet.deriveKeypair index) w =
  (match masterSecret w with
   | Some phrase => Ok (keypairAt phrase index)
   | None => Thrown "MASTER_SEED_PHRASE not configured"
   end, w, [GetEnv "MASTER_SEED_PHRASE"]).
Proof.
  unfold wallet.deriveKeypair, masterSecret.
  rewrite run_bind, run_call, exec_GetEnv.
  destruct (env w !! "MASTER_SEED_PHRASE") as [[|c phrase]|]; reflexivity.
Qed.

Lemma run_getMasterKeypair (w : World) (phrase : string) :
  masterSecret w = Some phrase ->
  run wallet.getMasterKeypair w =
  (Ok (keypairAt phrase 0), w, [GetEnv "MASTER_SEED_PHRASE"]).
Proof.
  intros Hs. unfold wallet.getMasterKeypair. rewrite run_deriveKeypair, Hs. reflexivity.
Qed.

Lemma run_getSessionKeypair (w : World) (phrase : string) (i : Z) :
  masterSecret w = Some phrase ->
  run (wallet.getSessionKeypair i) w =
  (Ok (keypairAt phrase (1000 + i)), w, [GetEnv "MASTER_SEED_PHRASE"]).
Proof.
  intros Hs. unfold wallet.getSessionKeypair. rewrite run_deriveKeypair, Hs. reflexivity.
Qed.

Lemma string_length_app (a b : string) :
  String.length (a +:+ b) = (String.length a + String.length b)%nat.
Proof. induction a as [|c a IH]; simpl; [reflexivity | now rewrite IH]. Qed.

Lemma string_app_inv_tail (a b c : string) : a +:+ c = b +:+ c -> a = b.
Proof.
  revert b. induction a as [|x a IH]; intros [|y b] Heq.
  - reflexivity.
  - apply (f_equal String.length) in Heq.
    rewrite !string_length_app in Heq. simpl in Heq. lia.
  - apply (f_equal String.length) in Heq.
    rewrite !string_length_app in Heq. simpl in Heq. lia.
  - change (String x (a +:+ c) = String y (b +:+ c)) in Heq.
    injection Heq as -> Heq. f_equal. now apply IH.
Qed.

(** Distinct indices give distinct derivation paths. *)
Lemma derivationPath_inj (i j : Z) :
  wallet.derivationPath i = wallet.derivationPath j -> i = j.
Proof.
  unfold wallet.derivationPath. intros Heq.
  apply (inj (String.append "m/44'/501'/")) in Heq.
  apply string_app_inv_tail in Heq. now apply (inj pretty) in Heq.
Qed.

Lemma run_getUsdcBalance (pk : string) (w : World) :
  run (solana.getUsdcBalance pk) w =
  (Ok (usdcBalanceOf w pk), w,
   [GetAccount (getAssociatedTokenAddress solana.USDC_MINT pk)]).
Proof.
  unfold solana.getUsdcBalance, usdcBalanceOf.
  rewrite run_tryCatch, run_bind, run_call. unfold exec; simpl.
  destruct (rpcFault w _) as [e|]; [reflexivity|].
  destruct (usdc w !! _) as [n|]; reflexivity.
Qed.
End library.

Section ledger_reads.
Context `{SolanaPrimitives}.

Lemma exec_no_fault (o : Op) (w : World) :
  rpcFault w o = None -> exec o w = perform o w.
Proof. intros Hf. unfold exec. rewrite Hf. destruct (external o); reflexivity. Qed.

Lemma exec_fault (o : Op) (w : World) (e : Err) :
  external o = true -> rpcFault w o = Some e -> exec o w = (Thrown e, w).
Proof. intros He Hf. unfold exec. rewrite He, Hf. reflexivity. Qed.

Lemma exec_GetTransaction sig w :
  exec (GetTransaction sig) w =
  match rpcFault w (GetTransaction sig) with
  | Some e => (Thrown e, w)
  | None => (Ok (transactions w !! sig), w)
  end.
Proof. reflexivity. Qed.

Lemma exec_GetBalance pk w :
  exec (GetBalance pk) w =
  match rpcFault w (GetBalance pk) with
  | Some e => (Thrown e, w)
  | None => (Ok (balanceIn (lamports w) pk), w)
  end.
Proof. reflexivity. Qed.

Lemma exec_GetSignaturesForAddress ata n w :
  exec (GetSignaturesForAddress ata n) w =
  match rpcFault w (GetSignaturesForAddress ata n) with
  | Some e => (Thrown e, w)
  | None => (Ok (take n (default [] (signatures w !! ata))), w)
  end.
Proof. reflexivity. Qed.

Lemma scanSignatures_cons (receiver sig : string) (rest : list string) :
  solana.scanSignatures receiver (sig :: rest) =
  (tx <- call (GetTransaction sig) ;;
   match tx with
   | None => solana.scanSignatures receiver rest
   | Some meta =>
       match solana.scanPreBalances receiver (postTokenBalances meta) (preTokenBalances meta) with
       | Some sender => Ret (Some sender)
       | None => solana.scanSignatures receiver rest
       end
   end).
Proof. reflexivity. Qed.

(** The scan of the signatures reads and nothing else, whatever fails. *)
Lemma run_scanSignatures_reads (receiver : string) (sigs : list string) (w : World) :
  exists r t,
    run (solana.scanSignatures receiver sigs) w = (r, w, t) /\
    Forall (fun o => is_ledger_read o = true) t.
Proof.
  induction sigs as [|sig rest IH].
  - exists (Ok None), []. split; [reflexivity | constructor].
  - rewrite scanSignatures_cons, run_bind, run_call, exec_GetTransaction.
    destruct (rpcFault w (GetTransaction sig)) as [e|].
    { exists (Thrown e), [GetTransaction sig]. split; [reflexivity|].
      repeat constructor. }
    destruct IH as (r & t & Hrun & Ht).
    destruct (transactions w !! sig) as [meta|].
    + destruct (solana.scanPreBalances _ _ _) as [sender|].
      * exists (Ok (Some sender)), [GetTransaction sig].
        split; [reflexivity | repeat constructor].
      * rewrite Hrun. exists r, (GetTransaction sig :: t).
        split; [reflexivity | constructor; [reflexivity | exact Ht]].
    + rewrite Hrun. exists r, (GetTransaction sig :: t).
      split; [reflexivity | constructor; [reflexivity | exact Ht]].
Qed.

(** [findUsdcSender] always resolves, and leaves the world as it found it. *)
Lemma run_findUsdcSender_total (receiver : string) (w : World) :
  exists r t,
    run (solana.findUsdcSender receiver) w = (Ok r, w, t) /\
    Forall (fun o => passive o = true) t.
Proof.
  unfold solana.findUsdcSender.
  rewrite run_tryCatch, run_bind, run_call, exec_GetSignaturesForAddress.
  destruct (rpcFault w _) as [e|].
  - exists None. eexists. split; [reflexivity | repeat constructor].
  - destruct (run_scanSignatures_reads receiver
                (take 10 (default [] (signatures w !!
                   getAssociatedTokenAddress solana.USDC_MINT receiver))) w)
      as ([r | e] & t & Hrun & Ht); rewrite Hrun.
    + exists r. eexists. split; [reflexivity|].
      constructor; [reflexivity|].
      eapply Forall_impl; [exact Ht|]. intros o Ho. destruct o; try discriminate; reflexivity.
    + exists None. eexists. split; [reflexivity|].
      constructor; [reflexivity|]. apply Forall_app. split.
      * eapply Forall_impl; [exact Ht|]. intros o Ho. destruct o; try discriminate; reflexivity.
      * repeat constructor.
Qed.

Lemma run_scanSignatures_readable (receiver : string) (sigs : list string) (w : World) :
  readable w ->
  exists t, run (solana.scanSignatures receiver sigs) w = (Ok (firstSender w receiver sigs), w, t).
Proof.
  intros Hr. induction sigs as [|sig rest IH].
  - eexists; reflexivity.
  - destruct IH as [t Ht].
    rewrite scanSignatures_cons, run_bind, run_call.
    rewrite (exec_no_fault (GetTransaction sig)) by (apply Hr; reflexivity).
    cbn [perform firstSender].
    destruct (transactions w !! sig) as [meta|].
    + destruct (solana.scanPreBalances _ _ _) as [sender|].
      * eexists; reflexivity.
      * rewrite Ht. eexists; reflexivity.
    + rewrite Ht. eexists; reflexivity.
Qed.

Lemma run_findUsdcSender_readable (receiver : string) (w : World) :
  readable w ->
  exists t,
    run (solana.findUsdcSender receiver) w =
    (Ok (firstSender w receiver (scannedWindow w receiver)), w, t).
Proof.
  intros Hr. unfold solana.findUsdcSender.
  rewrite run_tryCatch, run_bind, run_call.
  rewrite exec_no_fault by (apply Hr; reflexivity). simpl perform.
  destruct (run_scanSignatures_readable receiver (scannedWindow w receiver) w Hr) as [t Ht].
  unfold scannedWindow in Ht. rewrite Ht. eexists; reflexivity.
Qed.
End ledger_reads.

(** ** Counterparty detection *)

Section counterparty.
Context `{SolanaPrimitives}.

Lemma scanPreBalances_None receiver posts pres :
  solana.scanPreBalances receiver posts pres = None ->
  forall pre, In pre pres ->
    ~ (tokenMint pre = solana.USDC_MINT /\ amount pre > postAmount posts pre /\
       owner pre <> receiver).
Proof.
  induction pres as [|p rest IH]; simpl; intros Hscan pre Hin; [contradiction|].
  fold (postAmount posts p) in Hscan.
  destruct (bool_decide_reflect (tokenMint p = solana.USDC_MINT)) as [Hm | Hm];
    simpl in Hscan.
  - destruct (Z.gtb_spec (amount p) (postAmount posts p)) as [Hgt | Hle];
      simpl in Hscan.
    + destruct (bool_decide_reflect (owner p = receiver)) as [Ho | Ho];
        simpl in Hscan; [|discriminate].
      destruct Hin as [<- | Hin]; [tauto | now apply IH].
    + destruct Hin as [<- | Hin]; [lia | now apply IH].
  - destruct Hin as [<- | Hin]; [tauto | now apply IH].
Qed.

Lemma scanPreBalances_Some receiver posts pres sender :
  solana.scanPreBalances receiver posts pres = Some sender ->
  exists pre, In pre pres /\ owner pre = sender /\
    tokenMint pre = solana.USDC_MINT /\ amount pre > postAmount posts pre /\
    owner pre <> receiver.
Proof.
  induction pres as [|p rest IH]; simpl; intros Hscan; [discriminate|].
  fold (postAmount posts p) in Hscan.
  destruct (bool_decide_reflect (tokenMint p = solana.USDC_MINT)) as [Hm | Hm];
    simpl in Hscan.
  - destruct (Z.gtb_spec (amount p) (postAmount posts p)) as [Hgt | Hle];
      simpl in Hscan.
    + destruct (bool_decide_reflect (owner p = receiver)) as [Ho | Ho];
        simpl in Hscan.
      * destruct (IH Hscan) as (pre & Hin & Hrest). exists pre. tauto.
      * injection Hscan as <-. exists p. repeat split; auto; lia.
    + destruct (IH Hscan) as (pre & Hin & Hrest). exists pre. tauto.
  - destruct (IH Hscan) as (pre & Hin & Hrest). exists pre. tauto.
Qed.

Lemma firstSender_None w receiver sigs :
  firstSender w receiver sigs = None ->
  forall sig meta pre,
    In sig sigs -> transactions w !! sig = Some meta -> ~ sentFrom receiver meta pre.
Proof.
  induction sigs as [|s rest IH]; simpl; intros Hf sig meta pre Hin Htx; [contradiction|].
  destruct (transactions w !! s) as [m|] eqn:Hs.
  - destruct (solana.scanPreBalances _ _ _) eqn:Hscan; [discriminate|].
    destruct Hin as [<- | Hin]; [|now apply (IH Hf sig)].
    rewrite Hs in Htx. injection Htx as <-.
    intros (Hin' & Hq). exact (scanPreBalances_None _ _ _ Hscan pre Hin' Hq).
  - destruct Hin as [<- | Hin]; [congruence | now apply (IH Hf sig)].
Qed.

Lemma firstSender_Some w receiver sigs sender :
  firstSender w receiver sigs = Some sender ->
  exists (i : nat) sig meta pre,
    sigs !! i = Some sig /\ transactions w !! sig = Some meta /\
    sentFrom receiver meta pre /\ owner pre = sender /\
    forall (j : nat) sig' meta' pre',
      (j < i)%nat -> sigs !! j = Some sig' -> transactions w !! sig' = Some meta' ->
      ~ sentFrom receiver meta' pre'.
Proof.
  induction sigs as [|s rest IH]; simpl; intros Hf; [discriminate|].
  destruct (transactions w !! s) as [m|] eqn:Hs.
  - destruct (solana.scanPreBalances _ _ _) as [found|] eqn:Hscan.
    + injection Hf as ->.
      destruct (scanPreBalances_Some _ _ _ _ Hscan) as (pre & Hin & Ho & Hq).
      exists 0%nat, s, m, pre.
      refine (conj eq_refl (conj Hs (conj _ (conj Ho _)))).
      * unfold sentFrom. tauto.
      * intros j ? ? ? Hj. lia.
    + destruct (IH Hf) as (i & sig & meta & pre & Hi & Htx & Hq & Ho & Hbefore).
      exists (S i), sig, meta, pre.
      refine (conj Hi (conj Htx (conj Hq (conj Ho _)))).
      intros [|j] sig' meta' pre' Hj Hlook Htx'.
      * simpl in Hlook. injection Hlook as <-. rewrite Hs in Htx'. injection Htx' as <-.
        intros (Hin' & Hq'). exact (scanPreBalances_None _ _ _ Hscan pre' Hin' Hq').
      * simpl in Hlook. apply (Hbefore j sig' meta' pre'); [lia | assumption..].
  - destruct (IH Hf) as (i & sig & meta & pre & Hi & Htx & Hq & Ho & Hbefore).
    exists (S i), sig, meta, pre.
    refine (conj Hi (conj Htx (conj Hq (conj Ho _)))).
    intros [|j] sig' meta' pre' Hj Hlook Htx'.
    * simpl in Hlook. injection Hlook as <-. congruence.
    * simpl in Hlook. apply (Hbefore j sig' meta' pre'); [lia | assumption..].
Qed.

(** C7. [findUsdcSender] always resolves (null, never an error, whatever
    fails) and changes nothing; it scans at most the ten newest signatures
    of the receiver's token account; and when the ledger reads succeed, a
    sender it returns is the owner of a USDC account whose balance decreased
    in the newest scanned transaction that has such an account with an
    owner other than the receiver, while null means no scanned transaction
    has one. *)
Theorem findUsdcSender_most_recent_sender (w : World) (receiver : string) :
  (exists r t, run (solana.findUsdcSender receiver) w = (Ok r, w, t) /\
               Forall (fun o => passive o = true) t) /\
  (length (scannedWindow w receiver) <= 10)%nat /\
  (readable w ->
   forall r w' t, run (solana.findUsdcSender receiver) w = (r, w', t) ->
     match r with
     | Ok (Some sender) =>
         exists (i : nat) sig meta pre,
           scannedWindow w receiver !! i = Some sig /\
           transactions w !! sig = Some meta /\
           sentFrom receiver meta pre /\ owner pre = sender /\
           forall (j : nat) sig' meta' pre',
             (j < i)%nat -> scannedWindow w receiver !! j = Some sig' ->
             transactions w !! sig' = Some meta' -> ~ sentFrom receiver meta' pre'
     | Ok None =>
         forall sig meta pre,
           In sig (scannedWindow w receiver) -> transactions w !! sig = Some meta ->
           ~ sentFrom receiver meta pre
     | Thrown _ => False
     end).
Proof.
  split; [apply run_findUsdcSender_total|]. split.
  { unfold scannedWindow. rewrite length_take. lia. }
  intros Hr r w' t Hrun.
  destruct (run_findUsdcSender_readable receiver w Hr) as [t' Ht'].
  rewrite Ht' in Hrun. injection Hrun as <- <- <-.
  destruct (firstSender w receiver (scannedWindow w receiver)) as [sender|] eqn:Hf.
  - now apply firstSender_Some.
  - now apply firstSender_None.
Qed.
End counterparty.

(** ** Sweep *)


Section sweep.
Context `{SolanaPrimitives}.

Lemma run_sweepUsdc (kp : Keypair) (master : string) (w : World) :
  run (solana.sweepUsdc kp master) w =
  let balance := usdcBalanceOf w (publicKey kp) in
  let read := GetAccount (getAssociatedTokenAddress solana.USDC_MINT (publicKey kp)) in
  if balance =? 0 then (Ok None, w, [read])
  else
    let '(r, w1) := exec (usdcSweepTx kp master balance) w in
    (someSignature r, w1, [read; usdcSweepTx kp master balance]).
Proof.
  unfold solana.sweepUsdc. rewrite run_bind, run_getUsdcBalance. cbv zeta.
  destruct (usdcBalanceOf w (publicKey kp) =? 0); [reflexivity|].
  rewrite run_bind, run_call. fold (usdcSweepTx kp master (usdcBalanceOf w (publicKey kp))).
  destruct (exec _ w) as [[sig | e] w1]; reflexivity.
Qed.

Lemma run_sweepSol (kp : Keypair) (master : string) (w : World) :
  run (solana.sweepSol kp master) w =
  match rpcFault w (GetBalance (publicKey kp)) with
  | Some e => (Thrown e, w, [GetBalance (publicKey kp)])
  | None =>
      let toSend := balanceIn (lamports w) (publicKey kp) - solana.SOL_FEE in
      if toSend <=? 0 then (Ok None, w, [GetBalance (publicKey kp)])
      else
        let '(r, w1) := exec (solSweepTx kp master toSend) w in
        (someSignature r, w1, [GetBalance (publicKey kp); solSweepTx kp master toSend])
  end.
Proof.
  unfold solana.sweepSol. rewrite run_bind, run_call, exec_GetBalance.
  destruct (rpcFault w _) as [e|]; [reflexivity|]. cbv zeta.
  destruct (_ <=? 0); [reflexivity|].
  rewrite run_bind, run_call.
  fold (solSweepTx kp master (balanceIn (lamports w) (publicKey kp) - solana.SOL_FEE)).
  destruct (exec _ w) as [[sig | e] w1]; reflexivity.
Qed.

Lemma run_sweepBody key session kp w phrase :
  masterSecret w = Some phrase ->
  run (poll.sweepBody key session kp) w =
  let master := publicKey (keypairAt phrase 0) in
  match run (solana.sweepUsdc kp master) w with
  | (Ok sig, w1, t1) =>
      match run (solana.sweepSol kp master) w1 with
      | (Ok _, w2, t2) =>
          let stored := set_status Swept (set_sweepSignature sig session) in
          let trace := GetEnv "MASTER_SEED_PHRASE" :: t1 ++ t2 ++
                       [RedisSet key (VSession stored) 86400] in
          match rpcFault w2 (RedisSet key (VSession stored) 86400) with
          | None => (Ok tt, with_store (insert key (VSession stored, Some 86400)) w2, trace)
          | Some e => (Thrown e, w2, trace)
          end
      | (Thrown e, w2, t2) => (Thrown e, w2, GetEnv "MASTER_SEED_PHRASE" :: t1 ++ t2)
      end
  | (Thrown e, w1, t1) => (Thrown e, w1, GetEnv "MASTER_SEED_PHRASE" :: t1)
  end.
Proof.
  intros Hs. unfold poll.sweepBody.
  rewrite run_bind, (run_getMasterKeypair w phrase Hs). cbv zeta.
  rewrite run_bind.
  destruct (run (solana.sweepUsdc _ _) w) as [[[sig | e] w1] t1]; [|reflexivity].
  rewrite run_bind.
  destruct (run (solana.sweepSol _ _) w1) as [[[sig2 | e] w2] t2]; [|reflexivity].
  cbv beta iota. rewrite run_RedisSet_cases.
  change (60 * 60 * 24) with 86400.
  destruct (rpcFault w2 _); simpl; rewrite <- ?app_assoc; reflexivity.
Qed.

(** C6. [sweepUsdc] reads the balance of the escrowed asset and, when it is
    zero, returns null having submitted nothing, otherwise submits exactly
    one transfer of that balance; [sweepSol] reads the lamports and, when
    the balance minus the fee buffer of 5000 is not positive, submits
    nothing (returning null when the read succeeds), otherwise submits
    exactly one transfer of balance minus 5000; and the handler's sweep runs
    the asset sweep first and the gas sweep after it, on the world the
    asset sweep left. *)
Theorem sweep_asset_then_gas (w : World) (kp : Keypair) (master : string) :
  let read := GetAccount (getAssociatedTokenAddress solana.USDC_MINT (publicKey kp)) in
  let balance := usdcBalanceOf w (publicKey kp) in
  let sol := balanceIn (lamports w) (publicKey kp) in
  (balance = 0 -> run (solana.sweepUsdc kp master) w = (Ok None, w, [read])) /\
  (balance <> 0 ->
     exists r w1, run (solana.sweepUsdc kp master) w =
                  (r, w1, [read; usdcSweepTx kp master balance])) /\
  (sol - 5000 <= 0 ->
     exists r, run (solana.sweepSol kp master) w = (r, w, [GetBalance (publicKey kp)]) /\
               (rpcFault w (GetBalance (publicKey kp)) = None -> r = Ok None)) /\
  (sol - 5000 > 0 -> rpcFault w (GetBalance (publicKey kp)) = None ->
     exists r w1, run (solana.sweepSol kp master) w =
                  (r, w1, [GetBalance (publicKey kp); solSweepTx kp master (sol - 5000)])) /\
  (forall key session phrase,
     masterSecret w = Some phrase ->
     master = publicKey (keypairAt phrase 0) ->
     forall sig w1 t1 r2 w2 t2,
       run (solana.sweepUsdc kp master) w = (Ok sig, w1, t1) ->
       run (solana.sweepSol kp master) w1 = (r2, w2, t2) ->
       exists rest,
         snd (run (poll.sweepStep key session kp) w) =
         GetEnv "MASTER_SEED_PHRASE" :: t1 ++ t2 ++ rest).
Proof.
  cbv zeta. repeat apply conj.
  - intros Hb. rewrite run_sweepUsdc. cbv zeta. rewrite Hb. reflexivity.
  - intros Hb. rewrite run_sweepUsdc. cbv zeta.
    apply Z.eqb_neq in Hb. rewrite Hb.
    destruct (exec _ w) as [r w1]. eexists _, _. reflexivity.
  - intros Hs. rewrite run_sweepSol.
    destruct (rpcFault w _) as [e|].
    + eexists. split; [reflexivity | discriminate].
    + cbv zeta. unfold solana.SOL_FEE.
      destruct (Z.leb_spec (balanceIn (lamports w) (publicKey kp) - 5000) 0); [|lia].
      eexists. split; reflexivity.
  - intros Hs Hf. rewrite run_sweepSol, Hf. cbv zeta. unfold solana.SOL_FEE.
    destruct (Z.leb_spec (balanceIn (lamports w) (publicKey kp) - 5000) 0); [lia|].
    destruct (exec _ w) as [r w1]. eexists _, _. reflexivity.
  - intros key session phrase Hs -> sig w1 t1 r2 w2 t2 H1 H2.
    unfold poll.sweepStep. rewrite run_tryCatch, (run_sweepBody _ _ _ _ _ Hs).
    cbv zeta. rewrite H1, H2. destruct r2 as [sig2 | e].
    + destruct (rpcFault w2 _).
      * rewrite run_ConsoleError. simpl.
        eexists. rewrite <- ?app_assoc. reflexivity.
      * eexists. reflexivity.
    + rewrite run_ConsoleError. simpl.
      eexists. rewrite <- ?app_assoc. reflexivity.
Qed.
End sweep.

(** ** The poll handler, step by step *)

Section poll_steps.
Context `{SolanaPrimitives}.

(** What a submitted transaction leaves alone. *)
Lemma submit_cases (tx : Tx) (w : World) :
  (exists e, submit tx w = (Thrown e, w)) \/
  (exists w1, submit tx w = (Ok tt, w1) /\ store w1 = store w /\ env w1 = env w).
Proof.
  destruct tx; simpl;
    repeat match goal with
      | |- context [match ?x with _ => _ end] => destruct x; simpl
      end;
    first [left; eexists; reflexivity | right; eexists; repeat split; reflexivity].
Qed.

Ltac by_cases o w :=
  unfold exec; destruct (if external o then rpcFault w o else None);
  [|destruct o; simpl;
    try match goal with
      | |- context [submit ?tx w] =>
          destruct (submit_cases tx w) as [[? ->] | (? & -> & ? & ?)]; simpl
      end;
    repeat match goal with
      | |- context [match ?x with _ => _ end] => destruct x; simpl
      end].

(** A failing operation leaves the world as it was. *)
Lemma exec_Thrown_world (o : Op) (w w1 : World) (e : Err) :
  exec o w = (Thrown e, w1) -> w1 = w.
Proof. by_cases o w; first [discriminate | now intros [= _ <-]]. Qed.

(** Only the writes to the store change the store. *)
Lemma exec_store (o : Op) (w : World) :
  is_store_write o = false -> store (snd (exec o w)) = store w.
Proof. intros Hw. by_cases o w; first [discriminate | reflexivity | assumption]. Qed.

(** No operation changes the process environment. *)
Lemma exec_env (o : Op) (w : World) : env (snd (exec o w)) = env w.
Proof. by_cases o w; first [reflexivity | assumption]. Qed.

Lemma run_env {A : Type} (p : Prog A) (w w1 : World) r t :
  run p w = (r, w1, t) -> env w1 = env w.
Proof.
  revert w w1 r t. induction p as [a | e | o k IH]; intros w w1 r t; simpl.
  - now intros [= _ <- _].
  - now intros [= _ <- _].
  - destruct (exec o w) as [x wx] eqn:Hx.
    destruct (run (k x) wx) as [[r' w'] t'] eqn:Hk.
    intros [= _ <- _]. rewrite (IH _ _ _ _ _ Hk).
    pose proof (exec_env o w) as He. rewrite Hx in He. exact He.
Qed.

Lemma run_store_unchanged {A : Type} (p : Prog A) (w w1 : World) r t :
  run p w = (r, w1, t) ->
  Forall (fun o => is_store_write o = false) t ->
  store w1 = store w.
Proof.
  revert w w1 r t. induction p as [a | e | o k IH]; intros w w1 r t; simpl.
  - now intros [= _ <- _].
  - now intros [= _ <- _].
  - destruct (exec o w) as [x wx] eqn:Hx.
    destruct (run (k x) wx) as [[r' w'] t'] eqn:Hk.
    intros [= <- <- <-] Ht. inversion Ht as [|? ? Ho Ht']; subst.
    rewrite (IH _ _ _ _ _ Hk Ht'). pose proof (exec_store o w Ho) as Hs.
    rewrite Hx in Hs. exact Hs.
Qed.

Lemma run_handler (sessionId : string) (test : option string) (w : World) :
  sessionId <> "" ->
  run (poll.handler (pollRequest sessionId test)) w =
  match run (poll.poll sessionId test) w with
  | (Ok r, w1, t) => (Ok r, w1, t)
  | (Thrown e, w1, t) =>
      (Ok (poll.mkResponse 500 (poll.JError e)), w1, t ++ [ConsoleError "Poll error:"])
  end.
Proof.
  intros Hne. destruct sessionId as [|c rest]; [contradiction|].
  change (poll.handler (pollRequest (String c rest) test))
    with (tryCatch (poll.poll (String c rest) test)
            (fun err => call (ConsoleError "Poll error:") ;;;
                        Ret (poll.mkResponse 500 (poll.JError err)))).
  rewrite run_tryCatch.
  destruct (run (poll.poll _ _) w) as [[[r | e] w1] t]; [reflexivity|].
  rewrite run_bind, run_ConsoleError. reflexivity.
Qed.

Lemma getJson_storedSession (w : World) (sessionId : string) (s : Session) :
  storedSession w sessionId = Some s ->
  getJson_result (store w !! poll.sessionKey sessionId) = Some (VSession s).
Proof.
  unfold storedSession. destruct (store w !! _) as [[[s'|?|?] ?]|]; try discriminate.
  now intros [= ->].
Qed.
(** A poll whose load fails. *)
Lemma run_poll_fault (sessionId : string) (test : option string) (w : World) (e : Err) :
  rpcFault w (RedisGetJson (poll.sessionKey sessionId)) = Some e ->
  run (poll.poll sessionId test) w =
  (Thrown e, w, [RedisGetJson (poll.sessionKey sessionId)]).
Proof.
  intros Hf. unfold poll.poll. cbv zeta.
  rewrite run_bind, (run_RedisGetJson_fault _ _ _ Hf). reflexivity.
Qed.

(** The operations of a poll up to the balance check, when the load
    answers. *)
Lemma run_poll (sessionId : string) (test : option string) (w : World) :
  rpcFault w (RedisGetJson (poll.sessionKey sessionId)) = None ->
  run (poll.poll sessionId test) w =
  let key := poll.sessionKey sessionId in
  match getJson_result (store w !! key) with
  | None =>
      (Ok (poll.mkResponse 404 (poll.JError "Session not found or expired")), w,
       [RedisGetJson key])
  | Some (VSession s) =>
      if bool_decide (status s = Minting)
      then (Ok (poll.mkResponse 200 poll.JMinting), w, [RedisGetJson key])
      else if bool_decide (status s = Minted)
      then (Ok (poll.mkResponse 200 (poll.JMintedStored (mintAddress s) (mintSignature s))),
            w, [RedisGetJson key])
      else if now w >? expiresAt s
      then (Ok (poll.mkResponse 200 poll.JExpired), w, [RedisGetJson key; DateNow])
      else
        match connectionFailure w with
        | Some e => (Thrown e, w, [RedisGetJson key; DateNow; GetEnv "SOLANA_RPC_URL"])
        | None =>
        match masterSecret w with
        | None =>
            (Thrown "MASTER_SEED_PHRASE not configured", w,
             [RedisGetJson key; DateNow; GetEnv "SOLANA_RPC_URL";
              GetEnv "MASTER_SEED_PHRASE"])
        | Some phrase =>
            let kp := keypairAt phrase (1000 + sessionIndex s) in
            let load := [RedisGetJson key; DateNow; GetEnv "SOLANA_RPC_URL";
                         GetEnv "MASTER_SEED_PHRASE"] in
            if bool_decide (test = Some "true")
            then
              let '(r, w1, t) := run (poll.confirmed key s kp) w in
              (r, w1, load ++ t)
            else
              let balance := usdcBalanceOf w (publicKey kp) in
              let read := GetAccount (getAssociatedTokenAddress solana.USDC_MINT (publicKey kp)) in
              if balance <? solana.REQUIRED_USDC
              then (Ok (poll.mkResponse 200
                          (poll.JPending (paymentAddress s) solana.REQUIRED_USDC balance)),
                    w, load ++ [read])
              else
                let '(r, w1, t) := run (poll.confirmed key s kp) w in
                (r, w1, (load ++ [read]) ++ t)
        end
        end
  | Some (VInt 0) =>
      (Ok (poll.mkResponse 404 (poll.JError "Session not found or expired")), w,
       [RedisGetJson key])
  | Some _ =>
      match connectionFailure w with
      | Some e => (Thrown e, w, [RedisGetJson key; DateNow; GetEnv "SOLANA_RPC_URL"])
      | None =>
          (Thrown (match masterSecret w with
                   | Some _ => "Invalid derivation path"
                   | None => "MASTER_SEED_PHRASE not configured"
                   end), w,
           [RedisGetJson key; DateNow; GetEnv "SOLANA_RPC_URL"; GetEnv "MASTER_SEED_PHRASE"])
      end
  end.
Proof.
  intros Hload.
  assert (Hother : run (call DateNow ;;;
                        solana.getConnection ;;;
                        mnemonic <- call (GetEnv "MASTER_SEED_PHRASE") ;;
                        if truthy mnemonic then @Throw poll.Response "Invalid derivation path"
                        else Throw "MASTER_SEED_PHRASE not configured") w =
                   match connectionFailure w with
                   | Some e => (Thrown e, w, [DateNow; GetEnv "SOLANA_RPC_URL"])
                   | None =>
                       (Thrown (match masterSecret w with
                                | Some _ => "Invalid derivation path"
                                | None => "MASTER_SEED_PHRASE not configured"
                                end), w,
                        [DateNow; GetEnv "SOLANA_RPC_URL"; GetEnv "MASTER_SEED_PHRASE"])
                   end).
  { rewrite run_bind, run_DateNow. cbv beta iota.
    rewrite run_bind, run_getConnection.
    destruct (connectionFailure w); [reflexivity|]. cbv beta iota.
    rewrite run_bind, run_GetEnv. cbv beta iota. unfold masterSecret.
    destruct (env w !! "MASTER_SEED_PHRASE") as [[|c phrase]|]; reflexivity. }
  unfold poll.poll. cbv zeta. rewrite run_bind, (run_RedisGetJson _ _ Hload).
  destruct (getJson_result _) as [[s | str | [|n|n]]|]; try reflexivity;
    try (cbv beta iota; rewrite Hother; destruct (connectionFailure w); reflexivity).
  cbv beta iota.
  destruct (bool_decide (status s = Minting)); [reflexivity|].
  destruct (bool_decide (status s = Minted)); [reflexivity|].
  rewrite run_bind, run_DateNow. cbv beta iota.
  destruct (now w >? expiresAt s); [reflexivity|].
  rewrite run_bind, run_getConnection.
  destruct (connectionFailure w); [reflexivity|]. cbv beta iota.
  rewrite run_bind. unfold wallet.getSessionKeypair. rewrite run_deriveKeypair.
  destruct (masterSecret w) as [phrase|]; [|reflexivity].
  cbv beta iota zeta. unfold keypairAt.
  rewrite run_bind.
  destruct (bool_decide (test = Some "true")).
  - rewrite run_Ret. cbv beta iota. simpl negb. simpl andb. cbv beta iota.
    destruct (run (poll.confirmed _ _ _) w) as [[r w1] t]. reflexivity.
  - rewrite run_getUsdcBalance. cbv beta iota. simpl negb. simpl andb.
    destruct (_ <? solana.REQUIRED_USDC); [reflexivity|].
    destruct (run (poll.confirmed _ _ _) w) as [[r w1] t]. reflexivity.
Qed.

Lemma run_sweepStep key session kp w :
  run (poll.sweepStep key session kp) w =
  match run (poll.sweepBody key session kp) w with
  | (Ok _, w1, t1) => (Ok tt, w1, t1)
  | (Thrown _, w1, t1) => (Ok tt, w1, t1 ++ [ConsoleError "Sweep error (non-fatal):"])
  end.
Proof.
  unfold poll.sweepStep. rewrite run_tryCatch.
  destruct (run (poll.sweepBody _ _ _) w) as [[[[] | e] w1] t1]; [reflexivity|].
  rewrite run_ConsoleError. reflexivity.
Qed.

(** The [catch] of the mint: the failure status is written for a day, or
    that write is refused. *)
Lemma run_mintFailed key session buyer e w :
  run (poll.mintFailed key session buyer e) w =
  let s := set_status (failureStatus e) session in
  let set := RedisSet key (VSession s) 86400 in
  match rpcFault w set with
  | Some e' => (Thrown e', w, [ConsoleError "Mint error:"; set])
  | None =>
      (Ok (inr (failureResponse e buyer)), stored key s 86400 w,
       [ConsoleError "Mint error:"; set])
  end.
Proof.
  unfold poll.mintFailed. rewrite run_bind, run_ConsoleError. cbv beta iota zeta.
  unfold failureStatus, failureResponse.
  destruct (poll.isInsufficientSol _); rewrite run_bind, run_RedisSet_cases;
    change (60 * 60 * 24) with 86400; destruct (rpcFault w _); reflexivity.
Qed.

(** The mint and its [catch], in every world. *)
Lemma run_mintStep_cases key session buyer w :
  run (poll.mintStep key session buyer) w =
  match run (poll.mintNft session buyer) w with
  | (Ok m, w1, t1) =>
      let s := mintedSession m session in
      let set := RedisSet key (VSession s) 86400 in
      match rpcFault w1 set with
      | None => (Ok (inl s), stored key s 86400 w1, t1 ++ [set])
      | Some e =>
          let '(r, w2, t2) := run (poll.mintFailed key s buyer e) w1 in
          (r, w2, t1 ++ set :: t2)
      end
  | (Thrown e, w1, t1) =>
      let '(r, w2, t2) := run (poll.mintFailed key session buyer e) w1 in
      (r, w2, t1 ++ t2)
  end.
Proof.
  unfold poll.mintStep. rewrite run_bind, run_tryCatch, run_bind.
  destruct (run (poll.mintNft _ _) w) as [[[m | e] w1] t1] eqn:Hmint.
  - rewrite run_Ret. cbv beta iota zeta. rewrite app_nil_r.
    rewrite run_tryCatch, run_bind, run_RedisSet_cases.
    change (60 * 60 * 24) with 86400. unfold mintedSession.
    destruct (rpcFault w1 _) as [e|].
    + destruct (run (poll.mintFailed _ _ _ _) w1) as [[r w2] t2]. reflexivity.
    + rewrite run_Ret. reflexivity.
  - rewrite run_Ret. cbv beta iota. rewrite app_nil_r.
    destruct (run (poll.mintFailed _ _ _ _) w1) as [[r w2] t2]. reflexivity.
Qed.

Lemma run_mintStep key session buyer w :
  storeAnswers w ->
  run (poll.mintStep key session buyer) w =
  match run (poll.mintNft session buyer) w with
  | (Ok m, w1, t1) =>
      let s := mintedSession m session in
      (Ok (inl s), stored key s 86400 w1, t1 ++ [RedisSet key (VSession s) 86400])
  | (Thrown e, w1, t1) =>
      let s := set_status (failureStatus e) session in
      (Ok (inr (failureResponse e buyer)), stored key s 86400 w1,
       t1 ++ [ConsoleError "Mint error:"; RedisSet key (VSession s) 86400])
  end.
Proof.
  intros Hsa. rewrite run_mintStep_cases.
  destruct (run (poll.mintNft _ _) w) as [[[m | e] w1] t1] eqn:Hmint;
    pose proof (run_storeAnswers _ _ _ _ _ Hmint Hsa) as Hsa1; cbv zeta.
  - rewrite (Hsa1 (RedisSet key _ 86400) eq_refl). reflexivity.
  - rewrite run_mintFailed. cbv zeta.
    rewrite (Hsa1 (RedisSet key _ 86400) eq_refl). reflexivity.
Qed.

Lemma run_detection (w : World) (receiver : string) :
  run (solana.findUsdcSender receiver) w =
  (Ok (detectedBuyer w receiver), w, detectionTrace w receiver).
Proof.
  unfold detectedBuyer, detectionTrace.
  destruct (run_findUsdcSender_total receiver w) as (r & t & Hrun & _).
  rewrite Hrun. reflexivity.
Qed.

(** From the write of [minting] on, in every world: each of the two
    writes before the mint can stop the handler. *)
Lemma run_confirmed_cases key session kp w :
  run (poll.confirmed key session kp) w =
  let s1 := set_status Minting session in
  let set1 := RedisSet key (VSession s1) 3600 in
  let s2 := sessionAtMint key session kp w in
  let set2 := RedisSet key (VSession s2) 3600 in
  let buyer := buyerWallet s2 in
  match rpcFault w set1 with
  | Some e => (Thrown e, w, [set1])
  | None =>
      match rpcFault w set2 with
      | Some e =>
          (Thrown e, stored key s1 3600 w,
           set1 :: detectionTrace (stored key s1 3600 w) (publicKey kp) ++ [set2])
      | None =>
          match run (poll.mintStep key s2 buyer) (worldAtMint key session kp w) with
          | (Ok (inl s3), w3, t3) =>
              let '(_, w4, t4) := run (poll.sweepStep key s3 kp) w3 in
              (Ok (poll.mkResponse 200
                     (poll.JMinted (mintAddress s3) (mintSignature s3) buyer)),
               w4, traceToMint key session kp w ++ t3 ++ t4)
          | (Ok (inr response), w3, t3) =>
              (Ok response, w3, traceToMint key session kp w ++ t3)
          | (Thrown e, w3, t3) => (Thrown e, w3, traceToMint key session kp w ++ t3)
          end
      end
  end.
Proof.
  unfold poll.confirmed. cbv zeta.
  rewrite run_bind, run_RedisSet_cases. change (60 * 60) with 3600.
  destruct (rpcFault w (RedisSet key (VSession (set_status Minting session)) 3600)) as [e|];
    [reflexivity|]. cbv beta iota.
  change (with_store (insert key (VSession (set_status Minting session), ttl_of 3600)) w)
    with (stored key (set_status Minting session) 3600 w).
  rewrite run_bind, run_detection. cbv beta iota.
  rewrite run_bind, run_RedisSet_cases.
  change (set_buyerWallet
            (detectedBuyer (stored key (set_status Minting session) 3600 w) (publicKey kp))
            (set_status Minting session))
    with (sessionAtMint key session kp w).
  change (rpcFault (stored key (set_status Minting session) 3600 w)) with (rpcFault w).
  destruct (rpcFault w (RedisSet key (VSession (sessionAtMint key session kp w)) 3600))
    as [e|]; [rewrite ?app_nil_r; reflexivity|]. cbv beta iota.
  change (with_store (insert key (VSession (sessionAtMint key session kp w), ttl_of 3600))
            (stored key (set_status Minting session) 3600 w))
    with (worldAtMint key session kp w).
  rewrite run_bind. unfold traceToMint. cbv zeta.
  change (buyerWallet (sessionAtMint key session kp w))
    with (detectedBuyer (stored key (set_status Minting session) 3600 w) (publicKey kp)).
  destruct (run (poll.mintStep _ _ _) _) as [[[[s3 | response] | e] w3] t3].
  - cbv beta iota. rewrite run_bind.
    destruct (run (poll.sweepStep _ _ _) w3) as [[[[] | e] w4] t4] eqn:Hsweep.
    + rewrite run_Ret. cbv beta iota.
      rewrite ?app_nil_r. cbn [app]. rewrite <- ?app_assoc. reflexivity.
    + rewrite run_sweepStep in Hsweep.
      destruct (run (poll.sweepBody _ _ _) w3) as [[[[] | ?] ?] ?]; discriminate.
  - rewrite run_Ret. cbv beta iota.
    rewrite ?app_nil_r. cbn [app]. rewrite <- ?app_assoc. reflexivity.
  - cbv beta iota. rewrite ?app_nil_r. cbn [app]. rewrite <- ?app_assoc. reflexivity.
Qed.

Lemma run_confirmed key session kp w :
  storeAnswers w ->
  run (poll.confirmed key session kp) w =
  let s2 := sessionAtMint key session kp w in
  let buyer := buyerWallet s2 in
  match run (poll.mintStep key s2 buyer) (worldAtMint key session kp w) with
  | (Ok (inl s3), w3, t3) =>
      let '(_, w4, t4) := run (poll.sweepStep key s3 kp) w3 in
      (Ok (poll.mkResponse 200 (poll.JMinted (mintAddress s3) (mintSignature s3) buyer)),
       w4, traceToMint key session kp w ++ t3 ++ t4)
  | (Ok (inr response), w3, t3) => (Ok response, w3, traceToMint key session kp w ++ t3)
  | (Thrown e, w3, t3) => (Thrown e, w3, traceToMint key session kp w ++ t3)
  end.
Proof.
  intros Hsa. rewrite run_confirmed_cases. cbv zeta.
  rewrite (Hsa (RedisSet key _ 3600) eq_refl), (Hsa (RedisSet key _ 3600) eq_refl).
  reflexivity.
Qed.

(** From the write of [minting] on, by the outcome of [mintNft]. *)
Lemma run_confirmed_mint key session kp w :
  storeAnswers w ->
  run (poll.confirmed key session kp) w =
  let s2 := sessionAtMint key session kp w in
  let buyer := buyerWallet s2 in
  match run (poll.mintNft s2 buyer) (worldAtMint key session kp w) with
  | (Ok m, w3, t3) =>
      let s3 := mintedSession m s2 in
      let '(_, w4, t4) := run (poll.sweepStep key s3 kp) (stored key s3 86400 w3) in
      (Ok (poll.mkResponse 200 (poll.JMinted (mintAddress s3) (mintSignature s3) buyer)),
       w4,
       traceToMint key session kp w ++ (t3 ++ [RedisSet key (VSession s3) 86400]) ++ t4)
  | (Thrown e, w3, t3) =>
      let s3 := set_status (failureStatus e) s2 in
      (Ok (failureResponse e buyer), stored key s3 86400 w3,
       traceToMint key session kp w ++ t3 ++
         [ConsoleError "Mint error:"; RedisSet key (VSession s3) 86400])
  end.
Proof.
  intros Hsa. rewrite (run_confirmed _ _ _ _ Hsa). cbv zeta.
  rewrite run_mintStep by exact Hsa.
  destruct (run (poll.mintNft _ _) _) as [[[m | e] w3] t3]; reflexivity.
Qed.

Lemma run_sweepStep_ok key session kp w :
  exists w1 t1, run (poll.sweepStep key session kp) w = (Ok tt, w1, t1).
Proof.
  rewrite run_sweepStep.
  destruct (run (poll.sweepBody _ _ _) w) as [[[[] | e] w1] t1]; eexists _, _; reflexivity.
Qed.

(** From the write of [minting] on the handler always answers, when the
    store does. *)
Lemma run_confirmed_ok key session kp w :
  storeAnswers w ->
  exists response w1 t, run (poll.confirmed key session kp) w = (Ok response, w1, t).
Proof.
  intros Hsa. rewrite (run_confirmed_mint _ _ _ _ Hsa). cbv zeta.
  destruct (run (poll.mintNft _ _) _) as [[[m | e] w3] t3].
  - destruct (run_sweepStep_ok key (mintedSession m (sessionAtMint key session kp w)) kp
                (stored key (mintedSession m (sessionAtMint key session kp w)) 86400 w3))
      as (w4 & t4 & ->).
    eexists _, _, _. reflexivity.
  - eexists _, _, _. reflexivity.
Qed.

Lemma run_handler_mintDue w sessionId test s phrase :
  mintDue w sessionId test s phrase ->
  run (poll.handler (pollRequest sessionId test)) w =
  let kp := keypairAt phrase (1000 + sessionIndex s) in
  let '(r, w1, t) := run (poll.confirmed (poll.sessionKey sessionId) s kp) w in
  (r, w1, traceToConfirm sessionId test kp ++ t).
Proof.
  intros (Hne & Hsa & Hconn & Hst & Hm1 & Hm2 & Hnow & Hsec & Hpay).
  rewrite (run_handler _ _ _ Hne), run_poll by (apply Hsa; reflexivity). cbv zeta.
  rewrite (getJson_storedSession _ _ _ Hst).
  rewrite (bool_decide_eq_false_2 _ Hm1), (bool_decide_eq_false_2 _ Hm2).
  destruct (Z.gtb_spec (now w) (expiresAt s)) as [Hgt|_]; [lia|].
  unfold connects in Hconn. rewrite Hconn, Hsec. unfold traceToConfirm.
  destruct (bool_decide_reflect (test = Some "true")) as [Ht | Ht].
  - destruct (run_confirmed_ok (poll.sessionKey sessionId) s
                (keypairAt phrase (1000 + sessionIndex s)) w Hsa) as (r & w1 & t & ->).
    cbn [app]. rewrite ?app_nil_r. reflexivity.
  - destruct Hpay as [Hpay | Hpay]; [contradiction|].
    destruct (Z.ltb_spec (usdcBalanceOf w (publicKey (keypairAt phrase (1000 + sessionIndex s))))
                solana.REQUIRED_USDC) as [Hlt|_]; [lia|].
    destruct (run_confirmed_ok (poll.sessionKey sessionId) s
                (keypairAt phrase (1000 + sessionIndex s)) w Hsa) as (r & w1 & t & ->).
    reflexivity.
Qed.

Lemma storedSession_stored key sessionId s ex w :
  key = poll.sessionKey sessionId ->
  storedSession (stored key s ex w) sessionId = Some s.
Proof.
  intros ->. unfold storedSession, stored; simpl. now rewrite lookup_insert_eq.
Qed.

Lemma storedSession_store w w1 sessionId :
  store w1 = store w -> storedSession w1 sessionId = storedSession w sessionId.
Proof. intros Hs. unfold storedSession. now rewrite Hs. Qed.

(** A stored [minted] session: the poll answers from the store, and that
    is all it does. *)
Lemma run_handler_minted w sessionId test s :
  sessionId <> "" -> rpcFault w (RedisGetJson (poll.sessionKey sessionId)) = None ->
  storedSession w sessionId = Some s -> status s = Minted ->
  run (poll.handler (pollRequest sessionId test)) w =
  (Ok (poll.mkResponse 200 (poll.JMintedStored (mintAddress s) (mintSignature s))), w,
   [RedisGetJson (poll.sessionKey sessionId)]).
Proof.
  intros Hne Hload Hst Hm. rewrite (run_handler _ _ _ Hne), (run_poll _ _ _ Hload). cbv zeta.
  rewrite (getJson_storedSession _ _ _ Hst), Hm. reflexivity.
Qed.

Lemma run_handler_minting w sessionId test s :
  sessionId <> "" -> rpcFault w (RedisGetJson (poll.sessionKey sessionId)) = None ->
  storedSession w sessionId = Some s -> status s = Minting ->
  run (poll.handler (pollRequest sessionId test)) w =
  (Ok (poll.mkResponse 200 poll.JMinting), w, [RedisGetJson (poll.sessionKey sessionId)]).
Proof.
  intros Hne Hload Hst Hm. rewrite (run_handler _ _ _ Hne), (run_poll _ _ _ Hload). cbv zeta.
  rewrite (getJson_storedSession _ _ _ Hst), Hm. reflexivity.
Qed.
End poll_steps.

(** ** Mint failure and sweep failure *)


Section failures.
Context `{SolanaPrimitives}.

(** [includes] is the occurrence of the needle somewhere in the string. *)
Lemma prefix_occurs (needle haystack : string) :
  String.prefix needle haystack = true <-> exists after, haystack = needle +:+ after.
Proof.
  revert haystack. induction needle as [|c needle IH]; intros haystack.
  - split; [intros _; exists haystack; reflexivity | intros _; destruct haystack; reflexivity].
  - destruct haystack as [|c' haystack]; simpl.
    + split; [discriminate | intros [after Hx]; discriminate Hx].
    + destruct (Ascii.ascii_dec c c') as [-> | Hne].
      * rewrite IH. split; intros [after Hx]; exists after.
        -- rewrite Hx. reflexivity.
        -- change (String c' needle +:+ after) with (String c' (needle +:+ after)) in Hx.
           now injection Hx.
      * split; [discriminate|]. intros [after Hx].
        change (String c needle +:+ after) with (String c (needle +:+ after)) in Hx.
        injection Hx as Hc _. congruence.
Qed.

Lemma includes_occursIn (needle haystack : string) :
  includes needle haystack = true <-> occursIn needle haystack.
Proof.
  unfold occursIn. induction haystack as [|c haystack IH].
  - cbn [includes]. rewrite orb_false_r, prefix_occurs. split.
    + intros [after Hx]. exists "", after. exact Hx.
    + intros ([|c before] & after & Hx); [exists after; exact Hx|].
      discriminate Hx.
  - cbn [includes]. rewrite orb_true_iff, prefix_occurs, IH. split.
    + intros [[after Hx] | (before & after & Hx)].
      * exists "", after. exact Hx.
      * exists (String c before), after. rewrite Hx. reflexivity.
    + intros ([|c' before] & after & Hx).
      * left. exists after. exact Hx.
      * right. exists before, after.
        change (String c' before +:+ needle +:+ after)
          with (String c' (before +:+ needle +:+ after)) in Hx.
        now injection Hx.
Qed.

(** The test of the [catch] block is the test for the gas signal. *)
Lemma isInsufficientSol_gasSignal (errMsg : string) :
  poll.isInsufficientSol errMsg = true <-> gasSignal errMsg.
Proof.
  unfold poll.isInsufficientSol, gasSignal.
  rewrite orb_true_iff, !includes_occursIn. reflexivity.
Qed.

(** C3. When the poll reaches the mint (the store answers, the endpoint is
    accepted, the payment is confirmed) and [mintNft] throws, the handler
    answers 200 and the stored session gets status [needs_funding] if the
    text "insufficient lamports" or "Insufficient lamports" occurs in the
    error message, and [paid] if neither occurs; the response carries that
    status.  The buyer detected in this poll, stored before the mint, is
    still the stored [buyerWallet] after the failure and is the
    [buyerWallet] of the response; it replaces whatever an earlier poll had
    stored, also when this poll's scan found no one. *)
Theorem mint_failure_status (w : World) (sessionId : string) (test : option string)
    (s : Session) (phrase : string) (e : Err) (w3 : World) (t3 : list Op) :
  mintDue w sessionId test s phrase ->
  let key := poll.sessionKey sessionId in
  let kp := keypairAt phrase (1000 + sessionIndex s) in
  let atMint := sessionAtMint key s kp w in
  run (poll.mintNft atMint (buyerWallet atMint)) (worldAtMint key s kp w)
    = (Thrown e, w3, t3) ->
  exists response w' t after,
    run (poll.handler (pollRequest sessionId test)) w = (Ok response, w', t) /\
    poll.code response = 200 /\
    storedSession w' sessionId = Some after /\
    (gasSignal (poll.errMsgOf e) ->
     status after = NeedsFunding /\ poll.status_of response = Some "needs_funding") /\
    (~ gasSignal (poll.errMsgOf e) ->
     status after = Paid /\ poll.status_of response = Some "paid") /\
    storedSession (worldAtMint key s kp w) sessionId = Some atMint /\
    buyerWallet atMint =
      detectedBuyer (stored key (set_status Minting s) 3600 w) (publicKey kp) /\
    buyerWallet after = buyerWallet atMint /\
    buyer_of response = Some (buyerWallet atMint).
Proof.
  intros Hdue key kp atMint Hmint.
  rewrite (run_handler_mintDue _ _ _ _ _ Hdue). cbv zeta.
  destruct Hdue as (_ & Hsa & _).
  rewrite (run_confirmed_mint _ _ _ _ Hsa). cbv zeta.
  fold key kp. fold atMint. rewrite Hmint.
  pose proof (isInsufficientSol_gasSignal (poll.errMsgOf e)) as Hgas.
  eexists _, _, _, _. split; [reflexivity|].
  split. { unfold failureResponse. destruct (poll.isInsufficientSol _); reflexivity. }
  split; [now apply storedSession_stored|].
  unfold failureResponse, failureStatus.
  destruct (poll.isInsufficientSol (poll.errMsgOf e)).
  - split; [intros _; split; reflexivity|].
    split; [intros Hn; contradict Hn; now apply Hgas|].
    split; [now apply storedSession_stored|].
    repeat split.
  - split; [intros Hg; apply Hgas in Hg; discriminate Hg|].
    split; [intros _; split; reflexivity|].
    split; [now apply storedSession_stored|].
    repeat split.
Qed.

Lemma sweepUsdc_no_write kp master w r w1 t :
  run (solana.sweepUsdc kp master) w = (r, w1, t) ->
  Forall (fun o => is_store_write o = false) t.
Proof.
  rewrite run_sweepUsdc. cbv zeta.
  destruct (_ =? 0).
  - intros [= _ _ <-]. repeat constructor.
  - destruct (exec _ w) as [x wx]. intros [= _ _ <-]. repeat constructor.
Qed.

Lemma sweepSol_no_write kp master w r w1 t :
  run (solana.sweepSol kp master) w = (r, w1, t) ->
  Forall (fun o => is_store_write o = false) t.
Proof.
  rewrite run_sweepSol. destruct (rpcFault w _) as [e|].
  - intros [= _ _ <-]. repeat constructor.
  - cbv zeta. destruct (_ <=? 0).
    + intros [= _ _ <-]. repeat constructor.
    + destruct (exec _ w) as [x wx]. intros [= _ _ <-]. repeat constructor.
Qed.

(** A sweep that throws has left the store as it was: it fails before its
    one write, or that write is the request that fails. *)
Lemma sweepBody_Thrown_store key s kp w e w1 t1 :
  run (poll.sweepBody key s kp) w = (Thrown e, w1, t1) -> store w1 = store w.
Proof.
  destruct (masterSecret w) as [phrase|] eqn:Hs.
  - rewrite (run_sweepBody _ _ _ _ _ Hs). cbv zeta.
    destruct (run (solana.sweepUsdc _ _) w) as [[[sig | e1] wa] ta] eqn:Hu.
    + pose proof (run_store_unchanged _ _ _ _ _ Hu (sweepUsdc_no_write _ _ _ _ _ _ Hu)) as Ha.
      destruct (run (solana.sweepSol _ _) wa) as [[[sig2 | e2] wb] tb] eqn:Hl;
        pose proof (run_store_unchanged _ _ _ _ _ Hl (sweepSol_no_write _ _ _ _ _ _ Hl)) as Hb.
      * destruct (rpcFault wb _); [|discriminate].
        intros [= _ <- _]. congruence.
      * intros [= _ <- _]. congruence.
    + intros [= _ <- _].
      exact (run_store_unchanged _ _ _ _ _ Hu (sweepUsdc_no_write _ _ _ _ _ _ Hu)).
  - unfold poll.sweepBody, wallet.getMasterKeypair.
    rewrite run_bind, run_deriveKeypair, Hs.
    now intros [= _ <- _].
Qed.

(** When the store answers, a sweep that throws has not come to its
    write. *)
Lemma sweepBody_Thrown_no_write key s kp w e w1 t1 :
  storeAnswers w ->
  run (poll.sweepBody key s kp) w = (Thrown e, w1, t1) ->
  Forall (fun o => is_store_write o = false) t1.
Proof.
  intros Hsa.
  destruct (masterSecret w) as [phrase|] eqn:Hs.
  - rewrite (run_sweepBody _ _ _ _ _ Hs). cbv zeta.
    destruct (run (solana.sweepUsdc _ _) w) as [[[sig | e1] wa] ta] eqn:Hu.
    + destruct (run (solana.sweepSol _ _) wa) as [[[sig2 | e2] wb] tb] eqn:Hl.
      * pose proof (run_storeAnswers _ _ _ _ _ Hl (run_storeAnswers _ _ _ _ _ Hu Hsa)) as Hb.
        rewrite (Hb (RedisSet key _ 86400) eq_refl). discriminate.
      * intros [= _ _ <-]. constructor; [reflexivity|].
        apply Forall_app. split.
        -- exact (sweepUsdc_no_write _ _ _ _ _ _ Hu).
        -- exact (sweepSol_no_write _ _ _ _ _ _ Hl).
    + intros [= _ _ <-]. constructor; [reflexivity|].
      exact (sweepUsdc_no_write _ _ _ _ _ _ Hu).
  - unfold poll.sweepBody, wallet.getMasterKeypair.
    rewrite run_bind, run_deriveKeypair, Hs.
    intros [= _ _ <-]. repeat constructor.
Qed.

(** A later poll of a stored [minted] session: the answer comes from the
    store when the load answers, and nothing is submitted or written in any
    case. *)
Lemma minted_poll_again (later : World) (sessionId : string) (test : option string)
    (minted : Session) :
  sessionId <> "" ->
  storedSession later sessionId = Some minted ->
  status minted = Minted ->
  let key := poll.sessionKey sessionId in
  (rpcFault later (RedisGetJson key) = None ->
   run (poll.handler (pollRequest sessionId test)) later =
     (Ok (poll.mkResponse 200
            (poll.JMintedStored (mintAddress minted) (mintSignature minted))),
      later, [RedisGetJson key])) /\
  exists response t,
    run (poll.handler (pollRequest sessionId test)) later = (Ok response, later, t) /\
    mintSubmissions t = 0%nat /\
    Forall (fun o => passive o = true) t.
Proof.
  intros Hne Hst Hm key. split.
  - intros Hload. now apply run_handler_minted.
  - destruct (rpcFault later (RedisGetJson key)) as [e|] eqn:Hload.
    + rewrite (run_handler _ _ _ Hne), (run_poll_fault _ _ _ _ Hload).
      eexists _, _. split; [reflexivity|]. split; [reflexivity|]. repeat constructor.
    + rewrite (run_handler_minted _ _ _ _ Hne Hload Hst Hm).
      eexists _, _. split; [reflexivity|]. split; [reflexivity|]. repeat constructor.
Qed.

(** C5. When the poll reaches the mint, [mintNft] succeeds and the sweep
    then throws, the handler still answers [minted] with the mint result;
    the sweep wrote nothing to the store, so the stored session is the
    [minted] one the handler wrote after the mint; and every later poll of a
    world that stores this session submits no mint and writes nothing: it
    answers from the store, performing the load and nothing else, when the
    load answers, and it answers without any submission when it does not. *)
Theorem sweep_failure_keeps_minted (w : World) (sessionId : string)
    (test : option string) (s : Session) (phrase : string)
    (m : poll.MintResult) (w3 : World) (t3 : list Op)
    (e : Err) (w4 : World) (t4 : list Op) :
  mintDue w sessionId test s phrase ->
  let key := poll.sessionKey sessionId in
  let kp := keypairAt phrase (1000 + sessionIndex s) in
  let atMint := sessionAtMint key s kp w in
  let minted := mintedSession m atMint in
  run (poll.mintNft atMint (buyerWallet atMint)) (worldAtMint key s kp w)
    = (Ok m, w3, t3) ->
  run (poll.sweepBody key minted kp) (stored key minted 86400 w3) = (Thrown e, w4, t4) ->
  exists w' t,
    run (poll.handler (pollRequest sessionId test)) w =
      (Ok (poll.mkResponse 200
             (poll.JMinted (mintAddress minted) (mintSignature minted) (buyerWallet atMint))),
       w', t) /\
    store w' = store (stored key minted 86400 w3) /\
    Forall (fun o => is_store_write o = false) t4 /\
    storedSession w' sessionId = Some minted /\
    status minted = Minted /\
    mintAddress minted = Some (poll.mr_mintAddress m) /\
    mintSignature minted = Some (poll.mr_signature m) /\
    forall later test',
      storedSession later sessionId = Some minted ->
      (rpcFault later (RedisGetJson key) = None ->
       run (poll.handler (pollRequest sessionId test')) later =
         (Ok (poll.mkResponse 200
                (poll.JMintedStored (mintAddress minted) (mintSignature minted))),
          later, [RedisGetJson key]) /\
       mintSubmissions [RedisGetJson key] = 0%nat) /\
      exists response t',
        run (poll.handler (pollRequest sessionId test')) later = (Ok response, later, t') /\
        mintSubmissions t' = 0%nat /\
        Forall (fun o => passive o = true) t'.
Proof.
  intros Hdue key kp atMint minted Hmint Hsweep.
  pose proof Hdue as (Hne & Hsa & _).
  assert (Hsa3 : storeAnswers (stored key minted 86400 w3)).
  { apply (run_storeAnswers _ _ _ _ _ Hmint). exact Hsa. }
  pose proof (sweepBody_Thrown_no_write _ _ _ _ _ _ _ Hsa3 Hsweep) as Hnw.
  pose proof (sweepBody_Thrown_store _ _ _ _ _ _ _ Hsweep) as Hstore.
  rewrite (run_handler_mintDue _ _ _ _ _ Hdue). cbv zeta.
  rewrite (run_confirmed_mint _ _ _ _ Hsa). cbv zeta.
  fold key kp. fold atMint. rewrite Hmint. fold minted.
  rewrite run_sweepStep, Hsweep.
  eexists _, _. split; [reflexivity|].
  split; [exact Hstore|]. split; [exact Hnw|].
  split.
  { rewrite (storedSession_store _ _ _ Hstore). now apply storedSession_stored. }
  split; [reflexivity|]. split; [reflexivity|]. split; [reflexivity|].
  intros later test' Hlater.
  destruct (minted_poll_again later sessionId test' minted Hne Hlater eq_refl) as [Hok Hany].
  split; [|exact Hany].
  intros Hload. split; [now apply Hok | reflexivity].
Qed.
End failures.

(** ** Payment confirmation *)

Section confirmation.
Context `{SolanaPrimitives}.

Lemma returns_run {A : Type} (Q : A -> Prop) (p : Prog A) (w w' : World) (a : A) t :
  returns Q p -> run p w = (Ok a, w', t) -> Q a.
Proof.
  revert w w' t. induction p as [x | e | o k IH]; intros w w' t; simpl.
  - now intros Hq [= <- _ _].
  - discriminate.
  - intros Hk. destruct (exec o w) as [x wx].
    destruct (run (k x) wx) as [[r' w''] t'] eqn:Hrun.
    intros [= -> _ _]. exact (IH x _ _ _ (Hk x) Hrun).
Qed.

Lemma returns_bind {A B : Type} (R : A -> Prop) (Q : B -> Prop) (p : Prog A)
    (f : A -> Prog B) :
  returns R p -> (forall a, R a -> returns Q (f a)) -> returns Q (bind p f).
Proof.
  intros Hp Hf. induction p as [a | e | o k IH]; simpl.
  - apply Hf, Hp.
  - exact I.
  - intros r. apply IH, Hp.
Qed.

Lemma returns_any {A : Type} (p : Prog A) : returns (fun _ => True) p.
Proof. induction p as [a | e | o k IH]; simpl; auto. Qed.

Lemma returns_tryCatch {A : Type} (Q : A -> Prop) (p : Prog A) (h : Err -> Prog A) :
  returns Q p -> (forall e, returns Q (h e)) -> returns Q (tryCatch p h).
Proof.
  intros Hp Hh. induction p as [a | e | o k IH]; simpl.
  - exact Hp.
  - apply Hh.
  - intros r. apply IH, Hp.
Qed.

Lemma returns_mintFailed key s buyer e :
  returns (fun x => match x with inl _ => True | inr r => answered r end)
    (poll.mintFailed key s buyer e).
Proof.
  unfold poll.mintFailed.
  apply (returns_bind (fun _ => True)); [apply returns_any|]. intros _ _.
  cbv zeta. destruct (poll.isInsufficientSol _);
    (apply (returns_bind (fun _ => True)); [apply returns_any|]); intros _ _;
    (split; [reflexivity|]); auto.
Qed.

Lemma returns_confirmed key s kp : returns answered (poll.confirmed key s kp).
Proof.
  unfold poll.confirmed. cbv zeta.
  apply (returns_bind (fun _ => True)); [apply returns_any|]. intros _ _.
  apply (returns_bind (fun _ => True)); [apply returns_any|]. intros buyer _.
  apply (returns_bind (fun _ => True)); [apply returns_any|]. intros _ _.
  apply (returns_bind (fun x => match x with inl _ => True | inr r => answered r end)).
  - unfold poll.mintStep.
    apply (returns_bind (fun _ => True)); [apply returns_any|]. intros [m | e] _.
    + cbv zeta. apply returns_tryCatch; [|apply returns_mintFailed].
      apply (returns_bind (fun _ => True)); [apply returns_any|]. intros _ _. exact I.
    + apply returns_mintFailed.
  - intros [s3 | r] Hr; [|exact Hr].
    apply (returns_bind (fun _ => True)); [apply returns_any|]. intros _ _.
    split; [reflexivity|]. left. reflexivity.
Qed.

Lemma run_first {A : Type} (o : Op) (f : resT o -> Prog A) (w w1 : World) r t :
  run (bind (call o) f) w = (r, w1, t) -> exists rest, t = o :: rest.
Proof.
  unfold call. cbn [bind run]. destruct (exec o w) as [x wx].
  destruct (run _ wx) as [[r' w'] t']. intros [= _ _ <-]. eexists. reflexivity.
Qed.

(** Once payment is confirmed the first operation is the write of
    [minting], and an answer is one of [minted], [needs_funding] and
    [paid]. *)
Lemma confirmed_shape key s kp w r w1 t :
  run (poll.confirmed key s kp) w = (r, w1, t) ->
  (exists rest, t = RedisSet key (VSession (set_status Minting s)) 3600 :: rest) /\
  (forall response, r = Ok response -> answered response).
Proof.
  intros Hrun. split.
  - revert Hrun. unfold poll.confirmed. cbv zeta. apply run_first.
  - intros response ->. exact (returns_run _ _ _ _ _ _ (returns_confirmed key s kp) Hrun).
Qed.

(** C9. For a stored [pending] session that has not expired, polled while
    the load answers, the endpoint is accepted and the master secret is
    configured: [REQUIRED_USDC] is 2,250,000; a request without [test=true]
    makes the handler read the balance of the escrow address and, below
    the threshold, answer [pending] with the amount read and do nothing
    else, while at or above it the next operation is the write of [minting]
    and the answer is not [pending]; a request with the query parameter
    [test=true] makes the write of [minting] follow the derivation of the key
    directly, with no balance read before it.  The parameter is read from
    the request, whoever sends it.  Once [minting] is written the answer is
    [minted], [needs_funding] or [paid] when the store answers.  The balance
    read is the amount of the escrow token account when that read
    succeeds. *)
Theorem payment_confirmation_threshold (w : World) (sessionId : string)
    (test : option string) (s : Session) (phrase : string) :
  sessionId <> "" ->
  rpcFault w (RedisGetJson (poll.sessionKey sessionId)) = None ->
  storedSession w sessionId = Some s ->
  status s = Pending ->
  now w <= expiresAt s ->
  connects w ->
  masterSecret w = Some phrase ->
  let key := poll.sessionKey sessionId in
  let kp := keypairAt phrase (1000 + sessionIndex s) in
  let ata := getAssociatedTokenAddress solana.USDC_MINT (publicKey kp) in
  let balance := usdcBalanceOf w (publicKey kp) in
  let load := [RedisGetJson key; DateNow; GetEnv "SOLANA_RPC_URL";
               GetEnv "MASTER_SEED_PHRASE"] in
  let minting := RedisSet key (VSession (set_status Minting s)) 3600 in
  solana.REQUIRED_USDC = 2250000 /\
  (rpcFault w (GetAccount ata) = None -> balance = default 0 (usdc w !! ata)) /\
  (test <> Some "true" -> balance < solana.REQUIRED_USDC ->
   run (poll.handler (pollRequest sessionId test)) w =
     (Ok (poll.mkResponse 200 (poll.JPending (paymentAddress s) 2250000 balance)),
      w, load ++ [GetAccount ata])) /\
  (test <> Some "true" -> solana.REQUIRED_USDC <= balance ->
   exists response w' rest,
     run (poll.handler (pollRequest sessionId test)) w =
       (Ok response, w', load ++ [GetAccount ata] ++ minting :: rest) /\
     poll.status_of response <> Some "pending" /\
     (storeAnswers w -> answered response)) /\
  (test = Some "true" ->
   exists response w' rest,
     run (poll.handler (pollRequest sessionId test)) w =
       (Ok response, w', load ++ minting :: rest) /\
     poll.status_of response <> Some "pending" /\
     (storeAnswers w -> answered response)).
Proof.
  intros Hne Hload Hst Hp Hnow Hconn Hsec key kp ata balance load minting.
  assert (Hrun : run (poll.handler (pollRequest sessionId test)) w =
    match (if bool_decide (test = Some "true")
           then let '(r, w1, t) := run (poll.confirmed key s kp) w in (r, w1, load ++ t)
           else if balance <? solana.REQUIRED_USDC
                then (Ok (poll.mkResponse 200
                            (poll.JPending (paymentAddress s) solana.REQUIRED_USDC balance)),
                      w, load ++ [GetAccount ata])
                else let '(r, w1, t) := run (poll.confirmed key s kp) w in
                     (r, w1, (load ++ [GetAccount ata]) ++ t)) with
    | (Ok r, w1, t) => (Ok r, w1, t)
    | (Thrown e, w1, t) =>
        (Ok (poll.mkResponse 500 (poll.JError e)), w1, t ++ [ConsoleError "Poll error:"])
    end).
  { rewrite (run_handler _ _ _ Hne), (run_poll _ _ _ Hload). cbv zeta.
    rewrite (getJson_storedSession _ _ _ Hst), Hp.
    rewrite (bool_decide_eq_false_2 (Pending = Minting)) by discriminate.
    rewrite (bool_decide_eq_false_2 (Pending = Minted)) by discriminate.
    destruct (Z.gtb_spec (now w) (expiresAt s)) as [Hgt|_]; [lia|].
    unfold connects in Hconn. rewrite Hconn, Hsec. reflexivity. }
  assert (Hconf : forall before,
    exists response w' rest,
      match (let '(r, w1, t) := run (poll.confirmed key s kp) w in (r, w1, before ++ t)) with
      | (Ok r, w1, t) => (Ok r, w1, t)
      | (Thrown e, w1, t) =>
          (Ok (poll.mkResponse 500 (poll.JError e)), w1, t ++ [ConsoleError "Poll error:"])
      end = (Ok response, w', before ++ minting :: rest) /\
      poll.status_of response <> Some "pending" /\
      (storeAnswers w -> answered response)).
  { intros before.
    destruct (run (poll.confirmed key s kp) w) as [[[r | e] w1] t] eqn:Hc;
      destruct (confirmed_shape _ _ _ _ _ _ _ Hc) as ([rest ->] & Hans).
    - exists r, w1, rest. split; [reflexivity|].
      destruct (Hans r eq_refl) as (Hcode & Hstatus).
      split; [destruct Hstatus as [-> | [-> | ->]]; discriminate|].
      intros _. split; assumption.
    - exists (poll.mkResponse 500 (poll.JError e)), w1, (rest ++ [ConsoleError "Poll error:"]).
      split; [rewrite <- app_assoc; reflexivity|].
      split; [discriminate|].
      intros Hsa. destruct (run_confirmed_ok key s kp w Hsa) as (r' & w' & t' & Hok).
      rewrite Hok in Hc. discriminate Hc. }
  split; [reflexivity|]. split.
  { intros Hf. unfold balance, usdcBalanceOf. cbv zeta. fold kp. fold ata.
    now rewrite Hf. }
  split.
  { intros Ht Hlt. rewrite Hrun, (bool_decide_eq_false_2 _ Ht).
    destruct (Z.ltb_spec balance solana.REQUIRED_USDC) as [_|Hge]; [|lia].
    reflexivity. }
  split.
  - intros Ht Hge. rewrite Hrun, (bool_decide_eq_false_2 _ Ht).
    destruct (Z.ltb_spec balance solana.REQUIRED_USDC) as [Hlt|_]; [lia|].
    destruct (Hconf (load ++ [GetAccount ata])) as (response & w' & rest & Heq & Hx).
    exists response, w', rest. rewrite Heq, <- app_assoc. split; [reflexivity | exact Hx].
  - intros Ht. rewrite Hrun, (bool_decide_eq_true_2 _ Ht).
    destruct (Hconf load) as (response & w' & rest & Heq & Hx).
    exists response, w', rest. rewrite Heq. split; [reflexivity | exact Hx].
Qed.
End confirmation.

(** ** Session creation and key allocation *)


Section creation.
Context `{SolanaPrimitives}.

Lemma exec_RedisIncr_Ok key w idx w1 :
  exec (RedisIncr key) w = (Ok idx, w1) ->
  exists ttl, w1 = with_store (insert key (VInt idx, ttl)) w /\
    match store w !! key with
    | None => idx = 1
    | Some (VInt n, _) => idx = n + 1
    | Some _ => False
    end.
Proof.
  unfold exec; simpl. destruct (rpcFault w (RedisIncr key)); [discriminate|].
  destruct (store w !! key) as [[[s | s | n] ttl]|]; try discriminate.
  - destruct (n <? int64_max); [|discriminate].
    intros [= <- <-]. exists ttl. split; reflexivity.
  - intros [= <- <-]. exists None. split; reflexivity.
Qed.

Lemma fund_no_write master kp w r w1 t :
  run (session.fund master kp) w = (r, w1, t) ->
  Forall (fun o => is_store_write o = false) t.
Proof.
  unfold session.fund, solana.fundDerivedWallet, solana.initUsdcAta.
  rewrite !run_bind, run_call.
  destruct (exec _ w) as [[sig | e] wa].
  - rewrite run_Ret. cbv beta iota. rewrite !run_bind, run_call.
    destruct (exec _ wa) as [[ata | e] wb].
    + rewrite !run_Ret. cbv beta iota. intros [= _ _ <-]. repeat constructor.
    + intros [= _ _ <-]. repeat constructor.
  - intros [= _ _ <-]. repeat constructor.
Qed.

(** The handler on a well-formed request, once the counter has answered:
    each of the two writes and the construction of the connection can stop
    it, and what the funding does cannot. *)
Lemma run_create_cases (w : World) (outputType : string) (metadata : Metadata)
    (phrase : string) (idx : Z) (w1 : World) :
  outputType <> "" ->
  masterSecret w = Some phrase ->
  exec (RedisIncr session.counterKey) w = (Ok idx, w1) ->
  let s := newSession phrase idx (now w) outputType metadata in
  let master := keypairAt phrase 0 in
  let kp := keypairAt phrase (1000 + idx) in
  let setSession := RedisSet ("session:" +:+ sessionId s) (VSession s) 1800 in
  let setAddress := RedisSet ("address:" +:+ paymentAddress s) (VString (sessionId s)) 1800 in
  let wa := stored ("session:" +:+ sessionId s) s 1800 w1 in
  let w2 := with_store (insert ("address:" +:+ paymentAddress s)
                          (VString (sessionId s), Some 1800)) wa in
  let start := [RedisIncr session.counterKey; GetEnv "MASTER_SEED_PHRASE";
                GetEnv "MASTER_SEED_PHRASE"; DateNow; DateNow; DateNow] in
  run (session.handler (createRequest outputType metadata)) w =
  match rpcFault w setSession with
  | Some e =>
      (Ok (session.mkResponse 500 (session.JError e)), w1,
       start ++ [setSession; ConsoleError "Session creation error:"])
  | None =>
      match rpcFault w setAddress with
      | Some e =>
          (Ok (session.mkResponse 500 (session.JError e)), wa,
           start ++ [setSession; setAddress; ConsoleError "Session creation error:"])
      | None =>
          match connectionFailure w with
          | Some e =>
              (Ok (session.mkResponse 500 (session.JError e)), w2,
               start ++ [setSession; setAddress; GetEnv "SOLANA_RPC_URL";
                         ConsoleError "Session creation error:"])
          | None =>
              let '(rf, w3, tf) := run (session.fund master kp) w2 in
              (Ok (session.mkResponse 200
                     (session.JCreated (sessionId s) (paymentAddress s) solana.REQUIRED_USDC
                        (expiresAt s))),
               w3,
               start ++ [setSession; setAddress; GetEnv "SOLANA_RPC_URL"] ++ tf ++
               match rf with Ok _ => [] | Thrown _ => [ConsoleError "ATA init error:"] end)
          end
      end
  end.
Proof.
  intros Hot Hsec Hincr s master kp setSession setAddress wa w2 start.
  destruct (exec_RedisIncr_Ok _ _ _ _ Hincr) as (ttl & Hw1 & _).
  assert (Hsec1 : masterSecret w1 = Some phrase) by (rewrite Hw1; exact Hsec).
  assert (Hnow : now w1 = now w) by (rewrite Hw1; reflexivity).
  assert (Hfault : rpcFault w1 = rpcFault w) by (rewrite Hw1; reflexivity).
  assert (Hconn : connectionFailure w2 = connectionFailure w).
  { unfold connectionFailure, w2, wa. rewrite Hw1. reflexivity. }
  destruct outputType as [|c rest]; [contradiction|].
  change (session.handler (createRequest (String c rest) metadata))
    with (tryCatch (session.create (createRequest (String c rest) metadata))
            (fun err => call (ConsoleError "Session creation error:") ;;;
                        Ret (session.mkResponse 500 (session.JError err)))).
  rewrite run_tryCatch.
  unfold session.create, createRequest.
  cbn [session.body session.body_outputType session.body_metadata].
  rewrite run_bind, run_call, Hincr. cbv beta iota.
  rewrite run_bind, (run_getMasterKeypair _ _ Hsec1). cbv beta iota.
  rewrite run_bind, (run_getSessionKeypair _ _ idx Hsec1). cbv beta iota zeta.
  rewrite run_bind, run_DateNow. cbv beta iota.
  rewrite run_bind, run_DateNow. cbv beta iota.
  rewrite run_bind, run_DateNow. cbv beta iota.
  rewrite Hnow.
  rewrite run_bind, run_RedisSet_cases, Hfault.
  change (rpcFault w _) with (rpcFault w setSession) at 1.
  destruct (rpcFault w setSession) as [e|] eqn:H1; [reflexivity|]. cbv beta iota.
  rewrite run_bind, run_RedisSet_cases.
  change (rpcFault (with_store _ w1)) with (rpcFault w1). rewrite Hfault.
  change (rpcFault w _) with (rpcFault w setAddress) at 1.
  destruct (rpcFault w setAddress) as [e|] eqn:H2; [reflexivity|]. cbv beta iota.
  change (with_store _ (with_store _ w1)) with w2.
  rewrite run_bind, run_getConnection, Hconn.
  destruct (connectionFailure w) as [e|]; [reflexivity|]. cbv beta iota.
  rewrite run_bind, run_tryCatch.
  fold master kp.
  destruct (run (session.fund master kp) w2) as [[[[] | e] w3] tf] eqn:Hfund.
  - rewrite run_Ret. cbv beta iota. rewrite ?app_nil_r. reflexivity.
  - rewrite run_ConsoleError, run_Ret. cbv beta iota. rewrite ?app_nil_r. reflexivity.
Qed.

(** The handler when nothing stops it before the funding. *)
Lemma run_create (w : World) (outputType : string) (metadata : Metadata)
    (phrase : string) (idx : Z) (w1 : World) :
  outputType <> "" ->
  masterSecret w = Some phrase ->
  exec (RedisIncr session.counterKey) w = (Ok idx, w1) ->
  let s := newSession phrase idx (now w) outputType metadata in
  creationProceeds w s ->
  let master := keypairAt phrase 0 in
  let kp := keypairAt phrase (1000 + idx) in
  let w2 := with_store (insert ("address:" +:+ paymentAddress s)
                          (VString (sessionId s), Some 1800))
              (stored ("session:" +:+ sessionId s) s 1800 w1) in
  run (session.handler (createRequest outputType metadata)) w =
  let '(rf, w3, tf) := run (session.fund master kp) w2 in
  (Ok (session.mkResponse 200
         (session.JCreated (sessionId s) (paymentAddress s) solana.REQUIRED_USDC
            (expiresAt s))),
   w3,
   [RedisIncr session.counterKey; GetEnv "MASTER_SEED_PHRASE";
    GetEnv "MASTER_SEED_PHRASE"; DateNow; DateNow; DateNow;
    RedisSet ("session:" +:+ sessionId s) (VSession s) 1800;
    RedisSet ("address:" +:+ paymentAddress s) (VString (sessionId s)) 1800;
    GetEnv "SOLANA_RPC_URL"] ++ tf ++
   match rf with Ok _ => [] | Thrown _ => [ConsoleError "ATA init error:"] end).
Proof.
  intros Hot Hsec Hincr s (Hs1 & Hs2 & Hconn) master kp w2.
  rewrite (run_create_cases _ _ _ _ _ _ Hot Hsec Hincr). cbv zeta.
  fold s. rewrite Hs1, Hs2. unfold connects in Hconn. rewrite Hconn. reflexivity.
Qed.

Lemma session_key_not_address (a b : string) : "address:" +:+ a <> "session:" +:+ b.
Proof.
  change ("address:" +:+ a) with (String "a"%char ("ddress:" +:+ a)).
  change ("session:" +:+ b) with (String "s"%char ("ession:" +:+ b)).
  discriminate.
Qed.

Lemma session_key_not_counter (b : string) : "session:" +:+ b <> session.counterKey.
Proof.
  change ("session:" +:+ b) with (String "s"%char ("ession:" +:+ b)). discriminate.
Qed.

Lemma address_key_not_counter (a : string) : "address:" +:+ a <> session.counterKey.
Proof.
  change ("address:" +:+ a) with (String "a"%char ("ddress:" +:+ a)). discriminate.
Qed.

(** C10. On a well-formed request, with the master secret configured, the
    counter and the two writes of the record answering: when the endpoint is
    accepted, the handler responds 200 with the session id, the payment
    address and the required amount whatever the funding of the escrow
    wallet does; the stored session record is the [pending] one the handler
    wrote; and when the funding throws, the error goes to the console and
    the world is the one the failed funding left.  The construction of the
    connection stands before the [try] of the funding: when the endpoint is
    refused, the handler answers 500 with that error, nothing of the funding
    is attempted, and the record it had written stays stored. *)
Theorem creation_survives_funding_failure (w : World) (outputType : string)
    (metadata : Metadata) (phrase : string) (idx : Z) (w1 : World)
    (rf : Outcome unit) (w3 : World) (tf : list Op) :
  outputType <> "" ->
  masterSecret w = Some phrase ->
  exec (RedisIncr session.counterKey) w = (Ok idx, w1) ->
  let s := newSession phrase idx (now w) outputType metadata in
  rpcFault w (RedisSet ("session:" +:+ sessionId s) (VSession s) 1800) = None ->
  rpcFault w (RedisSet ("address:" +:+ paymentAddress s) (VString (sessionId s)) 1800)
    = None ->
  let w2 := with_store (insert ("address:" +:+ paymentAddress s)
                          (VString (sessionId s), Some 1800))
              (stored ("session:" +:+ sessionId s) s 1800 w1) in
  run (session.fund (keypairAt phrase 0) (keypairAt phrase (1000 + idx))) w2
    = (rf, w3, tf) ->
  (connects w ->
   exists t,
     run (session.handler (createRequest outputType metadata)) w =
       (Ok (session.mkResponse 200
              (session.JCreated (sessionId s) (paymentAddress s) 2250000 (expiresAt s))),
        w3, t) /\
     storedSession w3 (sessionId s) = Some s /\
     store w3 !! ("session:" +:+ sessionId s) = Some (VSession s, Some 1800) /\
     status s = Pending /\
     (forall e, rf = Thrown e ->
        exists before, t = before ++ tf ++ [ConsoleError "ATA init error:"])) /\
  (forall e, connectionFailure w = Some e ->
   exists t,
     run (session.handler (createRequest outputType metadata)) w =
       (Ok (session.mkResponse 500 (session.JError e)), w2, t) /\
     Forall (fun o => is_transfer o = false) t /\
     storedSession w2 (sessionId s) = Some s).
Proof.
  intros Hot Hsec Hincr s Hs1 Hs2 w2 Hfund.
  assert (Hlook2 : store w2 !! ("session:" +:+ sessionId s) = Some (VSession s, Some 1800)).
  { unfold w2, stored; simpl.
    rewrite lookup_insert_ne by apply session_key_not_address.
    apply lookup_insert_eq. }
  split.
  - intros Hconn.
    rewrite (run_create _ _ _ _ _ _ Hot Hsec Hincr (conj Hs1 (conj Hs2 Hconn))). cbv zeta.
    fold s. fold w2. rewrite Hfund.
    pose proof (run_store_unchanged _ _ _ _ _ Hfund (fund_no_write _ _ _ _ _ _ Hfund))
      as Hstore.
    assert (Hlook : store w3 !! ("session:" +:+ sessionId s) = Some (VSession s, Some 1800))
      by (rewrite Hstore; exact Hlook2).
    eexists. split; [reflexivity|].
    split. { unfold storedSession, poll.sessionKey. now rewrite Hlook. }
    split; [exact Hlook|]. split; [reflexivity|].
    intros e ->. eexists. reflexivity.
  - intros e He.
    rewrite (run_create_cases _ _ _ _ _ _ Hot Hsec Hincr). cbv zeta.
    fold s. rewrite Hs1, Hs2, He.
    eexists. split; [reflexivity|].
    split; [repeat constructor|].
    unfold storedSession, poll.sessionKey. now rewrite Hlook2.
Qed.

(** Only a well-formed request is answered with a created session. *)
Lemma created_request (req : session.Request) (w w' : World) (t : list Op)
    (sid addr : string) (required expires : Z) :
  run (session.handler req) w =
    (Ok (session.mkResponse 200 (session.JCreated sid addr required expires)), w', t) ->
  exists outputType metadata,
    outputType <> "" /\ req = createRequest outputType metadata.
Proof.
  destruct req as [method body]. unfold session.handler.
  cbn [session.method].
  destruct (bool_decide_reflect (method = "OPTIONS")) as [_ | _]; [discriminate|].
  destruct (bool_decide_reflect (method = "POST")) as [-> | _]; [|discriminate].
  cbn [negb]. rewrite run_tryCatch. unfold session.create. cbn [session.body].
  destruct body as [[[[|c rest]|] [metadata|]]|]; try discriminate.
  intros _. exists (String c rest), metadata. split; [discriminate | reflexivity].
Qed.

(** A created session: where its index comes from, and what has answered. *)
Lemma created_index (w : World) (outputType : string) (metadata : Metadata)
    (w' : World) (t : list Op) (sid addr : string) (required expires : Z) :
  outputType <> "" ->
  run (session.handler (createRequest outputType metadata)) w =
    (Ok (session.mkResponse 200 (session.JCreated sid addr required expires)), w', t) ->
  exists phrase idx w1,
    masterSecret w = Some phrase /\
    exec (RedisIncr session.counterKey) w = (Ok idx, w1) /\
    creationProceeds w (newSession phrase idx (now w) outputType metadata).
Proof.
  intros Hot Hrun.
  assert (Hfirst : exists phrase idx w1,
            masterSecret w = Some phrase /\
            exec (RedisIncr session.counterKey) w = (Ok idx, w1)).
  { revert Hrun. destruct outputType as [|c rest]; [contradiction|].
    change (session.handler (createRequest (String c rest) metadata))
      with (tryCatch (session.create (createRequest (String c rest) metadata))
              (fun err => call (ConsoleError "Session creation error:") ;;;
                          Ret (session.mkResponse 500 (session.JError err)))).
    rewrite run_tryCatch.
    unfold session.create, createRequest.
    cbn [session.body session.body_outputType session.body_metadata].
    rewrite run_bind, run_call.
    destruct (exec (RedisIncr session.counterKey) w) as [[idx | e] w1] eqn:Hincr.
    - cbv beta iota.
      destruct (exec_RedisIncr_Ok _ _ _ _ Hincr) as (ttl & Hw1 & _).
      destruct (masterSecret w) as [phrase|] eqn:Hsec.
      + intros _. exists phrase, idx, w1. split; reflexivity.
      + assert (Hsec1 : masterSecret w1 = None) by (rewrite Hw1; exact Hsec).
        rewrite run_bind. unfold wallet.getMasterKeypair.
        rewrite run_deriveKeypair, Hsec1. cbv beta iota.
        rewrite run_bind, run_ConsoleError. discriminate.
    - rewrite run_bind, run_ConsoleError. discriminate. }
  destruct Hfirst as (phrase & idx & w1 & Hsec & Hincr).
  exists phrase, idx, w1. split; [exact Hsec|]. split; [exact Hincr|].
  rewrite (run_create_cases _ _ _ _ _ _ Hot Hsec Hincr) in Hrun. cbv zeta in Hrun.
  unfold creationProceeds, connects.
  destruct (rpcFault w (RedisSet ("session:" +:+ _) _ 1800)); [discriminate|].
  destruct (rpcFault w (RedisSet ("address:" +:+ _) _ 1800)); [discriminate|].
  destruct (connectionFailure w); [discriminate|].
  repeat split.
Qed.

(** Derivation and allocation, from a counter that is not negative. *)
Lemma derivation_and_allocation :
  (forall (w1 w2 : World) (index : Z),
     masterSecret w1 = masterSecret w2 ->
     fst (fst (run (wallet.deriveKeypair index) w1)) =
     fst (fst (run (wallet.deriveKeypair index) w2)) /\
     snd (fst (run (wallet.deriveKeypair index) w1)) = w1) /\
  (forall (w : World) (req : session.Request) (w' : World) (t : list Op)
          (sid addr : string) (required expires : Z),
     counterOk w ->
     run (session.handler req) w =
       (Ok (session.mkResponse 200 (session.JCreated sid addr required expires)), w', t) ->
     exists s phrase,
       storedSession w' sid = Some s /\
       masterSecret w = Some phrase /\
       1 <= sessionIndex s /\
       1000 + sessionIndex s <> 0 /\
       wallet.derivationPath (1000 + sessionIndex s) <> wallet.derivationPath 0 /\
       run (wallet.getSessionKeypair (sessionIndex s)) w' =
         (Ok (keypairAt phrase (1000 + sessionIndex s)), w', [GetEnv "MASTER_SEED_PHRASE"]) /\
       run wallet.getMasterKeypair w' =
         (Ok (keypairAt phrase 0), w', [GetEnv "MASTER_SEED_PHRASE"]) /\
       addr = publicKey (keypairAt phrase (1000 + sessionIndex s)) /\
       counterOk w').
Proof.
  split.
  { intros w1 w2 index Hs. rewrite !run_deriveKeypair, Hs. split; reflexivity. }
  intros w req w' t sid addr required expires Hc Hrun.
  destruct (created_request _ _ _ _ _ _ _ _ Hrun) as (ot & md & Hot & ->).
  destruct (created_index _ _ _ _ _ _ _ _ _ Hot Hrun)
    as (phrase & idx & w1 & Hsec & Hincr & Hgo).
  rewrite (run_create _ _ _ _ _ _ Hot Hsec Hincr Hgo) in Hrun. cbv zeta in Hrun.
  set (s := newSession phrase idx (now w) ot md) in *.
  set (w2 := with_store _ (stored _ s 1800 w1)) in *.
  destruct (run (session.fund _ _) w2) as [[rf w3] tf] eqn:Hfund.
  injection Hrun as Hsid Haddr _ _ Hw' _. subst w3.
  pose proof (run_store_unchanged _ _ _ _ _ Hfund (fund_no_write _ _ _ _ _ _ Hfund))
    as Hstore.
  destruct (exec_RedisIncr_Ok _ _ _ _ Hincr) as (ttl & Hw1 & Hidx).
  assert (Hpos : 1 <= idx).
  { destruct (store w !! session.counterKey) as [[v ttl0]|] eqn:Hlook; [|lia].
    destruct (Hc _ _ Hlook) as (n & -> & Hn). lia. }
  assert (Henv : env w' = env w).
  { rewrite (run_env _ _ _ _ _ Hfund). unfold w2. rewrite Hw1. reflexivity. }
  assert (Hsec' : masterSecret w' = Some phrase).
  { unfold masterSecret in *. now rewrite Henv. }
  exists s, phrase.
  split.
  { subst sid. unfold storedSession, poll.sessionKey. rewrite Hstore.
    unfold w2, stored; simpl.
    rewrite lookup_insert_ne by apply session_key_not_address.
    now rewrite lookup_insert_eq. }
  split; [exact Hsec|]. split; [exact Hpos|].
  split; [simpl; lia|].
  split. { intros Heq. apply derivationPath_inj in Heq. simpl in Heq. lia. }
  split; [now apply run_getSessionKeypair|].
  split; [now apply run_getMasterKeypair|].
  split; [subst addr; reflexivity|].
  intros v ttl' Hlook. rewrite Hstore in Hlook. unfold w2, stored in Hlook; simpl in Hlook.
  rewrite lookup_insert_ne in Hlook by apply address_key_not_counter.
  rewrite lookup_insert_ne in Hlook by apply session_key_not_counter.
  rewrite Hw1 in Hlook. simpl in Hlook. rewrite lookup_insert_eq in Hlook.
  injection Hlook as <- _. exists idx. split; [reflexivity | lia].
Qed.
End creation.

(** ** The counter over the life of the store *)

Create HintDb ops discriminated.

Section invariant.
Context `{SolanaPrimitives}.

Lemma allOps_run {A : Type} (P : Op -> Prop) (p : Prog A) (w w' : World) r t :
  allOps P p -> run p w = (r, w', t) -> Forall P t.
Proof.
  revert w w' r t. induction p as [a | e | o k IH]; intros w w' r t; simpl.
  - intros _ [= _ _ <-]. constructor.
  - intros _ [= _ _ <-]. constructor.
  - intros [Ho Hk]. destruct (exec o w) as [x wx].
    destruct (run (k x) wx) as [[r' w''] t'] eqn:Hrun.
    intros [= _ _ <-]. constructor; [exact Ho|].
    exact (IH x _ _ _ _ (Hk x) Hrun).
Qed.

Lemma allOps_bind {A B : Type} (P : Op -> Prop) (p : Prog A) (f : A -> Prog B) :
  allOps P p -> (forall a, allOps P (f a)) -> allOps P (bind p f).
Proof.
  intros Hp Hf. induction p as [a | e | o k IH]; simpl.
  - apply Hf.
  - exact I.
  - destruct Hp as [Ho Hk]. split; [exact Ho|]. intros r. apply IH, Hk.
Qed.

Lemma allOps_tryCatch {A : Type} (P : Op -> Prop) (p : Prog A) (h : Err -> Prog A) :
  allOps P p -> (forall e, allOps P (h e)) -> allOps P (tryCatch p h).
Proof.
  intros Hp Hh. induction p as [a | e | o k IH]; simpl.
  - exact I.
  - apply Hh.
  - destruct Hp as [Ho Hk]. split; [exact Ho|]. intros r. apply IH, Hk.
Qed.

Lemma allOps_call (P : Op -> Prop) (o : Op) : P o -> allOps P (call o).
Proof. intros Ho. split; [exact Ho|]. intros [v | e]; exact I. Qed.

(** One step through a program, for goals about [keepsCounter]. *)
Ltac walk :=
  repeat match goal with
    | |- allOps _ (bind _ _) => apply allOps_bind; [|intros ?]
    | |- allOps _ (tryCatch _ _) => apply allOps_tryCatch; [|intros ?]
    | |- allOps _ (call _) => apply allOps_call
    | |- allOps _ (Ret _) => exact I
    | |- allOps _ (Throw _) => exact I
    | |- allOps _ (match ?x with _ => _ end) => destruct x
    | |- allOps _ _ => solve [auto with ops]
    | |- keepsCounter _ => first [exact I | solve [simpl; auto with ops]]
    end.

Lemma kc_deriveKeypair index : allOps keepsCounter (wallet.deriveKeypair index).
Proof. unfold wallet.deriveKeypair. walk. Qed.
Hint Resolve kc_deriveKeypair : ops.

Lemma kc_getMasterKeypair : allOps keepsCounter wallet.getMasterKeypair.
Proof. apply kc_deriveKeypair. Qed.

Lemma kc_getSessionKeypair i : allOps keepsCounter (wallet.getSessionKeypair i).
Proof. apply kc_deriveKeypair. Qed.
Hint Resolve kc_getMasterKeypair kc_getSessionKeypair : ops.

Lemma kc_getConnection : allOps keepsCounter solana.getConnection.
Proof. unfold solana.getConnection. walk. Qed.
Hint Resolve kc_getConnection : ops.

Lemma kc_getUsdcBalance pk : allOps keepsCounter (solana.getUsdcBalance pk).
Proof. unfold solana.getUsdcBalance. walk. Qed.
Hint Resolve kc_getUsdcBalance : ops.

Lemma kc_scanSignatures receiver sigs :
  allOps keepsCounter (solana.scanSignatures receiver sigs).
Proof.
  induction sigs as [|sig rest IH]; [exact I|].
  rewrite scanSignatures_cons. walk; exact IH.
Qed.
Hint Resolve kc_scanSignatures : ops.

Lemma kc_findUsdcSender receiver : allOps keepsCounter (solana.findUsdcSender receiver).
Proof. unfold solana.findUsdcSender. walk. Qed.
Hint Resolve kc_findUsdcSender : ops.

Lemma kc_sweepUsdc kp master : allOps keepsCounter (solana.sweepUsdc kp master).
Proof. unfold solana.sweepUsdc. walk. Qed.

Lemma kc_sweepSol kp master : allOps keepsCounter (solana.sweepSol kp master).
Proof. unfold solana.sweepSol. walk. Qed.
Hint Resolve kc_sweepUsdc kc_sweepSol : ops.

Lemma kc_fund master kp : allOps keepsCounter (session.fund master kp).
Proof.
  unfold session.fund, solana.fundDerivedWallet, solana.initUsdcAta. walk.
Qed.
Hint Resolve kc_fund session_key_not_counter address_key_not_counter : ops.

Lemma kc_mintNft s buyer : allOps keepsCounter (poll.mintNft s buyer).
Proof. unfold poll.mintNft. walk. Qed.
Hint Resolve kc_mintNft : ops.

Lemma kc_confirmed key s kp :
  key <> session.counterKey -> allOps keepsCounter (poll.confirmed key s kp).
Proof.
  intros Hkey.
  unfold poll.confirmed, poll.mintStep, poll.mintFailed, poll.sweepStep, poll.sweepBody. walk.
Qed.

Lemma kc_poll_handler req : allOps keepsCounter (poll.handler req).
Proof.
  pose proof kc_confirmed as Hc.
  unfold poll.handler, poll.poll, poll.sessionKey. walk.
Qed.

Lemma kc_session_handler req : allOps keepsCounter (session.handler req).
Proof. unfold session.handler, session.create. walk. Qed.

(** An operation that does not overwrite the counter keeps it an integer
    that is not negative. *)
Lemma exec_counterOk (o : Op) (w : World) :
  keepsCounter o -> counterOk w -> counterOk (snd (exec o w)).
Proof.
  intros Hk Hc.
  destruct (is_store_write o) eqn:Hw.
  - destruct o; try discriminate.
    + intros v ttl. rewrite exec_RedisSet.
      destruct (rpcFault w _); simpl; [apply Hc|].
      rewrite lookup_insert_ne by exact Hk. apply Hc.
    + intros v ttl. unfold exec; simpl.
      destruct (rpcFault w _); simpl; [apply Hc|].
      destruct (store w !! key) as [[[s | s | n] ttl0]|] eqn:Hlook; simpl; try apply Hc.
      * destruct (n <? int64_max); simpl; [|apply Hc].
        destruct (decide (key = session.counterKey)) as [-> | Hne].
        -- rewrite lookup_insert_eq. intros [= <- _].
           destruct (Hc _ _ Hlook) as (m & [= <-] & Hm). exists (n + 1). split; [reflexivity | lia].
        -- rewrite lookup_insert_ne by exact Hne. apply Hc.
      * destruct (decide (key = session.counterKey)) as [-> | Hne].
        -- rewrite lookup_insert_eq. intros [= <- _]. exists 1. split; [reflexivity | lia].
        -- rewrite lookup_insert_ne by exact Hne. apply Hc.
  - intros v ttl. rewrite (exec_store o w Hw). apply Hc.
Qed.

Lemma run_counterOk {A : Type} (p : Prog A) (w w' : World) r t :
  allOps keepsCounter p -> run p w = (r, w', t) -> counterOk w -> counterOk w'.
Proof.
  revert w w' r t. induction p as [a | e | o k IH]; intros w w' r t; simpl.
  - now intros _ [= _ <- _].
  - now intros _ [= _ <- _].
  - intros [Ho Hk]. destruct (exec o w) as [x wx] eqn:Hx.
    destruct (run (k x) wx) as [[r' w''] t'] eqn:Hrun.
    intros [= _ <- _] Hc. apply (IH x _ _ _ _ (Hk x) Hrun).
    pose proof (exec_counterOk o w Ho Hc) as Hc'. now rewrite Hx in Hc'.
Qed.

(** Over every history of the store the counter stays an integer that is
    not negative. *)
Lemma reachable_counterOk (w : World) : reachable w -> counterOk w.
Proof.
  induction 1 as [w He | w req r w' t _ IH Hrun | w req r w' t _ IH Hrun
                 | w w' _ IH Hs | w key v ttl _ IH Hlook].
  - intros v ttl. rewrite He, lookup_empty. discriminate.
  - exact (run_counterOk _ _ _ _ _ (kc_session_handler req) Hrun IH).
  - exact (run_counterOk _ _ _ _ _ (kc_poll_handler req) Hrun IH).
  - intros v ttl. rewrite Hs. apply IH.
  - intros v' ttl'. simpl.
    destruct (decide (key = session.counterKey)) as [-> | Hne].
    + rewrite lookup_delete_eq. discriminate.
    + rewrite lookup_delete_ne by exact Hne. apply IH.
Qed.
End invariant.

(** ** Session keys and the master key *)

Section allocation.
Context `{SolanaPrimitives}.

(** C8. Key derivation is a function of the master secret and the index:
    in two worlds with the same master secret [deriveKeypair] returns the
    same result at the same index, and it changes nothing.  And over every
    history of the store (sessions created, sessions polled, the ledger and
    the clock moving, keys expiring), whenever the session handler answers
    with a created session, the index of the stored session is at least 1
    (the value of the incremented counter), the index its key is derived at
    is 1000 plus that, which is not the master index 0 and has another
    derivation path, and the payment address is the public key derived at
    that index. *)
Theorem session_index_never_master :
  (forall (w1 w2 : World) (index : Z),
     masterSecret w1 = masterSecret w2 ->
     fst (fst (run (wallet.deriveKeypair index) w1)) =
     fst (fst (run (wallet.deriveKeypair index) w2)) /\
     snd (fst (run (wallet.deriveKeypair index) w1)) = w1) /\
  (forall (w : World) (req : session.Request) (w' : World) (t : list Op)
          (sid addr : string) (required expires : Z),
     reachable w ->
     run (session.handler req) w =
       (Ok (session.mkResponse 200 (session.JCreated sid addr required expires)), w', t) ->
     exists s phrase,
       storedSession w' sid = Some s /\
       masterSecret w = Some phrase /\
       1 <= sessionIndex s /\
       1000 + sessionIndex s <> 0 /\
       wallet.derivationPath (1000 + sessionIndex s) <> wallet.derivationPath 0 /\
       run (wallet.getSessionKeypair (sessionIndex s)) w' =
         (Ok (keypairAt phrase (1000 + sessionIndex s)), w', [GetEnv "MASTER_SEED_PHRASE"]) /\
       run wallet.getMasterKeypair w' =
         (Ok (keypairAt phrase 0), w', [GetEnv "MASTER_SEED_PHRASE"]) /\
       addr = publicKey (keypairAt phrase (1000 + sessionIndex s)) /\
       reachable w').
Proof.
  split; [exact (proj1 derivation_and_allocation)|].
  intros w req w' t sid addr required expires Hreach Hrun.
  destruct (proj2 derivation_and_allocation w req w' t sid addr required expires
              (reachable_counterOk w Hreach) Hrun)
    as (s & phrase & Hst & Hsec & Hidx & Hne & Hpath & Hkey & Hmaster & Haddr & _).
  exists s, phrase.
  repeat (split; [assumption|]).
  exact (reach_session w req _ w' t Hreach Hrun).
Qed.
End allocation.

(** ** The handlers on concrete worlds *)


Section scenarios.
Local Existing Instance demoPrimitives.

Local Ltac concrete :=
  vm_compute; first [reflexivity | discriminate | intros; discriminate].

Lemma demo_mintDue (t balance : Z) (fault : Op -> option Err) (test : option string) :
  t <= 1801000 ->
  (forall o, is_store_op o = true -> fault o = None) ->
  fault (GetAccount demoAta) = None ->
  2250000 <= balance ->
  mintDue (demoWorld Pending t balance fault) demoId test demoSession demoPhrase.
Proof.
  intros Ht Hstore Hf Hb. unfold mintDue.
  split; [concrete|]. split; [exact Hstore|]. split; [reflexivity|].
  split; [reflexivity|].
  split; [discriminate|]. split; [discriminate|].
  split; [exact Ht|]. split; [reflexivity|].
  right. unfold usdcBalanceOf. cbv zeta.
  change (getAssociatedTokenAddress solana.USDC_MINT
            (publicKey (keypairAt demoPhrase (1000 + sessionIndex demoSession))))
    with demoAta.
  change (rpcFault (demoWorld Pending t balance fault)) with fault. rewrite Hf.
  change (usdc (demoWorld Pending t balance fault)) with ({[ demoAta := balance ]} : gmap string Z).
  rewrite lookup_singleton_eq. exact Hb.
Qed.

(** A mint that fails for lack of gas: [needs_funding], buyer kept.  A mint
    that fails because the blockhash is gone: [paid], buyer kept. *)
Lemma mint_failure_status_witness :
  (let w := demoWorld Pending 2000 2250000 mintFaultGas in
   exists response w' after,
     fst (run (poll.handler (pollRequest demoId None)) w) = (Ok response, w') /\
     storedSession w' demoId = Some after /\
     status after = NeedsFunding /\
     poll.status_of response = Some "needs_funding" /\
     buyerWallet after = Some "buyer" /\
     buyer_of response = Some (Some "buyer")) /\
  (let w := demoWorld Pending 2000 2250000 mintFaultOther in
   exists response w' after,
     fst (run (poll.handler (pollRequest demoId None)) w) = (Ok response, w') /\
     storedSession w' demoId = Some after /\
     status after = Paid /\
     poll.status_of response = Some "paid" /\
     buyerWallet after = Some "buyer" /\
     buyer_of response = Some (Some "buyer")).
Proof.
  pose (key := poll.sessionKey demoId).
  pose (kp := keypairAt demoPhrase (1000 + sessionIndex demoSession)).
  split; intros w.
  - assert (Hdue : mintDue w demoId None demoSession demoPhrase).
    { apply demo_mintDue; [lia | intros [] Ho; (discriminate Ho || reflexivity)
                          | reflexivity | lia]. }
    pose (atMint := sessionAtMint key demoSession kp w).
    pose (mint := run (poll.mintNft atMint (buyerWallet atMint))
                    (worldAtMint key demoSession kp w)).
    destruct (mint_failure_status w demoId None demoSession demoPhrase
                "Transfer: insufficient lamports 1000, need 15616720"
                (snd (fst mint)) (snd mint) Hdue)
      as (response & w' & t & after & Hrun & _ & Hst & Hgas & _ & _ & Hbuyer & Hkept & Hout).
    { vm_compute. reflexivity. }
    destruct Hgas as [Hstatus Hresp].
    { left. exists "Transfer: ", " 1000, need 15616720". reflexivity. }
    exists response, w', after.
    split; [rewrite Hrun; reflexivity|]. split; [exact Hst|].
    split; [exact Hstatus|]. split; [exact Hresp|].
    split; [rewrite Hkept, Hbuyer; vm_compute; reflexivity|].
    rewrite Hout, Hbuyer. vm_compute. reflexivity.
  - assert (Hdue : mintDue w demoId None demoSession demoPhrase).
    { apply demo_mintDue; [lia | intros [] Ho; (discriminate Ho || reflexivity)
                          | reflexivity | lia]. }
    pose (atMint := sessionAtMint key demoSession kp w).
    pose (mint := run (poll.mintNft atMint (buyerWallet atMint))
                    (worldAtMint key demoSession kp w)).
    destruct (mint_failure_status w demoId None demoSession demoPhrase
                "Transaction simulation failed: Blockhash not found"
                (snd (fst mint)) (snd mint) Hdue)
      as (response & w' & t & after & Hrun & _ & Hst & _ & Hother & _ & Hbuyer & Hkept & Hout).
    { vm_compute. reflexivity. }
    destruct Hother as [Hstatus Hresp].
    { intros Hg. apply isInsufficientSol_gasSignal in Hg. vm_compute in Hg. discriminate Hg. }
    exists response, w', after.
    split; [rewrite Hrun; reflexivity|]. split; [exact Hst|].
    split; [exact Hstatus|]. split; [exact Hresp|].
    split; [rewrite Hkept, Hbuyer; vm_compute; reflexivity|].
    rewrite Hout, Hbuyer. vm_compute. reflexivity.
Defined.

(** A mint that succeeds and a sweep whose transfer is refused: the
    answer is [minted], the store keeps [minted], the next poll mints
    nothing. *)
Lemma sweep_failure_keeps_minted_witness :
  let w := demoWorld Pending 2000 2250000 transferFault in
  exists w' after,
    fst (run (poll.handler (pollRequest demoId None)) w) =
      (Ok (poll.mkResponse 200 (poll.JMinted (Some "mint0") (Some "5ig") (Some "buyer"))), w') /\
    storedSession w' demoId = Some after /\
    status after = Minted /\
    run (poll.handler (pollRequest demoId None)) w' =
      (Ok (poll.mkResponse 200 (poll.JMintedStored (Some "mint0") (Some "5ig"))), w',
       [RedisGetJson (poll.sessionKey demoId)]).
Proof.
  intros w.
  assert (Hdue : mintDue w demoId None demoSession demoPhrase).
  { apply demo_mintDue; [lia | intros [] Ho; (discriminate Ho || reflexivity)
                        | reflexivity | lia]. }
  pose (key := poll.sessionKey demoId).
  pose (kp := keypairAt demoPhrase (1000 + sessionIndex demoSession)).
  pose (atMint := sessionAtMint key demoSession kp w).
  pose (m := poll.mkMintResult "mint0" "5ig" "https://gateway.pinata.cloud/ipfs/QmHash").
  pose (mint := run (poll.mintNft atMint (buyerWallet atMint))
                  (worldAtMint key demoSession kp w)).
  pose (sweep := run (poll.sweepBody key (mintedSession m atMint) kp)
                   (stored key (mintedSession m atMint) 86400 (snd (fst mint)))).
  destruct (sweep_failure_keeps_minted w demoId None demoSession demoPhrase m
              (snd (fst mint)) (snd mint) "failed to send transaction"
              (snd (fst sweep)) (snd sweep) Hdue)
    as (w' & t & Hrun & _ & _ & Hst & Hstatus & _ & _ & Hlater).
  { vm_compute. reflexivity. }
  { vm_compute. reflexivity. }
  exists w', (mintedSession m atMint).
  split; [rewrite Hrun; reflexivity|]. split; [exact Hst|].
  split; [exact Hstatus|].
  refine (proj1 (proj1 (Hlater w' None Hst) _)).
  rewrite (run_rpcFault _ _ _ _ _ Hrun). reflexivity.
Defined.

(** C4.  A session whose mint failed for lack of gas is stored as
    [needs_funding] for a day, with the buyer detected; the response says
    that the payment is safe.  With the treasury funded, a poll up to
    [expiresAt] takes the mint up again and answers [minted].  One
    millisecond past [expiresAt], half an hour after the creation, the poll
    of the same stored record answers [expired] after the load and the
    clock alone, and so does every later poll: the expiry check stands
    before the retry, and the paid session is not minted any more.  The same
    holds of a session stored as [paid]. *)
Theorem paid_session_reported_expired :
  let key := poll.sessionKey demoId in
  let afterFailure fault :=
    snd (fst (run (poll.handler (pollRequest demoId None))
                (demoWorld Pending 2000 2250000 fault))) in
  let record st :=
    VSession (set_status st (set_buyerWallet (Some "buyer") demoSession)) in
  expiresAt demoSession = 1801000 /\
  store (afterFailure mintFaultGas) !! key = Some (record NeedsFunding, Some 86400) /\
  store (afterFailure mintFaultOther) !! key = Some (record Paid, Some 86400) /\
  (forall fault, fault = mintFaultGas \/ fault = mintFaultOther ->
   fst (fst (run (poll.handler (pollRequest demoId None))
               (demoLater (afterFailure fault) 1801000 noFault))) =
     Ok (poll.mkResponse 200 (poll.JMinted (Some "mint1") (Some "5ig") (Some "buyer"))) /\
   forall test,
     test = None \/ test = Some "true" ->
     let late := demoLater (afterFailure fault) 1801001 noFault in
     run (poll.handler (pollRequest demoId test)) late =
       (Ok (poll.mkResponse 200 poll.JExpired), late, [RedisGetJson key; DateNow])).
Proof.
  cbv zeta.
  split; [reflexivity|].
  split; [vm_compute; reflexivity|].
  split; [vm_compute; reflexivity|].
  intros fault [-> | ->]; (split; [vm_compute; reflexivity|]);
    intros test [-> | ->]; vm_compute; reflexivity.
Qed.

(** An empty escrow account and a funded wallet; a funded account and a
    wallet holding no more than the fee. *)
Lemma sweep_asset_then_gas_witness :
  let w := demoWorld Minted 2000 0 noFault in
  let master := publicKey demoMaster in
  run (solana.sweepUsdc demoEscrow master) w = (Ok None, w, [GetAccount demoAta]) /\
  (exists r w1, run (solana.sweepSol demoEscrow master) w =
     (r, w1, [GetBalance (publicKey demoEscrow); solSweepTx demoEscrow master 2995000])) /\
  (exists r w1, run (solana.sweepUsdc demoEscrow master) (demoWorld Minted 2000 2250000 noFault) =
     (r, w1, [GetAccount demoAta; usdcSweepTx demoEscrow master 2250000])) /\
  run (solana.sweepSol demoEscrow master) (demoSweptWorld 2000) =
    (Ok None, demoSweptWorld 2000, [GetBalance (publicKey demoEscrow)]).
Proof.
  intros w master.
  destruct (sweep_asset_then_gas w demoEscrow master) as (Hzero & _ & _ & Hsol & _).
  destruct (sweep_asset_then_gas (demoWorld Minted 2000 2250000 noFault) demoEscrow master)
    as (_ & Hpaid & _).
  destruct (sweep_asset_then_gas (demoSweptWorld 2000) demoEscrow master)
    as (_ & _ & Hdust & _).
  split; [apply Hzero; reflexivity|].
  split; [apply Hsol; [reflexivity | reflexivity]|].
  split; [apply Hpaid; discriminate|].
  destruct Hdust as (r & Hrun & Hr); [discriminate|].
  rewrite Hrun, (Hr eq_refl). reflexivity.
Defined.

(** The newest transaction moves the escrow's own balance; the one before
    it is the buyer's payment. *)
Lemma findUsdcSender_most_recent_sender_witness :
  let w := demoWorld Pending 2000 2250000 noFault in
  let receiver := publicKey demoEscrow in
  readable w /\
  run (solana.findUsdcSender receiver) w =
    (Ok (Some "buyer"), w,
     [GetSignaturesForAddress demoAta 10; GetTransaction "sigB"; GetTransaction "sigA"]) /\
  exists (i : nat) sig meta pre,
    scannedWindow w receiver !! i = Some sig /\
    transactions w !! sig = Some meta /\
    sentFrom receiver meta pre /\ owner pre = "buyer".
Proof.
  intros w receiver.
  assert (Hr : readable w) by (intros o _; reflexivity).
  assert (Hrun : run (solana.findUsdcSender receiver) w =
                 (Ok (Some "buyer"), w,
                  [GetSignaturesForAddress demoAta 10; GetTransaction "sigB";
                   GetTransaction "sigA"])) by (vm_compute; reflexivity).
  split; [exact Hr|]. split; [exact Hrun|].
  destruct (proj2 (proj2 (findUsdcSender_most_recent_sender w receiver)) Hr _ _ _ Hrun)
    as (i & sig & meta & pre & Hi & Htx & Hsent & Ho & _).
  exists i, sig, meta, pre. auto.
Defined.
(** The first session of a fresh store: index 1, derived at 1001. *)
Lemma session_index_never_master_witness :
  let w := demoFreshWorld 10000000 in
  reachable w /\
  exists s w',
    fst (run (session.handler (createRequest "photo" demoMetadata)) w) =
      (Ok (session.mkResponse 200
             (session.JCreated "sess_1_1000" (publicKey demoEscrow) 2250000 1801000)), w') /\
    storedSession w' "sess_1_1000" = Some s /\
    sessionIndex s = 1 /\
    1000 + sessionIndex s <> 0 /\
    run (wallet.getSessionKeypair (sessionIndex s)) w' =
      (Ok demoEscrow, w', [GetEnv "MASTER_SEED_PHRASE"]) /\
    reachable w'.
Proof.
  intros w.
  assert (Hc : reachable w) by (apply reach_empty; reflexivity).
  split; [exact Hc|].
  pose (r := run (session.handler (createRequest "photo" demoMetadata)) w).
  destruct (proj2 session_index_never_master w (createRequest "photo" demoMetadata)
              (snd (fst r)) (snd r) "sess_1_1000" (publicKey demoEscrow) 2250000 1801000 Hc)
    as (s & phrase & Hst & Hsec & Hidx & Hne & _ & Hkey & _ & _ & Hc').
  { vm_compute. reflexivity. }
  assert (Hs : s = demoSession).
  { assert (Hst' : storedSession (snd (fst r)) "sess_1_1000" = Some demoSession)
      by (vm_compute; reflexivity).
    rewrite Hst in Hst'. now injection Hst'. }
  assert (Hp : phrase = demoPhrase).
  { assert (Hsec' : masterSecret w = Some demoPhrase) by reflexivity.
    rewrite Hsec in Hsec'. now injection Hsec'. }
  subst s phrase.
  exists demoSession, (snd (fst r)).
  split; [vm_compute; reflexivity|]. split; [exact Hst|]. split; [reflexivity|].
  split; [exact Hne|]. split; [exact Hkey | exact Hc'].
Defined.

(** The scenario of the specification: 1,000,000 received, still
    pending; and the parameter [test=true] on the same world. *)
Lemma payment_confirmation_threshold_witness :
  let w := demoWorld Pending 2000 1000000 noFault in
  let key := poll.sessionKey demoId in
  run (poll.handler (pollRequest demoId None)) w =
    (Ok (poll.mkResponse 200 (poll.JPending (publicKey demoEscrow) 2250000 1000000)), w,
     [RedisGetJson key; DateNow; GetEnv "SOLANA_RPC_URL"; GetEnv "MASTER_SEED_PHRASE";
      GetAccount demoAta]) /\
  exists response w' rest,
    run (poll.handler (pollRequest demoId (Some "true"))) w =
      (Ok response, w',
       [RedisGetJson key; DateNow; GetEnv "SOLANA_RPC_URL"; GetEnv "MASTER_SEED_PHRASE"] ++
       RedisSet key (VSession (set_status Minting demoSession)) 3600 :: rest) /\
    poll.status_of response <> Some "pending" /\
    answered response.
Proof.
  intros w key.
  assert (Hne : demoId <> "") by concrete.
  assert (Hnow : now w <= expiresAt demoSession) by (vm_compute; discriminate).
  assert (Hconn : connects w) by (vm_compute; reflexivity).
  destruct (payment_confirmation_threshold w demoId None demoSession demoPhrase
              Hne eq_refl eq_refl eq_refl Hnow Hconn eq_refl) as (_ & _ & Hbelow & _ & _).
  destruct (payment_confirmation_threshold w demoId (Some "true") demoSession demoPhrase
              Hne eq_refl eq_refl eq_refl Hnow Hconn eq_refl) as (_ & _ & _ & _ & Htest).
  split.
  - apply Hbelow; [discriminate | reflexivity].
  - destruct (Htest eq_refl) as (response & w' & rest & Hrun & Hnp & Hans).
    exists response, w', rest. split; [exact Hrun|]. split; [exact Hnp|].
    apply Hans. intros o _. reflexivity.
Defined.

(** C9 as stated fails: what force-confirms is not a flag of the
    configuration.  In one world, under one configuration that sets nothing
    about testing, with 1,000,000 received: the poll without the parameter
    does not treat the payment as confirmed, the poll with [test=true] does.
    So no flag read off the configuration, together with the balance, tells
    when a poll confirms. *)
Lemma force_confirmation_not_configuration :
  let w := demoWorld Pending 2000 1000000 noFault in
  ~ exists flag : gmap string string -> bool,
      forall test : option string,
        confirmsPayment w demoId test =
        (solana.REQUIRED_USDC <=? usdcBalanceOf w (publicKey demoEscrow)) || flag (env w).
Proof.
  intros w [flag Hall].
  pose proof (Hall None) as H1. pose proof (Hall (Some "true")) as H2.
  assert (E1 : confirmsPayment w demoId None = false) by (vm_compute; reflexivity).
  assert (E2 : confirmsPayment w demoId (Some "true") = true) by (vm_compute; reflexivity).
  assert (E3 : (solana.REQUIRED_USDC <=? usdcBalanceOf w (publicKey demoEscrow)) = false)
    by (vm_compute; reflexivity).
  rewrite E1, E3 in H1. rewrite E2, E3 in H2.
  destruct (flag (env w)); discriminate.
Qed.

(** A treasury with 1000 lamports cannot fund the escrow wallet: the
    session is created and stored all the same. *)
Lemma creation_survives_funding_failure_witness :
  let w := demoFreshWorld 1000 in
  exists w' before,
    run (session.handler (createRequest "photo" demoMetadata)) w =
      (Ok (session.mkResponse 200
             (session.JCreated "sess_1_1000" (publicKey demoEscrow) 2250000 1801000)),
       w',
       before ++
       [SendAndConfirmTransaction
          (SystemTransfer (publicKey demoMaster) (publicKey demoEscrow) 3000000)
          (publicKey demoMaster)] ++
       [ConsoleError "ATA init error:"]) /\
    storedSession w' "sess_1_1000" = Some demoSession /\
    status demoSession = Pending.
Proof.
  intros w.
  pose (incr := exec (RedisIncr session.counterKey) w).
  pose (s := newSession demoPhrase 1 (now w) "photo" demoMetadata).
  pose (w2 := with_store (insert ("address:" +:+ paymentAddress s)
                            (VString (sessionId s), Some 1800))
                (stored ("session:" +:+ sessionId s) s 1800 (snd incr))).
  pose (funding := run (session.fund (keypairAt demoPhrase 0)
                          (keypairAt demoPhrase (1000 + 1))) w2).
  destruct (creation_survives_funding_failure w "photo" demoMetadata demoPhrase 1
              (snd incr)
              (Thrown "Transfer: insufficient lamports 1000, need 3000000")
              (snd (fst funding)) (snd funding))
    as [Hok _].
  { discriminate. }
  { reflexivity. }
  { vm_compute. reflexivity. }
  { reflexivity. }
  { reflexivity. }
  { vm_compute. reflexivity. }
  destruct Hok as (t & Hrun & Hst & _ & Hp & Hcaught).
  { vm_compute. reflexivity. }
  destruct (Hcaught _ eq_refl) as (before & ->).
  exists (snd (fst funding)), before.
  split; [exact Hrun|]. split; [exact Hst | exact Hp].
Defined.

(** C2, the stored status [swept].  A session that was minted and swept
    and is polled again before [expiresAt]: the poll reads the ledger and
    answers [pending] with nothing received instead of the stored mint
    result; with the test flag it writes [minting] over the stored record
    and submits a second mint; past [expiresAt] it answers [expired]. *)
Theorem swept_poll_not_idempotent :
  let w := demoSweptWorld 2000 in
  let key := poll.sessionKey demoId in
  storedSession w demoId = Some demoSwept /\
  status demoSwept = Swept /\
  mintAddress demoSwept = Some "mint0" /\
  run (poll.handler (pollRequest demoId None)) w =
    (Ok (poll.mkResponse 200 (poll.JPending (publicKey demoEscrow) 2250000 0)), w,
     [RedisGetJson key; DateNow; GetEnv "SOLANA_RPC_URL"; GetEnv "MASTER_SEED_PHRASE";
      GetAccount demoAta]) /\
  (let again := run (poll.handler (pollRequest demoId (Some "true"))) w in
   fst (fst again) =
     Ok (poll.mkResponse 200 (poll.JMinted (Some "mint1") (Some "5ig") (Some "buyer"))) /\
   mintSubmissions (snd again) = 1%nat /\
   length (nfts (snd (fst again))) = 2%nat /\
   In (RedisSet key (VSession (set_status Minting demoSwept)) 3600) (snd again)) /\
  fst (fst (run (poll.handler (pollRequest demoId None)) (demoSweptWorld 1801001))) =
    Ok (poll.mkResponse 200 poll.JExpired).
Proof.
  cbv zeta.
  split; [vm_compute; reflexivity|]. split; [reflexivity|]. split; [reflexivity|].
  split; [vm_compute; reflexivity|].
  split; [|vm_compute; reflexivity].
  split; [vm_compute; reflexivity|]. split; [vm_compute; reflexivity|].
  split; [vm_compute; reflexivity|].
  vm_compute. tauto.
Qed.

(** C1.  Two polls of a [pending] session whose escrow already holds the
    payment.  When the first poll loads the session and the second one then
    loads it and reads the balance before the first goes on, both find
    [pending], both write [minting], and both submit a mint: two assets
    are created for one session.  When the second poll loads the session
    only after the first has written [minting], it answers [minting] and
    submits nothing. *)
Theorem concurrent_polls_submit_two_mints :
  let w := demoWorld Pending 2000 2250000 noFault in
  let p := poll.handler (pollRequest demoId None) in
  (let '(a, b, w', t) := runTwo [true; false; false; false; false; false] p p w in
   a = Ok (poll.mkResponse 200 (poll.JMinted (Some "mint0") (Some "5ig") (Some "buyer"))) /\
   b = Ok (poll.mkResponse 200 (poll.JMinted (Some "mint1") (Some "5ig") (Some "buyer"))) /\
   mintSubmissions t = 2%nat /\
   nfts w' = [("mint0", "https://gateway.pinata.cloud/ipfs/QmHash", "buyer");
              ("mint1", "https://gateway.pinata.cloud/ipfs/QmHash", "buyer")]) /\
  (let '(a, b, w', t) := runTwo [true; true; true; true; true; true; false] p p w in
   a = Ok (poll.mkResponse 200 (poll.JMinted (Some "mint0") (Some "5ig") (Some "buyer"))) /\
   b = Ok (poll.mkResponse 200 poll.JMinting) /\
   mintSubmissions t = 1%nat).
Proof.
  cbv zeta. split; vm_compute; repeat split; reflexivity.
Qed.
End scenarios.

(** * Further properties *)

(** ** Programs that write nothing to the store *)

Create HintDb quiet discriminated.

Section quiet_programs.
Context `{SolanaPrimitives}.

Lemma allOps_impl {A : Type} (P Q : Op -> Prop) (p : Prog A) :
  (forall o, P o -> Q o) -> allOps P p -> allOps Q p.
Proof.
  intros HPQ. induction p as [a | e | o k IH]; simpl; auto.
  intros [Ho Hk]. split; [auto|]. intros r. apply IH, Hk.
Qed.

Ltac quiet :=
  repeat match goal with
    | |- allOps _ (bind _ _) => apply allOps_bind; [|intros ?]
    | |- allOps _ (tryCatch _ _) => apply allOps_tryCatch; [|intros ?]
    | |- allOps _ (call _) => apply allOps_call
    | |- allOps _ (Ret _) => exact I
    | |- allOps _ (Throw _) => exact I
    | |- allOps _ (match ?x with _ => _ end) => destruct x
    | |- allOps _ _ => solve [auto with quiet]
    | |- quietOp _ => reflexivity
    end.

Lemma quiet_deriveKeypair index : allOps quietOp (wallet.deriveKeypair index).
Proof. unfold wallet.deriveKeypair. quiet. Qed.

Lemma quiet_getMasterKeypair : allOps quietOp wallet.getMasterKeypair.
Proof. apply quiet_deriveKeypair. Qed.

Lemma quiet_getSessionKeypair i : allOps quietOp (wallet.getSessionKeypair i).
Proof. apply quiet_deriveKeypair. Qed.
Hint Resolve quiet_deriveKeypair quiet_getMasterKeypair quiet_getSessionKeypair : quiet.

Lemma quiet_getConnection : allOps quietOp solana.getConnection.
Proof. unfold solana.getConnection. quiet. Qed.
Hint Resolve quiet_getConnection : quiet.

Lemma quiet_getUsdcBalance pk : allOps quietOp (solana.getUsdcBalance pk).
Proof. unfold solana.getUsdcBalance. quiet. Qed.
Hint Resolve quiet_getUsdcBalance : quiet.

Lemma quiet_scanSignatures receiver sigs :
  allOps quietOp (solana.scanSignatures receiver sigs).
Proof.
  induction sigs as [|sig rest IH]; [exact I|].
  rewrite scanSignatures_cons. quiet; exact IH.
Qed.
Hint Resolve quiet_scanSignatures : quiet.

Lemma quiet_findUsdcSender receiver : allOps quietOp (solana.findUsdcSender receiver).
Proof. unfold solana.findUsdcSender. quiet. Qed.

Lemma quiet_sweepUsdc kp master : allOps quietOp (solana.sweepUsdc kp master).
Proof. unfold solana.sweepUsdc. quiet. Qed.

Lemma quiet_sweepSol kp master : allOps quietOp (solana.sweepSol kp master).
Proof. unfold solana.sweepSol. quiet. Qed.

Lemma quiet_fund master kp : allOps quietOp (session.fund master kp).
Proof. unfold session.fund, solana.fundDerivedWallet, solana.initUsdcAta. quiet. Qed.

Lemma quiet_mintNft s buyer : allOps quietOp (poll.mintNft s buyer).
Proof. unfold poll.mintNft. quiet. Qed.

Lemma quiet_store {A : Type} (p : Prog A) (w w' : World) r t :
  allOps quietOp p -> run p w = (r, w', t) -> store w' = store w.
Proof.
  intros Hq Hrun. exact (run_store_unchanged _ _ _ _ _ Hrun (allOps_run _ _ _ _ _ _ Hq Hrun)).
Qed.
End quiet_programs.

(** ** mintNft *)

Section mint.
Context `{SolanaPrimitives}.

Lemma run_mintNft (s : Session) (buyer : option string) (w : World) (phrase : string) :
  masterSecret w = Some phrase ->
  run (poll.mintNft s buyer) w =
  let pin := PinFileToIPFS s (publicKey (keypairAt phrase 0)) in
  if blank (default "" (env w !! "PINATA_JWT"))
  then (Thrown "PINATA_JWT not configured", w,
        [GetEnv "MASTER_SEED_PHRASE"; GetEnv "PINATA_JWT"])
  else
    match rpcFault w pin with
    | Some e => (Thrown e, w, mintUpload s phrase)
    | None =>
        if truthy (ipfsHash w) then
          let uri := "https://gateway.pinata.cloud/ipfs/" +:+ default "" (ipfsHash w) in
          let mint := mintKeys w (drawn w) in
          let create := CreateNft mint uri (mintRecipient phrase buyer) in
          match rpcFault w create with
          | Some e =>
              (Thrown e, with_drawn (S (drawn w)) w,
               mintUpload s phrase ++ [GenerateSigner; create])
          | None =>
              (Ok (poll.mkMintResult mint (signatureOf w create) uri),
               with_nfts (nfts w ++ [(mint, uri, mintRecipient phrase buyer)])
                 (with_drawn (S (drawn w)) w),
               mintUpload s phrase ++ [GenerateSigner; create])
          end
        else (Thrown ("Pinata metadata upload failed: " +:+ pin_json (pinData w)), w,
              mintUpload s phrase)
    end.
Proof.
  intros Hs. unfold poll.mintNft.
  rewrite run_bind, (run_getMasterKeypair _ _ Hs). cbv beta iota zeta.
  rewrite run_bind, run_GetEnv. cbv beta iota.
  destruct (blank _); [reflexivity|].
  rewrite run_bind, run_call. unfold exec at 1. cbn [external perform].
  destruct (rpcFault w _) as [e|]; [reflexivity|].
  cbv beta iota.
  unfold ipfsHash.
  destruct (pin_IpfsHash (pinData w)) as [[|c hash]|]; try reflexivity.
  cbv beta iota zeta. cbn [truthy default].
  rewrite run_bind, run_call, exec_GenerateSigner. cbv beta iota.
  rewrite run_bind, run_call. unfold exec. cbn [external perform].
  change (rpcFault (with_drawn (S (drawn w)) w)) with (rpcFault w).
  change (signatureOf (with_drawn (S (drawn w)) w)) with (signatureOf w).
  unfold mintRecipient.
  destruct (rpcFault w _) as [e|]; reflexivity.
Qed.

(** [mintNft] leaves the balances of the ledger as they are. *)
Lemma mintNft_moves_nothing (s : Session) (buyer : option string) (w w' : World)
    (r : Outcome poll.MintResult) (t : list Op) :
  run (poll.mintNft s buyer) w = (r, w', t) ->
  usdc w' = usdc w /\ lamports w' = lamports w.
Proof.
  destruct (masterSecret w) as [phrase|] eqn:Hs.
  - rewrite (run_mintNft _ _ _ _ Hs). cbv zeta.
    destruct (blank _); [intros [= _ <- _]; split; reflexivity|].
    destruct (rpcFault w (PinFileToIPFS _ _)); [intros [= _ <- _]; split; reflexivity|].
    destruct (truthy (ipfsHash w)); [|intros [= _ <- _]; split; reflexivity].
    destruct (rpcFault w (CreateNft _ _ _)); intros [= _ <- _]; split; reflexivity.
  - unfold poll.mintNft, wallet.getMasterKeypair.
    rewrite run_bind, run_deriveKeypair, Hs. intros [= _ <- _]. split; reflexivity.
Qed.


(** X2. [mintNft] never writes to the store and never moves funds (the
    fee and the rent of the mint itself are not part of the ledger here),
    and submits at most one mint.  When it returns, it has uploaded the metadata
    and then submitted exactly one mint, as its last operation: for a freshly
    drawn mint key, with the gateway address of the uploaded hash as URI,
    owned by the buyer when one is known and by the master key otherwise; and
    the result names that mint key and that URI. *)
Theorem mintNft_mints_once_to_buyer_or_master (s : Session) (buyer : option string)
    (w w' : World) (r : Outcome poll.MintResult) (t : list Op) :
  run (poll.mintNft s buyer) w = (r, w', t) ->
  store w' = store w /\ usdc w' = usdc w /\ lamports w' = lamports w /\
  (mintSubmissions t <= 1)%nat /\
  forall m, r = Ok m ->
    exists phrase hash,
      masterSecret w = Some phrase /\
      ipfsHash w = Some hash /\ hash <> "" /\
      poll.mr_mintAddress m = mintKeys w (drawn w) /\
      poll.mr_metadataUri m = "https://gateway.pinata.cloud/ipfs/" +:+ hash /\
      t = mintUpload s phrase ++
          [GenerateSigner;
           CreateNft (poll.mr_mintAddress m) (poll.mr_metadataUri m)
             (mintRecipient phrase buyer)] /\
      nfts w' = nfts w ++ [(poll.mr_mintAddress m, poll.mr_metadataUri m,
                            mintRecipient phrase buyer)] /\
      (truthy buyer = true -> mintRecipient phrase buyer = default "" buyer) /\
      (truthy buyer = false -> mintRecipient phrase buyer = publicKey (keypairAt phrase 0)).
Proof.
  destruct (masterSecret w) as [phrase|] eqn:Hs.
  - rewrite (run_mintNft _ _ _ _ Hs). cbv zeta.
    destruct (blank _).
    { intros [= <- <- <-]. repeat (split; [first [reflexivity | vm_compute; lia]|]). intros m Hm; discriminate Hm. }
    destruct (rpcFault w (PinFileToIPFS _ _)).
    { intros [= <- <- <-]. repeat (split; [first [reflexivity | vm_compute; lia]|]). intros m Hm; discriminate Hm. }
    destruct (ipfsHash w) as [[|c hash]|] eqn:Hh; cbn [truthy];
      try (intros [= <- <- <-]; repeat (split; [first [reflexivity | vm_compute; lia]|]);
           intros m Hm; discriminate Hm).
    destruct (rpcFault w (CreateNft _ _ _)).
    { intros [= <- <- <-]. repeat (split; [first [reflexivity | vm_compute; lia]|]). intros m Hm; discriminate Hm. }
    intros [= <- <- <-]. repeat (split; [first [reflexivity | vm_compute; lia]|]).
    intros m [= <-]. exists phrase, (String c hash).
    split; [reflexivity|]. split; [reflexivity|]. split; [discriminate|].
    split; [reflexivity|]. split; [reflexivity|]. split; [reflexivity|].
    split; [reflexivity|]. unfold mintRecipient. split; intros ->; reflexivity.
  - unfold poll.mintNft, wallet.getMasterKeypair.
    rewrite run_bind, run_deriveKeypair, Hs.
    intros [= <- <- <-]. repeat (split; [first [reflexivity | vm_compute; lia]|]).
    intros m Hm; discriminate Hm.
Qed.
End mint.

(** ** The poll handler at its edges *)

Section poll_edges.
Context `{SolanaPrimitives}.

(** Every request is either a well-formed poll or answered on the spot. *)
Lemma poll_request_cases (req : poll.Request) (w : World) :
  (exists response, run (poll.handler req) w = (Ok response, w, []) /\
     (poll.code response = 200 /\ poll.json response = poll.JEnd /\ poll.method req = "OPTIONS" \/
      poll.code response = 405 /\ poll.method req <> "OPTIONS" /\ poll.method req <> "GET" \/
      poll.code response = 400 /\ poll.method req = "GET" /\
        truthy (poll.query_sessionId req) = false)) \/
  (exists sessionId, sessionId <> "" /\ req = pollRequest sessionId (poll.query_test req)).
Proof.
  destruct req as [method sid test]. unfold poll.handler. cbn [poll.method poll.query_sessionId].
  destruct (bool_decide_reflect (method = "OPTIONS")) as [-> | Hopt].
  { left. eexists. split; [reflexivity|]. left. auto. }
  destruct (bool_decide_reflect (method = "GET")) as [-> | Hget]; cbn [negb].
  - destruct sid as [[|c rest]|].
    + left. eexists. split; [reflexivity|]. right. right. auto.
    + right. exists (String c rest). split; [discriminate | reflexivity].
    + left. eexists. split; [reflexivity|]. right. right. auto.
  - left. eexists. split; [reflexivity|]. right. left. auto.
Qed.

(** X3. A request that is not a well-formed poll is answered without any
    operation at all: 200 for [OPTIONS], 405 for any other method than
    [GET], 400 for a [GET] whose session id is missing or empty.  A poll of
    an id the store does not hold is answered 404 after the load alone, and
    a poll whose load the store refuses is answered 500 with the error of
    the store.  In all these cases the world stays as it was. *)
Theorem poll_rejects_without_effect (req : poll.Request) (w : World) :
  (poll.method req = "OPTIONS" ->
   run (poll.handler req) w = (Ok (poll.mkResponse 200 poll.JEnd), w, [])) /\
  (poll.method req <> "OPTIONS" -> poll.method req <> "GET" ->
   run (poll.handler req) w =
     (Ok (poll.mkResponse 405 (poll.JError "Method not allowed")), w, [])) /\
  (poll.method req = "GET" -> truthy (poll.query_sessionId req) = false ->
   run (poll.handler req) w =
     (Ok (poll.mkResponse 400 (poll.JError "Missing sessionId")), w, [])) /\
  (forall sessionId,
     poll.method req = "GET" -> poll.query_sessionId req = Some sessionId ->
     sessionId <> "" ->
     rpcFault w (RedisGetJson (poll.sessionKey sessionId)) = None ->
     store w !! poll.sessionKey sessionId = None ->
     run (poll.handler req) w =
       (Ok (poll.mkResponse 404 (poll.JError "Session not found or expired")), w,
        [RedisGetJson (poll.sessionKey sessionId)])) /\
  (forall sessionId e,
     poll.method req = "GET" -> poll.query_sessionId req = Some sessionId ->
     sessionId <> "" ->
     rpcFault w (RedisGetJson (poll.sessionKey sessionId)) = Some e ->
     run (poll.handler req) w =
       (Ok (poll.mkResponse 500 (poll.JError e)), w,
        [RedisGetJson (poll.sessionKey sessionId); ConsoleError "Poll error:"])).
Proof.
  destruct req as [method sid test]. cbn [poll.method poll.query_sessionId].
  split; [|split; [|split; [|split]]].
  - intros ->. reflexivity.
  - intros Hopt Hget. unfold poll.handler. cbn [poll.method].
    rewrite (bool_decide_eq_false_2 _ Hopt), (bool_decide_eq_false_2 _ Hget). reflexivity.
  - intros -> Hsid. destruct sid as [[|c rest]|]; try discriminate; reflexivity.
  - intros sessionId -> [= ->] Hne Hload Hlook.
    change (poll.mkRequest "GET" (Some sessionId) test) with (pollRequest sessionId test).
    rewrite (run_handler _ _ _ Hne), (run_poll _ _ _ Hload). cbv zeta.
    rewrite Hlook. reflexivity.
  - intros sessionId e -> [= ->] Hne Hload.
    change (poll.mkRequest "GET" (Some sessionId) test) with (pollRequest sessionId test).
    rewrite (run_handler _ _ _ Hne), (run_poll_fault _ _ _ _ Hload). reflexivity.
Qed.

(** X4. The two guards come first.  A poll that loads a session in status
    [minting] or [minted] answers from the loaded record and performs the
    load and nothing else, whatever the clock says (a minted session past
    [expiresAt] is still answered [minted]), with or without the test flag,
    with or without the master secret or the endpoint, and whatever the
    ledger would do. *)
Theorem poll_guards_come_first (w : World) (sessionId : string) (test : option string)
    (s : Session) :
  sessionId <> "" ->
  rpcFault w (RedisGetJson (poll.sessionKey sessionId)) = None ->
  storedSession w sessionId = Some s ->
  status s = Minting \/ status s = Minted ->
  run (poll.handler (pollRequest sessionId test)) w =
    (Ok (poll.mkResponse 200
           (if bool_decide (status s = Minting) then poll.JMinting
            else poll.JMintedStored (mintAddress s) (mintSignature s))),
     w, [RedisGetJson (poll.sessionKey sessionId)]).
Proof.
  intros Hne Hload Hst [Hm | Hm].
  - rewrite (run_handler_minting _ _ _ _ Hne Hload Hst Hm), Hm. reflexivity.
  - rewrite (run_handler_minted _ _ _ _ Hne Hload Hst Hm), Hm. reflexivity.
Qed.

(** X5. A poll of a live session (loaded, neither [minting] nor [minted],
    not expired) builds the connection before it derives the escrow key.
    Where the endpoint is accepted and the master secret is missing, it
    answers 500 with the configuration error of the secret, after the load,
    the clock and the two reads of the environment.  Where the endpoint is
    refused, as it is when [SOLANA_RPC_URL] is not set, it answers 500 with
    the error of the endpoint and never reads the master secret.  In both
    cases it changes nothing: no balance is read and nothing is written. *)
Theorem poll_without_master_secret (w : World) (sessionId : string)
    (test : option string) (s : Session) :
  sessionId <> "" ->
  rpcFault w (RedisGetJson (poll.sessionKey sessionId)) = None ->
  storedSession w sessionId = Some s ->
  status s <> Minting -> status s <> Minted ->
  now w <= expiresAt s ->
  (connects w -> masterSecret w = None ->
   run (poll.handler (pollRequest sessionId test)) w =
     (Ok (poll.mkResponse 500 (poll.JError "MASTER_SEED_PHRASE not configured")), w,
      [RedisGetJson (poll.sessionKey sessionId); DateNow; GetEnv "SOLANA_RPC_URL";
       GetEnv "MASTER_SEED_PHRASE"; ConsoleError "Poll error:"])) /\
  (forall e, connectionFailure w = Some e ->
   run (poll.handler (pollRequest sessionId test)) w =
     (Ok (poll.mkResponse 500 (poll.JError e)), w,
      [RedisGetJson (poll.sessionKey sessionId); DateNow; GetEnv "SOLANA_RPC_URL";
       ConsoleError "Poll error:"])) /\
  (env w !! "SOLANA_RPC_URL" = None -> connectionFailure w = Some solana.ENDPOINT_ERROR).
Proof.
  intros Hne Hload Hst H1 H2 Hnow.
  assert (Hrun : run (poll.handler (pollRequest sessionId test)) w =
    match connectionFailure w with
    | Some e =>
        (Ok (poll.mkResponse 500 (poll.JError e)), w,
         [RedisGetJson (poll.sessionKey sessionId); DateNow; GetEnv "SOLANA_RPC_URL";
          ConsoleError "Poll error:"])
    | None =>
        match masterSecret w with
        | None =>
            (Ok (poll.mkResponse 500 (poll.JError "MASTER_SEED_PHRASE not configured")), w,
             [RedisGetJson (poll.sessionKey sessionId); DateNow; GetEnv "SOLANA_RPC_URL";
              GetEnv "MASTER_SEED_PHRASE"; ConsoleError "Poll error:"])
        | Some _ => run (poll.handler (pollRequest sessionId test)) w
        end
    end).
  { destruct (connectionFailure w) as [e|] eqn:Hc;
      [|destruct (masterSecret w) as [phrase|] eqn:Hs; [reflexivity|]];
      rewrite (run_handler _ _ _ Hne), (run_poll _ _ _ Hload); cbv zeta;
      rewrite (getJson_storedSession _ _ _ Hst),
        (bool_decide_eq_false_2 _ H1), (bool_decide_eq_false_2 _ H2);
      (destruct (Z.gtb_spec (now w) (expiresAt s)) as [Hgt|_]; [lia|]);
      rewrite Hc; [|rewrite Hs]; reflexivity. }
  split; [|split].
  - intros Hconn Hsec. unfold connects in Hconn. rewrite Hrun, Hconn, Hsec. reflexivity.
  - intros e He. rewrite Hrun, He. reflexivity.
  - intros Hurl. unfold connectionFailure. rewrite Hurl. reflexivity.
Qed.

(** X6. A balance read that fails is a balance of zero.  When the poll of a
    live session gets as far as the balance (the load answers, the endpoint
    is accepted, the master secret is configured) and the read of the escrow
    token account is refused, a poll without the test flag answers
    [pending] with nothing received and writes nothing, whatever the account
    holds. *)
Theorem poll_read_failure_is_no_payment (w : World) (sessionId : string)
    (test : option string) (s : Session) (phrase : string) (e : Err) :
  sessionId <> "" ->
  rpcFault w (RedisGetJson (poll.sessionKey sessionId)) = None ->
  storedSession w sessionId = Some s ->
  status s <> Minting -> status s <> Minted ->
  now w <= expiresAt s ->
  connects w ->
  masterSecret w = Some phrase ->
  test <> Some "true" ->
  let ata := getAssociatedTokenAddress solana.USDC_MINT
               (publicKey (keypairAt phrase (1000 + sessionIndex s))) in
  rpcFault w (GetAccount ata) = Some e ->
  run (poll.handler (pollRequest sessionId test)) w =
    (Ok (poll.mkResponse 200 (poll.JPending (paymentAddress s) 2250000 0)), w,
     [RedisGetJson (poll.sessionKey sessionId); DateNow; GetEnv "SOLANA_RPC_URL";
      GetEnv "MASTER_SEED_PHRASE"; GetAccount ata]).
Proof.
  intros Hne Hload Hst H1 H2 Hnow Hconn Hsec Ht ata Hf.
  rewrite (run_handler _ _ _ Hne), (run_poll _ _ _ Hload). cbv zeta.
  rewrite (getJson_storedSession _ _ _ Hst).
  rewrite (bool_decide_eq_false_2 _ H1), (bool_decide_eq_false_2 _ H2).
  destruct (Z.gtb_spec (now w) (expiresAt s)) as [Hgt|_]; [lia|].
  unfold connects in Hconn. rewrite Hconn, Hsec, (bool_decide_eq_false_2 _ Ht).
  unfold usdcBalanceOf. cbv zeta. fold ata. rewrite Hf. reflexivity.
Qed.
End poll_edges.

(** ** What a poll does to the store *)

Section poll_store.
Context `{SolanaPrimitives}.

Lemma store_stored key s ex w :
  store (stored key s ex w) = <[key := (VSession s, Some ex)]> (store w).
Proof. reflexivity. Qed.

Lemma sweepBody_store key s kp w r w' t :
  run (poll.sweepBody key s kp) w = (r, w', t) ->
  match r with
  | Ok _ => exists sweep,
      store w' = <[key := (VSession (set_status Swept (set_sweepSignature sweep s)),
                           Some 86400)]> (store w)
  | Thrown _ => store w' = store w
  end.
Proof.
  intros Hrun. destruct r as [[] | e].
  - destruct (masterSecret w) as [phrase|] eqn:Hs.
    + rewrite (run_sweepBody _ _ _ _ _ Hs) in Hrun. cbv zeta in Hrun.
      destruct (run (solana.sweepUsdc _ _) w) as [[[sig | e1] wa] ta] eqn:Hu;
        [|discriminate].
      destruct (run (solana.sweepSol _ _) wa) as [[[sig2 | e2] wb] tb] eqn:Hl;
        [|discriminate].
      destruct (rpcFault wb _); [discriminate|].
      injection Hrun as <- _. exists sig. simpl.
      rewrite (quiet_store _ _ _ _ _ (quiet_sweepSol _ _) Hl).
      rewrite (quiet_store _ _ _ _ _ (quiet_sweepUsdc _ _) Hu). reflexivity.
    + unfold poll.sweepBody, wallet.getMasterKeypair in Hrun.
      rewrite run_bind, run_deriveKeypair, Hs in Hrun. discriminate.
  - exact (sweepBody_Thrown_store _ _ _ _ _ _ _ Hrun).
Qed.

(** An operation is among those of a trace. *)
Ltac inTrace :=
  match goal with
  | |- In _ (_ :: _) => first [left; reflexivity | right; inTrace]
  | |- In _ (_ ++ _) => apply in_or_app; first [left; inTrace | right; inTrace]
  end.

Lemma writeFailed_here (w : World) (t : list Op) (o : Op) (e : Err) :
  is_store_write o = true -> rpcFault w o = Some e -> In o t -> writeFailed w t.
Proof. intros Ho He Hin. exists o, e. auto. Qed.

Lemma writeFailed_app (w : World) (before t after : list Op) :
  writeFailed w t -> writeFailed w (before ++ t ++ after).
Proof.
  intros (o & e & Hin & Ho & He). exists o, e. split; [|auto].
  apply in_or_app. right. apply in_or_app. now left.
Qed.

Lemma storeAnswers_no_writeFailed (w : World) (t : list Op) :
  storeAnswers w -> ~ writeFailed w t.
Proof.
  intros Hsa (o & e & _ & Ho & He).
  rewrite Hsa in He; [discriminate|]. destruct o; try discriminate; reflexivity.
Qed.

(** From the write of [minting] on: the store is as it was, or the record
    is replaced by what a completed poll leaves, or, when a write failed, by
    what a broken one leaves. *)
Lemma confirmed_store key s kp w r w' t :
  run (poll.confirmed key s kp) w = (r, w', t) ->
  (store w' = store w /\ writeFailed w t) \/
  (exists s', afterPoll s s' /\
     store w' = <[key := (VSession s', Some 86400)]> (store w)) \/
  (exists s' ex, brokenPoll s s' ex /\
     store w' = <[key := (VSession s', Some ex)]> (store w) /\ writeFailed w t).
Proof.
  rewrite run_confirmed_cases. cbv zeta.
  destruct (rpcFault w (RedisSet key (VSession (set_status Minting s)) 3600)) as [e1|] eqn:H1.
  { intros [= _ <- <-]. left. split; [reflexivity|].
    eapply writeFailed_here; [| exact H1 |]; [reflexivity | inTrace]. }
  destruct (rpcFault w (RedisSet key (VSession (sessionAtMint key s kp w)) 3600))
    as [e2|] eqn:H2.
  { intros [= _ <- <-]. right. right. eexists _, _. split; [apply broken_minting|].
    split; [reflexivity|].
    eapply writeFailed_here; [| exact H2 |]; [reflexivity | inTrace]. }
  assert (Hat : store (worldAtMint key s kp w) =
                <[key := (VSession (sessionAtMint key s kp w), Some 3600)]> (store w)).
  { unfold worldAtMint. rewrite !store_stored. apply insert_insert_eq. }
  rewrite run_mintStep_cases.
  destruct (run (poll.mintNft _ _) _) as [[[m | e] w3] t3] eqn:Hmint;
    pose proof (quiet_store _ _ _ _ _ (quiet_mintNft _ _) Hmint) as Hs3;
    pose proof (run_rpcFault _ _ _ _ _ Hmint) as Hf3;
    change (rpcFault (worldAtMint key s kp w)) with (rpcFault w) in Hf3.
  - cbv zeta.
    destruct (rpcFault w3 (RedisSet key _ 86400)) as [e3|] eqn:H3.
    + rewrite run_mintFailed. cbv zeta.
      destruct (rpcFault w3 (RedisSet key (VSession (set_status _ _)) 86400)) as [e4|] eqn:H4.
      * intros [= _ <- <-]. right. right. eexists _, _. split; [apply broken_buyer|].
        split; [rewrite Hs3; exact Hat|].
        rewrite Hf3 in H3.
        eapply writeFailed_here; [| exact H3 |]; [reflexivity | inTrace].
      * intros [= _ <- <-]. right. right. eexists _, _.
        split.
        { apply (broken_minted s (buyerWallet (sessionAtMint key s kp w))
                   (poll.mr_mintAddress m) (poll.mr_signature m) (failureStatus e3)).
          unfold failureStatus. destruct (poll.isInsufficientSol _); auto. }
        split; [rewrite store_stored, Hs3, Hat; apply insert_insert_eq|].
        rewrite Hf3 in H3.
        eapply writeFailed_here; [| exact H3 |]; [reflexivity | inTrace].
    + rewrite run_sweepStep.
      destruct (run (poll.sweepBody _ _ _) _) as [[[[] | e] w4] t4] eqn:Hsweep;
        intros [= _ <- _]; pose proof (sweepBody_store _ _ _ _ _ _ _ Hsweep) as Hs4;
        cbv beta iota in Hs4; right; left.
      * destruct Hs4 as (sweep & Hs4). eexists. split; [apply after_swept|].
        rewrite Hs4, store_stored, Hs3, Hat. rewrite !insert_insert_eq. reflexivity.
      * eexists. split; [apply after_minted|].
        rewrite Hs4, store_stored, Hs3, Hat. rewrite !insert_insert_eq. reflexivity.
  - rewrite run_mintFailed. cbv zeta.
    destruct (rpcFault w3 (RedisSet key _ 86400)) as [e4|] eqn:H4.
    + intros [= _ <- <-]. right. right. eexists _, _. split; [apply broken_buyer|].
      split; [rewrite Hs3; exact Hat|].
      rewrite Hf3 in H4.
      eapply writeFailed_here; [| exact H4 |]; [reflexivity | inTrace].
    + intros [= _ <- _]. right. left.
      exists (set_status (failureStatus e) (sessionAtMint key s kp w)). split.
      * apply after_failed. unfold failureStatus.
        destruct (poll.isInsufficientSol _); [left | right]; reflexivity.
      * rewrite store_stored, Hs3, Hat. apply insert_insert_eq.
Qed.

(** A poll leaves the store as it was or replaces the record it loaded. *)
Lemma poll_store (sessionId : string) (test : option string) (w w' : World)
    (r : Outcome poll.Response) (t : list Op) :
  sessionId <> "" ->
  run (poll.handler (pollRequest sessionId test)) w = (r, w', t) ->
  store w' = store w \/
  exists s,
    storedSession w sessionId = Some s /\
    status s <> Minting /\ status s <> Minted /\ now w <= expiresAt s /\
    ((exists s', afterPoll s s' /\
        store w' = <[poll.sessionKey sessionId := (VSession s', Some 86400)]> (store w)) \/
     (exists s' ex, brokenPoll s s' ex /\
        store w' = <[poll.sessionKey sessionId := (VSession s', Some ex)]> (store w) /\
        writeFailed w t)).
Proof.
  intros Hne. rewrite (run_handler _ _ _ Hne).
  destruct (rpcFault w (RedisGetJson (poll.sessionKey sessionId))) as [e|] eqn:Hload.
  { rewrite (run_poll_fault _ _ _ _ Hload). intros [= _ <- _]. now left. }
  rewrite (run_poll _ _ _ Hload). cbv zeta.
  destruct (getJson_result _) as [[s | str | n]|] eqn:Hget.
  - assert (Hst : storedSession w sessionId = Some s).
    { unfold storedSession. unfold getJson_result in Hget.
      destruct (store w !! poll.sessionKey sessionId) as [[[s0 | [|c str0] | n0] ttl]|];
        try discriminate; now injection Hget as ->. }
    destruct (bool_decide_reflect (status s = Minting)) as [_ | H1].
    { intros [= _ <- _]. left; reflexivity. }
    destruct (bool_decide_reflect (status s = Minted)) as [_ | H2].
    { intros [= _ <- _]. left; reflexivity. }
    destruct (Z.gtb_spec (now w) (expiresAt s)) as [_ | Hnow].
    { intros [= _ <- _]. left; reflexivity. }
    destruct (connectionFailure w).
    { intros [= _ <- _]. left; reflexivity. }
    assert (Hconf : forall before r0 w1 t0,
              ((store w1 = store w /\ writeFailed w t0) \/
               (exists s', afterPoll s s' /\
                  store w1 = <[poll.sessionKey sessionId := (VSession s', Some 86400)]>
                               (store w)) \/
               (exists s' ex, brokenPoll s s' ex /\
                  store w1 = <[poll.sessionKey sessionId := (VSession s', Some ex)]>
                               (store w) /\ writeFailed w t0)) ->
              match r0 with
              | Ok x => (Ok x, w1, before ++ t0)
              | Thrown e =>
                  (Ok (poll.mkResponse 500 (poll.JError e)), w1,
                   (before ++ t0) ++ [ConsoleError "Poll error:"])
              end = (r, w', t) ->
              store w' = store w \/
              exists s0,
                storedSession w sessionId = Some s0 /\
                status s0 <> Minting /\ status s0 <> Minted /\ now w <= expiresAt s0 /\
                ((exists s', afterPoll s0 s' /\
                    store w' = <[poll.sessionKey sessionId := (VSession s', Some 86400)]>
                                 (store w)) \/
                 (exists s' ex, brokenPoll s0 s' ex /\
                    store w' = <[poll.sessionKey sessionId := (VSession s', Some ex)]>
                                 (store w) /\
                    writeFailed w t))).
    { intros before r0 w1 t0 Hcs Hrun.
      assert (Ht : exists after, t = before ++ t0 ++ after /\ w' = w1).
      { destruct r0; injection Hrun as _ <- <-.
        - exists []. now rewrite app_nil_r.
        - eexists. rewrite <- app_assoc. split; reflexivity. }
      destruct Ht as (after & -> & ->).
      destruct Hcs as [[Hs _] | [(s' & Ha & Hs) | (s' & ex & Hb & Hs & Hw)]].
      - now left.
      - right. exists s. repeat (split; [assumption|]). left. exists s'. split; assumption.
      - right. exists s. repeat (split; [assumption|]). right. exists s', ex.
        split; [assumption|]. split; [assumption|]. now apply writeFailed_app. }
    destruct (masterSecret w) as [phrase|].
    + destruct (bool_decide (test = Some "true")).
      * destruct (run (poll.confirmed _ _ _) w) as [[r0 w1] t0] eqn:Hc.
        intros Hrun. eapply (Hconf _ r0 _ _ (confirmed_store _ _ _ _ _ _ _ Hc)).
        destruct r0; exact Hrun.
      * destruct (_ <? solana.REQUIRED_USDC).
        { intros [= _ <- _]. left; reflexivity. }
        destruct (run (poll.confirmed _ _ _) w) as [[r0 w1] t0] eqn:Hc.
        intros Hrun. eapply (Hconf _ r0 _ _ (confirmed_store _ _ _ _ _ _ _ Hc)).
        destruct r0; exact Hrun.
    + intros [= _ <- _]. left; reflexivity.
  - destruct (connectionFailure w); intros [= _ <- _]; left; reflexivity.
  - destruct n; [|destruct (connectionFailure w)..]; intros [= _ <- _]; left; reflexivity.
  - intros [= _ <- _]. left; reflexivity.
Qed.

Lemma quiet_writesOnly key o : quietOp o -> writesOnly key o.
Proof. unfold quietOp. destruct o; try discriminate; intros _; exact I. Qed.

Lemma writesOnly_quiet {A : Type} key (p : Prog A) :
  allOps quietOp p -> allOps (writesOnly key) p.
Proof. apply allOps_impl, quiet_writesOnly. Qed.

Lemma writesOnly_confirmed key s kp :
  allOps (writesOnly key) (poll.confirmed key s kp).
Proof.
  unfold poll.confirmed, poll.mintStep, poll.mintFailed, poll.sweepStep, poll.sweepBody.
  repeat match goal with
    | |- allOps _ (bind _ _) => apply allOps_bind; [|intros ?]
    | |- allOps _ (tryCatch _ _) => apply allOps_tryCatch; [|intros ?]
    | |- allOps _ (call _) => apply allOps_call
    | |- allOps _ (Ret _) => exact I
    | |- allOps _ (match ?x with _ => _ end) => destruct x
    | |- allOps _ (solana.findUsdcSender _) => apply writesOnly_quiet, quiet_findUsdcSender
    | |- allOps _ (poll.mintNft _ _) => apply writesOnly_quiet, quiet_mintNft
    | |- allOps _ wallet.getMasterKeypair => apply writesOnly_quiet, quiet_getMasterKeypair
    | |- allOps _ (solana.sweepUsdc _ _) => apply writesOnly_quiet, quiet_sweepUsdc
    | |- allOps _ (solana.sweepSol _ _) => apply writesOnly_quiet, quiet_sweepSol
    | |- writesOnly _ _ => first [exact I | split; [reflexivity | vm_compute; auto]]
    end.
Qed.

Lemma writesOnly_poll sessionId test :
  allOps (writesOnly (poll.sessionKey sessionId)) (poll.poll sessionId test).
Proof.
  unfold poll.poll. cbv zeta.
  repeat match goal with
    | |- allOps _ (bind _ _) => apply allOps_bind; [|intros ?]
    | |- allOps _ (call _) => apply allOps_call
    | |- allOps _ (Ret _) => exact I
    | |- allOps _ (Throw _) => exact I
    | |- allOps _ (poll.confirmed _ _ _) => apply writesOnly_confirmed
    | |- allOps _ solana.getConnection => apply writesOnly_quiet, quiet_getConnection
    | |- allOps _ (wallet.getSessionKeypair _) =>
        apply writesOnly_quiet, quiet_getSessionKeypair
    | |- allOps _ (solana.getUsdcBalance _) => apply writesOnly_quiet, quiet_getUsdcBalance
    | |- allOps _ (match ?x with _ => _ end) => destruct x
    | |- writesOnly _ _ => exact I
    end.
Qed.

Lemma writesOnly_handler sessionId test :
  allOps (writesOnly (poll.sessionKey sessionId))
    (poll.handler (pollRequest sessionId test)).
Proof.
  unfold poll.handler, pollRequest. cbn [poll.method poll.query_sessionId poll.query_test].
  change (bool_decide ("GET" = "OPTIONS")) with false.
  change (bool_decide ("GET" = "GET")) with true. cbn [negb].
  destruct sessionId as [|c rest]; [exact I|].
  apply allOps_tryCatch; [apply writesOnly_poll|].
  intros e. apply allOps_bind; [apply allOps_call; exact I | intros; exact I].
Qed.

(** An operation that writes under [key] only leaves every other key as it
    was, whether the write goes through or not. *)
Lemma exec_frame (key : string) (o : Op) (w : World) (k : string) :
  writesOnly key o -> k <> key -> store (snd (exec o w)) !! k = store w !! k.
Proof.
  intros Ho Hk. destruct (is_store_write o) eqn:Hw.
  - destruct o; try discriminate.
    + destruct value; try contradiction. destruct Ho as [-> _].
      rewrite exec_RedisSet. destruct (rpcFault w _); [reflexivity|].
      simpl. now rewrite lookup_insert_ne.
    + contradiction.
  - now rewrite (exec_store o w Hw).
Qed.

Lemma run_frame {A : Type} (key : string) (p : Prog A) (w w' : World) r t (k : string) :
  allOps (writesOnly key) p -> run p w = (r, w', t) -> k <> key ->
  store w' !! k = store w !! k.
Proof.
  revert w w' r t. induction p as [a | e | o c IH]; intros w w' r t; simpl.
  - now intros _ [= _ <- _].
  - now intros _ [= _ <- _].
  - intros [Ho Hc]. pose proof (exec_frame key o w k Ho) as Hx.
    destruct (exec o w) as [x wx].
    destruct (run (c x) wx) as [[r' w''] t'] eqn:Hrun.
    intros [= _ <- _] Hk. rewrite (IH x _ _ _ _ (Hc x) Hrun Hk). now apply Hx.
Qed.

(** X7. A poll confines itself to the record of the session it polls.
    Every write it makes to the store is a [SET] of a session record under
    that session's key, kept for one hour or for a day; it never increments
    the counter; and every other key of the store (other sessions, the
    address index, the counter) holds after the poll what it held before.  A
    request without a session id performs no operation. *)
Theorem poll_confined_to_its_record (req : poll.Request) (w w' : World)
    (r : Outcome poll.Response) (t : list Op) :
  run (poll.handler req) w = (r, w', t) ->
  (truthy (poll.query_sessionId req) = false -> t = [] /\ w' = w) /\
  (forall sessionId, poll.query_sessionId req = Some sessionId ->
     Forall (writesOnly (poll.sessionKey sessionId)) t /\
     (forall key, key <> poll.sessionKey sessionId -> store w' !! key = store w !! key) /\
     counterValue w' = counterValue w).
Proof.
  intros Hrun.
  destruct (poll_request_cases req w) as [(response & Hr & _) | (sid & Hne & Hreq)].
  - rewrite Hr in Hrun. injection Hrun as _ <- <-.
    split; [auto|]. intros sessionId _. split; [constructor|]. split; reflexivity.
  - split.
    { rewrite Hreq. cbn [pollRequest poll.query_sessionId].
      destruct sid; [contradiction | discriminate]. }
    intros sessionId Hq. rewrite Hreq in Hq, Hrun.
    cbn [pollRequest poll.query_sessionId] in Hq. injection Hq as <-.
    split; [exact (allOps_run _ _ _ _ _ _ (writesOnly_handler sid _) Hrun)|].
    assert (Hframe : forall key, key <> poll.sessionKey sid ->
                                 store w' !! key = store w !! key).
    { intros key Hkey. exact (run_frame _ _ _ _ _ _ _ (writesOnly_handler sid _) Hrun Hkey). }
    split; [exact Hframe|].
    unfold counterValue. rewrite Hframe; [reflexivity|].
    intros Heq. symmetry in Heq. revert Heq. apply session_key_not_counter.
Qed.

(** X8. What a poll makes of the record it loaded.  The stored record
    afterwards is the loaded one, with the store as it was; or, only if the
    loaded status was neither [minting] nor [minted] and the session had not
    expired, the loaded one with the detected buyer and then a failure
    status ([needs_funding], [paid]), the mint result ([minted]), or the
    mint result and the sweep signature ([swept]), kept for a day; or, only
    if a write of this very poll was refused by the store, what the writes
    before it had stored: the record marked [minting], with or without the
    buyer, kept for an hour, or a failure status on top of the mint
    result.  In every case the session keeps its id, index, payment address,
    output type, metadata, creation time, expiry and required amount, and a
    poll never makes a session [pending] again.  When the store answers
    every request, a poll never leaves behind a [minting] it did not find;
    a [minting] it did not find is left behind exactly by a poll that ends
    in a refused write. *)
Theorem poll_transition (sessionId : string) (test : option string) (w w' : World)
    (r : Outcome poll.Response) (t : list Op) (s : Session) :
  sessionId <> "" ->
  storedSession w sessionId = Some s ->
  run (poll.handler (pollRequest sessionId test)) w = (r, w', t) ->
  exists s',
    storedSession w' sessionId = Some s' /\
    (s' = s /\ store w' = store w \/
     status s <> Minting /\ status s <> Minted /\ now w <= expiresAt s /\
     (afterPoll s s' /\
      store w' !! poll.sessionKey sessionId = Some (VSession s', Some 86400) \/
      exists ex,
        brokenPoll s s' ex /\
        store w' !! poll.sessionKey sessionId = Some (VSession s', Some ex) /\
        writeFailed w t)) /\
    sameIdentity s s' /\
    (status s' = Pending -> s' = s) /\
    (storeAnswers w -> status s <> Minting -> status s' <> Minting) /\
    (status s <> Minting -> status s' = Minting -> writeFailed w t).
Proof.
  intros Hne Hst Hrun.
  destruct (poll_store _ _ _ _ _ _ Hne Hrun)
    as [Hsame | (s0 & Hst0 & H1 & H2 & Hnow & Hcase)].
  - exists s. split; [now rewrite (storedSession_store _ _ _ Hsame)|].
    split; [left; auto|]. split; [repeat split|]. split; [auto|].
    split; [auto|]. intros Hn Hm. contradiction.
  - rewrite Hst in Hst0. injection Hst0 as <-.
    destruct Hcase as [(s' & Hafter & Hstore) | (s' & ex & Hbroken & Hstore & Hw)].
    + exists s'. split.
      { unfold storedSession. rewrite Hstore, lookup_insert_eq. reflexivity. }
      split.
      { right. repeat (split; [assumption|]). left. split; [assumption|].
        rewrite Hstore. apply lookup_insert_eq. }
      destruct Hafter as [buyer st [-> | ->] | buyer addr sig | buyer addr sig sweep];
        (split; [repeat split|]); (split; [discriminate|]);
        (split; [intros _ _; discriminate | intros _ Hm; discriminate Hm]).
    + exists s'. split.
      { unfold storedSession. rewrite Hstore, lookup_insert_eq. reflexivity. }
      split.
      { right. repeat (split; [assumption|]). right. exists ex. split; [assumption|].
        split; [|assumption]. rewrite Hstore. apply lookup_insert_eq. }
      split; [destruct Hbroken as [| buyer | buyer addr sig st Hst']; repeat split|].
      split; [destruct Hbroken as [| buyer | buyer addr sig st [-> | ->]]; discriminate|].
      split; [|intros _ _; exact Hw].
      intros Hsa. exfalso. exact (storeAnswers_no_writeFailed _ _ Hsa Hw).
Qed.
End poll_store.

(** ** Mint and sweep both succeed *)

Section success.
Context `{SolanaPrimitives}.

Lemma submit_system_usdc (a b : string) (n : Z) (w : World) :
  usdc (snd (submit (SystemTransfer a b n) w)) = usdc w.
Proof. simpl. destruct (_ <? n); reflexivity. Qed.

Lemma sweepSol_usdc kp master w r w' t :
  run (solana.sweepSol kp master) w = (r, w', t) -> usdc w' = usdc w.
Proof.
  rewrite run_sweepSol. destruct (rpcFault w _); [now intros [= _ <- _]|].
  cbv zeta. destruct (_ <=? 0); [now intros [= _ <- _]|].
  unfold solSweepTx, exec. cbn [external perform].
  destruct (rpcFault w _); [now intros [= _ <- _]|].
  pose proof (submit_system_usdc (publicKey kp) master
                (balanceIn (lamports w) (publicKey kp) - solana.SOL_FEE) w) as Hs.
  destruct (submit _ w) as [[[] | e] ws]; intros [= _ <- _]; exact Hs.
Qed.

Lemma sweepBody_Ok key s kp w w' t :
  run (poll.sweepBody key s kp) w = (Ok tt, w', t) ->
  exists sweep,
    store w' = <[key := (VSession (set_status Swept (set_sweepSignature sweep s)),
                         Some 86400)]> (store w) /\
    (sweep = None <-> usdcBalanceOf w (publicKey kp) = 0) /\
    (sweep = None -> usdc w' = usdc w).
Proof.
  intros Hrun.
  destruct (masterSecret w) as [phrase|] eqn:Hs.
  - rewrite (run_sweepBody _ _ _ _ _ Hs) in Hrun. cbv zeta in Hrun.
    destruct (run (solana.sweepUsdc _ _) w) as [[[sig | e1] wa] ta] eqn:Hu;
      [|discriminate].
    destruct (run (solana.sweepSol _ _) wa) as [[[sig2 | e2] wb] tb] eqn:Hl;
      [|discriminate].
    destruct (rpcFault wb _); [discriminate|].
    injection Hrun as <- _. exists sig. split.
    + simpl. rewrite (quiet_store _ _ _ _ _ (quiet_sweepSol _ _) Hl).
      rewrite (quiet_store _ _ _ _ _ (quiet_sweepUsdc _ _) Hu). reflexivity.
    + pose proof (sweepSol_usdc _ _ _ _ _ _ Hl) as Hsol.
      rewrite run_sweepUsdc in Hu. cbv zeta in Hu.
      destruct (Z.eqb_spec (usdcBalanceOf w (publicKey kp)) 0) as [Hz | Hnz].
      * injection Hu as <- <- _. split; [tauto|]. intros _. exact Hsol.
      * destruct (exec _ w) as [[sg | e] wx]; [|discriminate].
        injection Hu as <- _ _. split; [|discriminate].
        split; [discriminate | contradiction].
  - unfold poll.sweepBody, wallet.getMasterKeypair in Hrun.
    rewrite run_bind, run_deriveKeypair, Hs in Hrun. discriminate.
Qed.

(** X9. When a poll reaches the mint (from [pending], and equally on a
    retry from [paid] or [needs_funding]), [mintNft] returns and the sweep
    goes through, the response says [minted] and carries the mint address,
    the mint signature and the buyer, while the record left in the store, for
    a day, has status [swept], the same mint result, and the signature of
    the asset sweep.  That signature is null exactly when the balance the
    sweep read was zero, and then the token accounts are as the mint left
    them.  A balance of zero is read when the escrow account holds nothing
    and also when the read is refused: in that case the record says [swept]
    although the escrow account still holds what was paid. *)
Theorem mint_and_sweep_success (w : World) (sessionId : string)
    (test : option string) (s : Session) (phrase : string)
    (m : poll.MintResult) (w3 : World) (t3 : list Op) (w4 : World) (t4 : list Op) :
  mintDue w sessionId test s phrase ->
  let key := poll.sessionKey sessionId in
  let kp := keypairAt phrase (1000 + sessionIndex s) in
  let ata := getAssociatedTokenAddress solana.USDC_MINT (publicKey kp) in
  let atMint := sessionAtMint key s kp w in
  let minted := mintedSession m atMint in
  run (poll.mintNft atMint (buyerWallet atMint)) (worldAtMint key s kp w)
    = (Ok m, w3, t3) ->
  run (poll.sweepBody key minted kp) (stored key minted 86400 w3) = (Ok tt, w4, t4) ->
  exists sweep t,
    run (poll.handler (pollRequest sessionId test)) w =
      (Ok (poll.mkResponse 200
             (poll.JMinted (Some (poll.mr_mintAddress m)) (Some (poll.mr_signature m))
                (buyerWallet atMint))),
       w4, t) /\
    store w4 !! key =
      Some (VSession (set_status Swept (set_sweepSignature sweep minted)), Some 86400) /\
    mintAddress (set_status Swept (set_sweepSignature sweep minted))
      = Some (poll.mr_mintAddress m) /\
    (sweep = None <-> usdcBalanceOf w (publicKey kp) = 0) /\
    (sweep = None -> usdc w4 = usdc w) /\
    (rpcFault w (GetAccount ata) = None ->
     (sweep = None <-> default 0 (usdc w !! ata) = 0)) /\
    (forall e, rpcFault w (GetAccount ata) = Some e ->
     sweep = None /\ usdc w4 !! ata = usdc w !! ata).
Proof.
  intros Hdue key kp ata atMint minted Hmint Hsweep.
  destruct (sweepBody_Ok _ _ _ _ _ _ Hsweep) as (sweep & Hstore & Hnone & Hkeep).
  assert (Hu3 : usdc w3 = usdc w /\ rpcFault w3 = rpcFault w).
  { split; [|exact (run_rpcFault _ _ _ _ _ Hmint)].
    destruct (mintNft_moves_nothing _ _ _ _ _ _ Hmint) as [Hu _]. exact Hu. }
  destruct Hu3 as [Hu3 Hf3].
  assert (Hbal : usdcBalanceOf (stored key minted 86400 w3) (publicKey kp) =
                 usdcBalanceOf w (publicKey kp)).
  { unfold usdcBalanceOf. cbv zeta.
    change (rpcFault (stored key minted 86400 w3)) with (rpcFault w3).
    change (usdc (stored key minted 86400 w3)) with (usdc w3).
    now rewrite Hu3, Hf3. }
  rewrite Hbal in Hnone.
  change (usdc (stored key minted 86400 w3)) with (usdc w3) in Hkeep.
  rewrite Hu3 in Hkeep.
  rewrite (run_handler_mintDue _ _ _ _ _ Hdue). cbv zeta.
  destruct Hdue as (_ & Hsa & _).
  rewrite (run_confirmed_mint _ _ _ _ Hsa). cbv zeta.
  fold key kp. fold atMint. rewrite Hmint. fold minted.
  rewrite run_sweepStep, Hsweep.
  exists sweep. eexists. split; [reflexivity|].
  split; [rewrite Hstore; apply lookup_insert_eq|].
  split; [reflexivity|]. split; [exact Hnone|]. split; [exact Hkeep|].
  unfold usdcBalanceOf in Hnone. cbv zeta in Hnone. fold kp in Hnone. fold ata in Hnone.
  split.
  - intros Hf. rewrite Hf in Hnone. exact Hnone.
  - intros e Hf. rewrite Hf in Hnone.
    assert (Hs : sweep = None) by now apply Hnone.
    split; [exact Hs|]. now rewrite (Hkeep Hs).
Qed.
End success.

(** ** The session handler at its edges *)


Section creation_edges.
Context `{SolanaPrimitives}.

(** Every request is either well formed or answered without touching the
    store. *)
Lemma session_request_cases (req : session.Request) (w : World) :
  (exists response t,
     run (session.handler req) w = (Ok response, w, t) /\
     Forall quietOp t /\ ~ In (RedisIncr session.counterKey) t /\
     (session.code response = 200 /\ session.json response = session.JEnd \/
      session.code response = 405 \/ session.code response = 400 \/
      session.code response = 500) /\
     (session.method req = "POST" -> session.code response <> 200)) \/
  (exists outputType metadata,
     outputType <> "" /\ req = createRequest outputType metadata).
Proof.
  destruct req as [method body]. unfold session.handler. cbn [session.method].
  destruct (bool_decide_reflect (method = "OPTIONS")) as [-> | Hopt].
  { left. eexists _, _. split; [reflexivity|]. split; [constructor|]. split; [intros []|].
    split; [left; auto | discriminate]. }
  destruct (bool_decide_reflect (method = "POST")) as [-> | Hpost]; cbn [negb].
  - destruct body as [[ot md]|];
      [destruct ot as [[|c rest]|]; [|destruct md as [metadata|]|]|].
    all: first
      [ right; exists (String c rest), metadata; split; [discriminate | reflexivity]
      | left; eexists _, _; split; [reflexivity|]; split; [repeat constructor|];
        split; [intros Hin; repeat (destruct Hin as [Hin | Hin]; [discriminate Hin|]);
                exact Hin | split; [auto | intros _; discriminate] ] ].
  - left. eexists _, _. split; [reflexivity|]. split; [constructor|]. split; [intros []|].
    split; [auto | intros Hp; contradiction].
Qed.

(** The handler on a well-formed request, by what the counter and the
    environment answer. *)
Lemma run_create_failed (w : World) (outputType : string) (metadata : Metadata) :
  outputType <> "" ->
  match exec (RedisIncr session.counterKey) w with
  | (Thrown e, w1) =>
      run (session.handler (createRequest outputType metadata)) w =
      (Ok (session.mkResponse 500 (session.JError e)), w1,
       [RedisIncr session.counterKey; ConsoleError "Session creation error:"])
  | (Ok idx, w1) =>
      masterSecret w = None ->
      run (session.handler (createRequest outputType metadata)) w =
      (Ok (session.mkResponse 500 (session.JError "MASTER_SEED_PHRASE not configured")), w1,
       [RedisIncr session.counterKey; GetEnv "MASTER_SEED_PHRASE";
        ConsoleError "Session creation error:"])
  end.
Proof.
  intros Hot. destruct outputType as [|c rest]; [contradiction|].
  change (session.handler (createRequest (String c rest) metadata))
    with (tryCatch (session.create (createRequest (String c rest) metadata))
            (fun err => call (ConsoleError "Session creation error:") ;;;
                        Ret (session.mkResponse 500 (session.JError err)))).
  rewrite run_tryCatch.
  unfold session.create, createRequest.
  cbn [session.body session.body_outputType session.body_metadata].
  rewrite run_bind, run_call.
  destruct (exec (RedisIncr session.counterKey) w) as [[idx | e] w1] eqn:Hincr.
  - intros Hsec. cbv beta iota.
    destruct (exec_RedisIncr_Ok _ _ _ _ Hincr) as (ttl & Hw1 & _).
    assert (Hsec1 : masterSecret w1 = None) by (rewrite Hw1; exact Hsec).
    rewrite run_bind. unfold wallet.getMasterKeypair.
    rewrite run_deriveKeypair, Hsec1. cbv beta iota.
    rewrite run_bind, run_ConsoleError. reflexivity.
  - rewrite run_bind, run_ConsoleError. reflexivity.
Qed.

(** X10. A request that the session handler refuses (an [OPTIONS] request,
    a method other than [POST], a body without [outputType] or without
    [metadata], no body at all) is answered 200, 405, 400 or 500 without the
    counter being incremented and without any change to the world: a refused
    request costs no session index. *)
Theorem refused_creation_costs_no_index (req : session.Request) (w w' : World)
    (r : Outcome session.Response) (t : list Op) :
  run (session.handler req) w = (r, w', t) ->
  (forall outputType metadata,
     req = createRequest outputType metadata -> outputType = "") ->
  exists response,
    r = Ok response /\ w' = w /\
    ~ In (RedisIncr session.counterKey) t /\ Forall quietOp t /\
    (session.code response = 200 /\ session.json response = session.JEnd \/
     session.code response = 405 \/ session.code response = 400 \/
     session.code response = 500) /\
    (session.method req = "POST" -> session.code response <> 200).
Proof.
  intros Hrun Hbad.
  destruct (session_request_cases req w) as
    [(response & t0 & Hr & Hq & Hn & Hcode & Hpost) | (ot & md & Hot & ->)].
  - rewrite Hr in Hrun. injection Hrun as <- <- <-.
    exists response. repeat (split; [first [reflexivity | assumption]|]). exact Hpost.
  - exfalso. apply Hot. exact (Hbad ot md eq_refl).
Qed.

(** X11. The counter is incremented before the master secret is looked up.
    A well-formed request in a world without the master secret is answered
    500 with the configuration error, and nothing is stored under any other
    key, but the counter has moved: the index is spent. *)
Theorem creation_without_secret_spends_index (w : World) (outputType : string)
    (metadata : Metadata) (idx : Z) (w1 : World) :
  outputType <> "" ->
  masterSecret w = None ->
  exec (RedisIncr session.counterKey) w = (Ok idx, w1) ->
  run (session.handler (createRequest outputType metadata)) w =
    (Ok (session.mkResponse 500 (session.JError "MASTER_SEED_PHRASE not configured")), w1,
     [RedisIncr session.counterKey; GetEnv "MASTER_SEED_PHRASE";
      ConsoleError "Session creation error:"]) /\
  counterValue w1 = idx /\
  (counterOk w -> idx = counterValue w + 1) /\
  (forall key, key <> session.counterKey -> store w1 !! key = store w !! key).
Proof.
  intros Hot Hsec Hincr.
  pose proof (run_create_failed w outputType metadata Hot) as Hrun.
  rewrite Hincr in Hrun. split; [exact (Hrun Hsec)|].
  destruct (exec_RedisIncr_Ok _ _ _ _ Hincr) as (ttl & -> & Hidx).
  split; [unfold counterValue; simpl; now rewrite lookup_insert_eq|].
  split.
  - intros Hc. unfold counterValue.
    destruct (store w !! session.counterKey) as [[v ttl0]|] eqn:Hlook; [|lia].
    destruct (Hc _ _ Hlook) as (n & -> & _). exact Hidx.
  - intros key Hkey. simpl. now rewrite lookup_insert_ne.
Qed.
End creation_edges.

(** ** What a creation leaves in the store *)

Section creation_store.
Context `{SolanaPrimitives}.

Lemma counterValue_incr (w w1 : World) (idx : Z) :
  exec (RedisIncr session.counterKey) w = (Ok idx, w1) ->
  idx = counterValue w + 1 /\ counterValue w1 = idx /\
  (forall key, key <> session.counterKey -> store w1 !! key = store w !! key) /\
  now w1 = now w /\ masterSecret w1 = masterSecret w.
Proof.
  intros Hincr. destruct (exec_RedisIncr_Ok _ _ _ _ Hincr) as (ttl & -> & Hidx).
  unfold counterValue. simpl. rewrite lookup_insert_eq.
  split.
  - destruct (store w !! session.counterKey) as [[[s | s | n] ttl0]|];
      first [contradiction | exact Hidx].
  - split; [reflexivity|]. split; [|split; reflexivity].
    intros key Hkey. now rewrite lookup_insert_ne.
Qed.

(** The store after a creation: the two records on top of the store with
    the counter advanced. *)
Lemma create_store (w : World) (outputType : string) (metadata : Metadata)
    (phrase : string) (idx : Z) (w1 : World) r w' t :
  outputType <> "" ->
  masterSecret w = Some phrase ->
  exec (RedisIncr session.counterKey) w = (Ok idx, w1) ->
  let s := newSession phrase idx (now w) outputType metadata in
  creationProceeds w s ->
  run (session.handler (createRequest outputType metadata)) w = (r, w', t) ->
  r = Ok (session.mkResponse 200
            (session.JCreated (sessionId s) (paymentAddress s) 2250000 (expiresAt s))) /\
  store w' = <["address:" +:+ paymentAddress s := (VString (sessionId s), Some 1800)]>
               (<[poll.sessionKey (sessionId s) := (VSession s, Some 1800)]> (store w1)).
Proof.
  intros Hot Hsec Hincr s Hgo. rewrite (run_create _ _ _ _ _ _ Hot Hsec Hincr Hgo). cbv zeta.
  destruct (run (session.fund _ _) _) as [[rf w3] tf] eqn:Hfund.
  intros [= <- <- <-]. split; [reflexivity|].
  rewrite (run_store_unchanged _ _ _ _ _ Hfund (fund_no_write _ _ _ _ _ _ Hfund)).
  reflexivity.
Qed.

(** X12. A creation that answers with a session leaves exactly three keys
    behind: the counter, one higher than before; the pending session under
    [session:<id>]; and [address:<paymentAddress>] holding the id, both for
    1800 seconds. The address returned to the buyer leads to the id and the
    id to a record with that address; every other key is as it was. *)
Theorem creation_writes_three_keys (req : session.Request) (w w' : World) (t : list Op)
    (sid addr : string) (required expires : Z) :
  run (session.handler req) w =
    (Ok (session.mkResponse 200 (session.JCreated sid addr required expires)), w', t) ->
  exists s,
    store w' !! poll.sessionKey sid = Some (VSession s, Some 1800) /\
    store w' !! ("address:" +:+ addr) = Some (VString sid, Some 1800) /\
    sessionId s = sid /\ paymentAddress s = addr /\
    status s = Pending /\ requiredUsdc s = required /\ required = 2250000 /\
    createdAt s = now w /\ expiresAt s = expires /\ expires = now w + 1800000 /\
    sessionIndex s = counterValue w + 1 /\
    counterValue w' = counterValue w + 1 /\
    (forall key,
       key <> session.counterKey -> key <> poll.sessionKey sid ->
       key <> "address:" +:+ addr ->
       store w' !! key = store w !! key).
Proof.
  intros Hrun.
  destruct (created_request _ _ _ _ _ _ _ _ Hrun) as (ot & md & Hot & ->).
  destruct (created_index _ _ _ _ _ _ _ _ _ Hot Hrun)
    as (phrase & idx & w1 & Hsec & Hincr & Hgo).
  destruct (create_store _ _ _ _ _ _ _ _ _ Hot Hsec Hincr Hgo Hrun) as [Hr Hstore].
  destruct (counterValue_incr _ _ _ Hincr) as (Hidx & Hcv & Hframe & _).
  injection Hr as -> -> -> ->.
  exists (newSession phrase idx (now w) ot md).
  split. { rewrite Hstore, lookup_insert_ne by apply session_key_not_address.
           apply lookup_insert_eq. }
  split. { rewrite Hstore. apply lookup_insert_eq. }
  do 8 (split; [reflexivity|]).
  split; [exact Hidx|].
  split.
  { unfold counterValue at 1. rewrite Hstore.
    rewrite lookup_insert_ne by apply address_key_not_counter.
    rewrite lookup_insert_ne by apply session_key_not_counter.
    fold (counterValue w1). now rewrite Hcv. }
  intros key Hc Hs Ha. rewrite Hstore.
  rewrite lookup_insert_ne by (intros ?; now apply Ha).
  rewrite lookup_insert_ne by (intros ?; now apply Hs).
  now apply Hframe.
Qed.

(** X13. Creation followed by a poll.  After a creation that answered
    with a session, in any later world that still holds what the creation
    stored, has the same master secret, accepts the endpoint and answers the
    load, a poll of the returned id without the test flag reads the token
    account of the very address the buyer was given: below 2,250,000 it
    answers [pending] with that address and the balance read and changes
    nothing; from 2,250,000 on the mint is due when the store answers; and
    once the clock is past the [expiresAt] the creation returned, it answers
    [expired] after the store load and the clock read alone.  The record was
    stored for 1800 seconds, the time to [expiresAt]: once Redis has dropped
    it, the poll answers 404 instead. *)
Theorem poll_after_creation (req : session.Request) (w w' w2 : World) (t : list Op)
    (sid addr : string) (required expires : Z) (test : option string) :
  run (session.handler req) w =
    (Ok (session.mkResponse 200 (session.JCreated sid addr required expires)), w', t) ->
  masterSecret w2 = masterSecret w ->
  test <> Some "true" ->
  let key := poll.sessionKey sid in
  let ata := getAssociatedTokenAddress solana.USDC_MINT addr in
  rpcFault w2 (RedisGetJson key) = None ->
  (exists s, store w' !! key = Some (VSession s, Some 1800)) /\
  (store w2 = store w' ->
   (connects w2 -> now w2 <= expires -> usdcBalanceOf w2 addr < required ->
    run (poll.handler (pollRequest sid test)) w2 =
      (Ok (poll.mkResponse 200 (poll.JPending addr required (usdcBalanceOf w2 addr))), w2,
       [RedisGetJson key; DateNow; GetEnv "SOLANA_RPC_URL"; GetEnv "MASTER_SEED_PHRASE";
        GetAccount ata])) /\
   (connects w2 -> storeAnswers w2 -> now w2 <= expires ->
    required <= usdcBalanceOf w2 addr ->
    exists s phrase,
      mintDue w2 sid test s phrase /\ status s = Pending /\
      addr = publicKey (keypairAt phrase (1000 + sessionIndex s))) /\
   (expires < now w2 ->
    run (poll.handler (pollRequest sid test)) w2 =
      (Ok (poll.mkResponse 200 poll.JExpired), w2, [RedisGetJson key; DateNow]))) /\
  (store w2 = delete key (store w') ->
   run (poll.handler (pollRequest sid test)) w2 =
     (Ok (poll.mkResponse 404 (poll.JError "Session not found or expired")), w2,
      [RedisGetJson key])).
Proof.
  intros Hrun Hsec2 Htest key ata Hload.
  destruct (created_request _ _ _ _ _ _ _ _ Hrun) as (ot & md & Hot & ->).
  destruct (created_index _ _ _ _ _ _ _ _ _ Hot Hrun)
    as (phrase & idx & w1 & Hsec & Hincr & Hgo).
  destruct (create_store _ _ _ _ _ _ _ _ _ Hot Hsec Hincr Hgo Hrun) as [Hr Hst].
  injection Hr as -> -> -> ->.
  set (s := newSession phrase idx (now w) ot md) in *.
  assert (Hsid : sessionId s <> "") by discriminate.
  assert (Hlook : store w' !! poll.sessionKey (sessionId s) = Some (VSession s, Some 1800)).
  { rewrite Hst. rewrite lookup_insert_ne by apply session_key_not_address.
    apply lookup_insert_eq. }
  assert (Hrun2 : run (poll.handler (pollRequest (sessionId s) test)) w2 =
                  match run (poll.poll (sessionId s) test) w2 with
                  | (Ok r, w1, t) => (Ok r, w1, t)
                  | (Thrown e, w1, t) =>
                      (Ok (poll.mkResponse 500 (poll.JError e)), w1,
                       t ++ [ConsoleError "Poll error:"])
                  end) by (apply run_handler; exact Hsid).
  rewrite (run_poll (sessionId s) test w2 Hload) in Hrun2. cbv zeta in Hrun2.
  split; [exists s; exact Hlook|]. split.
  - intros Hstore.
    assert (Hstored : storedSession w2 (sessionId s) = Some s).
    { unfold storedSession. now rewrite Hstore, Hlook. }
    assert (Hphrase : masterSecret w2 = Some phrase) by now rewrite Hsec2.
    rewrite (getJson_storedSession _ _ _ Hstored) in Hrun2.
    change (status s) with Pending in Hrun2.
    rewrite (bool_decide_eq_false_2 (Pending = Minting)) in Hrun2 by discriminate.
    rewrite (bool_decide_eq_false_2 (Pending = Minted)) in Hrun2 by discriminate.
    rewrite Hphrase in Hrun2.
    rewrite (bool_decide_eq_false_2 (test = Some "true")) in Hrun2 by exact Htest.
    change (sessionIndex s) with idx in Hrun2.
    change (paymentAddress s) with (publicKey (keypairAt phrase (1000 + idx))) in Hrun2.
    change solana.REQUIRED_USDC with 2250000 in *.
    change (expiresAt s) with (now w + 1800000) in Hrun2.
    split; [|split].
    + intros Hconn Hnow Hbal.
      change (run (poll.handler (pollRequest _ test)) w2)
        with (run (poll.handler (pollRequest (sessionId s) test)) w2).
      rewrite Hrun2. unfold connects in Hconn. rewrite Hconn.
      destruct (Z.gtb_spec (now w2) (now w + 1800000)) as [Hgt | _]; [lia|].
      destruct (Z.ltb_spec (usdcBalanceOf w2 (publicKey (keypairAt phrase (1000 + idx)))) 2250000)
        as [_ | Hge]; [reflexivity | lia].
    + intros Hconn Hsa Hnow Hbal. exists s, phrase.
      split; [|split; reflexivity].
      unfold mintDue. repeat (split; [first [assumption | discriminate]|]).
      right. exact Hbal.
    + intros Hnow.
      change (run (poll.handler (pollRequest _ test)) w2)
        with (run (poll.handler (pollRequest (sessionId s) test)) w2).
      rewrite Hrun2.
      destruct (Z.gtb_spec (now w2) (now w + 1800000)) as [_ | Hle]; [reflexivity | lia].
  - intros Hstore.
    change (run (poll.handler (pollRequest _ test)) w2)
      with (run (poll.handler (pollRequest (sessionId s) test)) w2).
    rewrite Hrun2, Hstore, lookup_delete_eq. reflexivity.
Qed.
End creation_store.

(** ** The counter and the session ids over time *)

Section indices.
Context `{SolanaPrimitives}.

Lemma exec_counter (o : Op) (w : World) :
  keepsCounter o -> counterKept w ->
  counterKept (snd (exec o w)) /\ counterValue w <= counterValue (snd (exec o w)).
Proof.
  intros Hk Hc.
  destruct (is_store_write o) eqn:Hw.
  - destruct o; try discriminate.
    + rewrite exec_RedisSet. destruct (rpcFault w _); [split; [exact Hc | simpl; lia]|].
      simpl in *. unfold counterKept, counterValue. simpl.
      rewrite lookup_insert_ne by exact Hk. split; [exact Hc | lia].
    + unfold exec. cbn [external].
      destruct (rpcFault w _); [split; [exact Hc | simpl; lia]|].
      destruct (decide (key = session.counterKey)) as [-> | Hne].
      * simpl. unfold counterKept, counterValue.
        destruct (store w !! session.counterKey) as [[v ttl0]|] eqn:Hlook.
        -- destruct (Hc _ _ Hlook) as (-> & n & -> & Hn).
           destruct (n <? int64_max); simpl.
           ++ rewrite lookup_insert_eq. split; [|lia].
              intros v ttl [= <- <-]. split; [reflexivity|]. exists (n + 1). split; [reflexivity | lia].
           ++ rewrite Hlook. split; [|lia].
              intros v ttl [= <- <-]. split; [reflexivity|]. exists n. split; [reflexivity | lia].
        -- simpl. rewrite lookup_insert_eq. split; [|lia].
           intros v ttl [= <- <-]. split; [reflexivity|]. exists 1. split; [reflexivity | lia].
      * assert (Hsame : store (snd (perform (RedisIncr key) w)) !! session.counterKey =
                        store w !! session.counterKey).
        { simpl.
          destruct (store w !! key) as [[[s | s | n] ttl0]|]; simpl; try reflexivity.
          - destruct (n <? int64_max); simpl; [|reflexivity].
            now rewrite lookup_insert_ne.
          - now rewrite lookup_insert_ne. }
        unfold counterKept, counterValue. rewrite Hsame. split; [exact Hc | lia].
  - unfold counterKept, counterValue. rewrite (exec_store o w Hw). split; [exact Hc | lia].
Qed.

Lemma run_counter {A : Type} (p : Prog A) (w w' : World) r t :
  allOps keepsCounter p -> run p w = (r, w', t) -> counterKept w ->
  counterKept w' /\ counterValue w <= counterValue w'.
Proof.
  revert w w' r t. induction p as [a | e | o k IH]; intros w w' r t; simpl.
  - intros _ [= _ <- _] Hc. split; [exact Hc | lia].
  - intros _ [= _ <- _] Hc. split; [exact Hc | lia].
  - intros [Ho Hk]. pose proof (exec_counter o w Ho) as Hx.
    destruct (exec o w) as [x wx].
    destruct (run (k x) wx) as [[r' w''] t'] eqn:Hrun.
    intros [= _ <- _] Hc. destruct (Hx Hc) as [Hc1 Hle1].
    destruct (IH x _ _ _ _ (Hk x) Hrun Hc1) as [Hc2 Hle2].
    split; [exact Hc2 | simpl in Hle1; lia].
Qed.

Lemma evict_counter (w : World) (key : string) v ttl :
  counterKept w -> store w !! key = Some (v, Some ttl) ->
  store (with_store (delete key) w) !! session.counterKey = store w !! session.counterKey.
Proof.
  intros Hc Hlook. simpl.
  destruct (decide (key = session.counterKey)) as [-> | Hne].
  - destruct (Hc _ _ Hlook) as [Hnone _]. discriminate Hnone.
  - now rewrite lookup_delete_ne.
Qed.

Lemma history_counter (w w' : World) :
  history w w' -> counterKept w -> counterKept w' /\ counterValue w <= counterValue w'.
Proof.
  induction 1 as [w | w w1 req r w2 t _ IH Hrun | w w1 req r w2 t _ IH Hrun
                 | w w1 w2 _ IH Hs | w w1 key v ttl _ IH Hlook]; intros Hc.
  - split; [exact Hc | lia].
  - destruct (IH Hc) as [Hc1 Hle].
    destruct (run_counter _ _ _ _ _ (kc_session_handler req) Hrun Hc1). split; [assumption | lia].
  - destruct (IH Hc) as [Hc1 Hle].
    destruct (run_counter _ _ _ _ _ (kc_poll_handler req) Hrun Hc1). split; [assumption | lia].
  - destruct (IH Hc) as [Hc1 Hle]. unfold counterKept, counterValue in *. rewrite Hs.
    split; [exact Hc1 | exact Hle].
  - destruct (IH Hc) as [Hc1 Hle]. unfold counterKept, counterValue.
    rewrite (evict_counter _ _ _ _ Hc1 Hlook). split; [exact Hc1 | exact Hle].
Qed.

Lemma reachable_counterKept (w : World) : reachable w -> counterKept w.
Proof.
  induction 1 as [w He | w req r w' t _ IH Hrun | w req r w' t _ IH Hrun
                 | w w' _ IH Hs | w key v ttl _ IH Hlook].
  - intros v ttl. rewrite He, lookup_empty. discriminate.
  - exact (proj1 (run_counter _ _ _ _ _ (kc_session_handler req) Hrun IH)).
  - exact (proj1 (run_counter _ _ _ _ _ (kc_poll_handler req) Hrun IH)).
  - intros v ttl. rewrite Hs. apply IH.
  - unfold counterKept. rewrite (evict_counter _ _ _ _ IH Hlook). exact IH.
Qed.

(** The decimal rendering of an integer has no underscore. *)
Lemma underscoreFree_pretty_N_go (x : N) (s : string) :
  underscoreFree s -> underscoreFree (pretty_N_go x s).
Proof.
  revert s. induction (N.lt_wf_0 x) as [x _ IH]; intros s Hs.
  destruct (decide (x = 0)%N) as [-> | Hx]; [exact Hs|].
  rewrite pretty_N_go_step by lia. apply IH.
  - apply N.div_lt; lia.
  - split; [|exact Hs]. unfold pretty_N_char.
    repeat (match goal with |- context [match ?y with _ => _ end] => destruct y end);
      discriminate.
Qed.

Lemma underscoreFree_pretty_N (x : N) : underscoreFree (pretty x).
Proof.
  unfold pretty, pretty_N. destruct (decide (x = 0%N)).
  - split; [discriminate | exact I].
  - apply underscoreFree_pretty_N_go. exact I.
Qed.

Lemma underscoreFree_pretty_Z (z : Z) : underscoreFree (pretty z).
Proof.
  destruct z as [|p|p].
  - split; [discriminate | exact I].
  - exact (underscoreFree_pretty_N (N.pos p)).
  - split; [discriminate | exact (underscoreFree_pretty_N (N.pos p))].
Qed.

Lemma split_at_underscore (a a' b b' : string) :
  underscoreFree a -> underscoreFree a' ->
  a +:+ String "_" b = a' +:+ String "_" b' -> a = a' /\ b = b'.
Proof.
  revert a'. induction a as [|c a IH]; intros [|c' a'] Ha Ha'; simpl.
  - intros [= ->]. split; reflexivity.
  - intros [= <- _]. destruct Ha' as [Hc _]. now contradiction Hc.
  - intros [= -> _]. destruct Ha as [Hc _]. now contradiction Hc.
  - intros [= <- Heq]. destruct Ha as [_ Ha], Ha' as [_ Ha'].
    destruct (IH a' Ha Ha' Heq) as [-> ->]. split; reflexivity.
Qed.

Lemma sessionId_inj (i i' t t' : Z) :
  "sess_" +:+ pretty i +:+ "_" +:+ pretty t = "sess_" +:+ pretty i' +:+ "_" +:+ pretty t' ->
  i = i' /\ t = t'.
Proof.
  intros Heq. injection Heq as Heq.
  destruct (split_at_underscore _ _ _ _ (underscoreFree_pretty_Z i)
              (underscoreFree_pretty_Z i') Heq) as [Hi Ht].
  split; eapply (inj pretty); eassumption.
Qed.
End indices.

(** ** The session records over time *)

Section records.
Context `{SolanaPrimitives}.

Lemma counterValue_nonneg (w : World) : counterKept w -> 0 <= counterValue w.
Proof.
  intros Hc. unfold counterValue.
  destruct (store w !! session.counterKey) as [[v ttl]|] eqn:Hlook; [|lia].
  destruct (Hc _ _ Hlook) as (_ & n & -> & Hn). exact Hn.
Qed.

Lemma sessionKey_inj (a b : string) : poll.sessionKey a = poll.sessionKey b -> a = b.
Proof. intros Heq. now injection Heq. Qed.

Lemma sessionKey_not_counter (id : string) : poll.sessionKey id <> session.counterKey.
Proof. apply session_key_not_counter. Qed.

(** What a run of the session handler does to the store: nothing; or the
    counter moves; or the counter moves and the session record is written,
    with or without the address record after it. *)
Lemma session_handler_store (req : session.Request) (w w' : World)
    (r : Outcome session.Response) (t : list Op) :
  run (session.handler req) w = (r, w', t) ->
  store w' = store w \/
  exists idx w1,
    exec (RedisIncr session.counterKey) w = (Ok idx, w1) /\
    (store w' = store w1 \/
     exists phrase outputType metadata,
       let s := newSession phrase idx (now w) outputType metadata in
       store w' = <[poll.sessionKey (sessionId s) := (VSession s, Some 1800)]> (store w1) \/
       store w' =
         <["address:" +:+ paymentAddress s := (VString (sessionId s), Some 1800)]>
           (<[poll.sessionKey (sessionId s) := (VSession s, Some 1800)]> (store w1))).
Proof.
  intros Hrun.
  destruct (session_request_cases req w) as
    [(response & t0 & Hr & _) | (ot & md & Hot & ->)].
  { rewrite Hr in Hrun. injection Hrun as _ <- _. now left. }
  pose proof (run_create_failed w ot md Hot) as Hfail.
  destruct (exec (RedisIncr session.counterKey) w) as [[idx | e] w1] eqn:Hincr.
  - right. exists idx, w1. split; [reflexivity|].
    destruct (masterSecret w) as [phrase|] eqn:Hsec.
    + rewrite (run_create_cases _ _ _ _ _ _ Hot Hsec Hincr) in Hrun. cbv zeta in Hrun.
      destruct (rpcFault w (RedisSet ("session:" +:+ _) _ 1800)).
      { left. now injection Hrun as _ <- _. }
      right. exists phrase, ot, md. cbv zeta.
      destruct (rpcFault w (RedisSet ("address:" +:+ _) _ 1800)).
      { left. now injection Hrun as _ <- _. }
      right. destruct (connectionFailure w).
      { now injection Hrun as _ <- _. }
      destruct (run (session.fund _ _) _) as [[rf w3] tf] eqn:Hfund.
      injection Hrun as _ <- _.
      rewrite (run_store_unchanged _ _ _ _ _ Hfund (fund_no_write _ _ _ _ _ _ Hfund)).
      reflexivity.
    + left. rewrite (Hfail eq_refl) in Hrun. now injection Hrun as _ <- _.
  - left. rewrite Hfail in Hrun. injection Hrun as _ <- _.
    now rewrite (exec_Thrown_world _ _ _ _ Hincr).
Qed.

(** Everything about a created session, from the response alone. *)
Lemma created_record (req : session.Request) (w w' : World) (t : list Op)
    (sid addr : string) (required expires : Z) :
  run (session.handler req) w =
    (Ok (session.mkResponse 200 (session.JCreated sid addr required expires)), w', t) ->
  exists phrase outputType metadata w1,
    let idx := counterValue w + 1 in
    let s := newSession phrase idx (now w) outputType metadata in
    exec (RedisIncr session.counterKey) w = (Ok idx, w1) /\
    sid = sessionId s /\ addr = paymentAddress s /\
    store w' =
      <["address:" +:+ paymentAddress s := (VString (sessionId s), Some 1800)]>
        (<[poll.sessionKey (sessionId s) := (VSession s, Some 1800)]> (store w1)) /\
    counterValue w' = idx.
Proof.
  intros Hrun.
  destruct (created_request _ _ _ _ _ _ _ _ Hrun) as (ot & md & Hot & ->).
  destruct (created_index _ _ _ _ _ _ _ _ _ Hot Hrun)
    as (phrase & idx & w1 & Hsec & Hincr & Hgo).
  destruct (create_store _ _ _ _ _ _ _ _ _ Hot Hsec Hincr Hgo Hrun) as [Hr Hstore].
  destruct (counterValue_incr _ _ _ Hincr) as (Hidx & Hcv & _).
  subst idx. injection Hr as -> -> _ _.
  exists phrase, ot, md, w1. cbv zeta.
  split; [exact Hincr|]. do 2 (split; [reflexivity|]). split; [exact Hstore|].
  unfold counterValue at 1. rewrite Hstore.
  rewrite lookup_insert_ne by apply address_key_not_counter.
  rewrite lookup_insert_ne by apply session_key_not_counter.
  exact Hcv.
Qed.

Lemma afterPoll_recordOk (id : string) (s s' : Session) :
  recordOk id s -> afterPoll s s' -> recordOk id s' /\ sessionIndex s' = sessionIndex s.
Proof.
  intros (Hid & Hidx & Hfmt & Hreq & _ & _) Hafter.
  destruct Hafter as [buyer st Hst | buyer addr sig | buyer addr sig sweep];
    (split; [|reflexivity]); unfold recordOk; simpl;
    (split; [exact Hid|]); (split; [exact Hidx|]); (split; [exact Hfmt|]);
    (split; [exact Hreq|]).
  - split.
    + intros [-> | ->]; destruct Hst; discriminate.
    + intros ->. destruct Hst; discriminate.
  - split; [intros _; split; eexists; reflexivity | discriminate].
  - split; [intros _; split; eexists; reflexivity | discriminate].
Qed.

Lemma brokenPoll_recordOk (id : string) (s s' : Session) (ex : Z) :
  recordOk id s -> brokenPoll s s' ex -> recordOk id s' /\ sessionIndex s' = sessionIndex s.
Proof.
  intros (Hid & Hidx & Hfmt & Hreq & _ & _) Hbroken.
  destruct Hbroken as [| buyer | buyer addr sig st Hst];
    (split; [|reflexivity]); unfold recordOk; simpl;
    (split; [exact Hid|]); (split; [exact Hidx|]); (split; [exact Hfmt|]);
    (split; [exact Hreq|]).
  - split; [intros [Hx | Hx]; discriminate Hx | discriminate].
  - split; [intros [Hx | Hx]; discriminate Hx | discriminate].
  - split.
    + intros _. split; eexists; reflexivity.
    + intros ->. destruct Hst; discriminate.
Qed.

Lemma storeTyped_same (w w' : World) :
  store w' = store w -> storeTyped w -> storeTyped w'.
Proof.
  intros Hs Ht id v ttl. unfold counterValue. rewrite Hs. apply Ht.
Qed.

(** A record put under a session key, in a store whose counter stands at
    [c]. *)
Lemma storeTyped_insert (w w' : World) (id0 : string) (s0 : Session) (ttl0 : option Z)
    (c : Z) :
  storeTyped w -> counterValue w <= c ->
  recordOk id0 s0 -> sessionIndex s0 <= c ->
  counterValue w' = c ->
  (forall id, id <> id0 -> store w' !! poll.sessionKey id = store w !! poll.sessionKey id) ->
  store w' !! poll.sessionKey id0 = Some (VSession s0, ttl0) ->
  storeTyped w'.
Proof.
  intros Ht Hc Hok Hle Hcv Hframe Hlook id v ttl. rewrite Hcv.
  destruct (decide (id = id0)) as [-> | Hne].
  - rewrite Hlook. intros [= <- _]. exists s0. auto.
  - rewrite (Hframe _ Hne). intros Hl.
    destruct (Ht _ _ _ Hl) as (s & -> & Hok' & Hle'). exists s.
    split; [reflexivity|]. split; [exact Hok' | lia].
Qed.

Lemma storeTyped_session (req : session.Request) (w w' : World)
    (r : Outcome session.Response) (t : list Op) :
  run (session.handler req) w = (r, w', t) ->
  counterKept w -> storeTyped w -> storeTyped w'.
Proof.
  intros Hrun Hc Ht.
  destruct (session_handler_store _ _ _ _ _ Hrun) as
    [Hsame | (idx & w1 & Hincr & [Hsame | (phrase & ot & md & Hstore)])].
  - exact (storeTyped_same _ _ Hsame Ht).
  - destruct (counterValue_incr _ _ _ Hincr) as (Hidx & Hcv & Hframe & _).
    intros id v ttl. unfold counterValue at 1. rewrite Hsame. fold (counterValue w1).
    rewrite Hframe by apply sessionKey_not_counter. intros Hlook.
    destruct (Ht _ _ _ Hlook) as (s & -> & Hok & Hle). exists s.
    split; [reflexivity|]. split; [exact Hok | lia].
  - destruct (counterValue_incr _ _ _ Hincr) as (Hidx & Hcv & Hframe & _).
    pose proof (counterValue_nonneg _ Hc) as Hnn.
    cbv zeta in Hstore.
    set (s := newSession phrase idx (now w) ot md) in *.
    assert (Hok : recordOk (sessionId s) s).
    { unfold recordOk. simpl.
      split; [reflexivity|]. split; [lia|]. split; [exists (now w); reflexivity|].
      split; [reflexivity|]. split; [intros [Hx | Hx]; discriminate Hx|].
      intros _. repeat split. }
    apply (storeTyped_insert w w' (sessionId s) s (Some 1800) idx Ht);
      [lia | exact Hok | simpl; lia | | |].
    + unfold counterValue at 1. destruct Hstore as [-> | ->].
      * rewrite lookup_insert_ne by apply session_key_not_counter. exact Hcv.
      * rewrite lookup_insert_ne by apply address_key_not_counter.
        rewrite lookup_insert_ne by apply session_key_not_counter. exact Hcv.
    + intros id Hne.
      assert (Hk : poll.sessionKey (sessionId s) <> poll.sessionKey id).
      { intros Heq. apply sessionKey_inj in Heq. congruence. }
      destruct Hstore as [-> | ->].
      * rewrite lookup_insert_ne by exact Hk. apply Hframe, sessionKey_not_counter.
      * rewrite lookup_insert_ne by apply session_key_not_address.
        rewrite lookup_insert_ne by exact Hk. apply Hframe, sessionKey_not_counter.
    + destruct Hstore as [-> | ->].
      * apply lookup_insert_eq.
      * rewrite lookup_insert_ne by apply session_key_not_address. apply lookup_insert_eq.
Qed.

Lemma storeTyped_poll (req : poll.Request) (w w' : World)
    (r : Outcome poll.Response) (t : list Op) :
  run (poll.handler req) w = (r, w', t) -> storeTyped w -> storeTyped w'.
Proof.
  intros Hrun Ht.
  destruct (poll_request_cases req w) as [(response & Hr & _) | (sid & Hsid & Hreq)].
  { rewrite Hr in Hrun. injection Hrun as _ <- _. exact Ht. }
  rewrite Hreq in Hrun.
  destruct (poll_store _ _ _ _ _ _ Hsid Hrun) as
    [Hsame | (s & Hstored & _ & _ & _ & Hcase)].
  { exact (storeTyped_same _ _ Hsame Ht). }
  assert (Hold : recordOk sid s /\ sessionIndex s <= counterValue w).
  { unfold storedSession in Hstored.
    destruct (store w !! poll.sessionKey sid) as [[v ttl]|] eqn:Hlook; [|discriminate].
    destruct (Ht _ _ _ Hlook) as (s0 & -> & Hok & Hle).
    injection Hstored as <-. split; assumption. }
  destruct Hold as [Hok Hle].
  assert (Hnew : exists s' ex,
            (recordOk sid s' /\ sessionIndex s' = sessionIndex s) /\
            store w' = <[poll.sessionKey sid := (VSession s', Some ex)]> (store w)).
  { destruct Hcase as [(s' & Hafter & Hstore) | (s' & ex & Hbroken & Hstore & _)].
    - exists s', 86400. split; [exact (afterPoll_recordOk _ _ _ Hok Hafter) | exact Hstore].
    - exists s', ex. split; [exact (brokenPoll_recordOk _ _ _ _ Hok Hbroken) | exact Hstore]. }
  destruct Hnew as (s' & ex & [Hok' Hidx'] & Hstore).
  apply (storeTyped_insert w w' sid s' (Some ex) (counterValue w) Ht);
    [lia | exact Hok' | lia | | |].
  - unfold counterValue. rewrite Hstore.
    rewrite lookup_insert_ne by apply sessionKey_not_counter. reflexivity.
  - intros id Hne. rewrite Hstore. apply lookup_insert_ne.
    intros Heq. apply sessionKey_inj in Heq. congruence.
  - rewrite Hstore. apply lookup_insert_eq.
Qed.

Lemma storeTyped_evict (w : World) (key : string) v ttl :
  counterKept w -> store w !! key = Some (v, Some ttl) ->
  storeTyped w -> storeTyped (with_store (delete key) w).
Proof.
  intros Hc Hlook Ht id v' ttl'. unfold counterValue.
  rewrite (evict_counter _ _ _ _ Hc Hlook). fold (counterValue w). simpl.
  destruct (decide (key = poll.sessionKey id)) as [-> | Hne].
  - rewrite lookup_delete_eq. discriminate.
  - rewrite lookup_delete_ne by exact Hne. apply Ht.
Qed.

Lemma reachable_storeTyped (w : World) : reachable w -> storeTyped w.
Proof.
  induction 1 as [w He | w req r w' t Hreach IH Hrun | w req r w' t _ IH Hrun
                 | w w' _ IH Hs | w key v ttl Hreach IH Hlook].
  - intros id v ttl. rewrite He, lookup_empty. discriminate.
  - exact (storeTyped_session _ _ _ _ _ Hrun (reachable_counterKept _ Hreach) IH).
  - exact (storeTyped_poll _ _ _ _ _ Hrun IH).
  - exact (storeTyped_same _ _ Hs IH).
  - exact (storeTyped_evict _ _ _ _ (reachable_counterKept _ Hreach) Hlook IH).
Qed.

(** X14. Session indices only go up. Take a creation, any later history of
    handler runs, outside events and key expiry, and a second creation: the
    second session has the higher index, so the two ids differ and the two
    escrow keys are derived at different paths, neither of them the
    master's. *)
Theorem later_creation_gets_higher_index (w0 w1 w2 w3 : World)
    (req1 req2 : session.Request) (t1 t3 : list Op)
    (sid1 addr1 sid2 addr2 : string) (required1 expires1 required2 expires2 : Z) :
  counterKept w0 ->
  run (session.handler req1) w0 =
    (Ok (session.mkResponse 200 (session.JCreated sid1 addr1 required1 expires1)), w1, t1) ->
  history w1 w2 ->
  run (session.handler req2) w2 =
    (Ok (session.mkResponse 200 (session.JCreated sid2 addr2 required2 expires2)), w3, t3) ->
  exists s1 s2,
    storedSession w1 sid1 = Some s1 /\ storedSession w3 sid2 = Some s2 /\
    1 <= sessionIndex s1 /\ sessionIndex s1 < sessionIndex s2 /\
    sid1 <> sid2 /\
    wallet.derivationPath (1000 + sessionIndex s1) <>
      wallet.derivationPath (1000 + sessionIndex s2) /\
    wallet.derivationPath (1000 + sessionIndex s1) <> wallet.derivationPath 0 /\
    wallet.derivationPath (1000 + sessionIndex s2) <> wallet.derivationPath 0.
Proof.
  intros Hc0 Hrun1 Hhist Hrun2.
  destruct (created_record _ _ _ _ _ _ _ _ Hrun1) as
    (p1 & ot1 & md1 & wa & _ & -> & -> & Hst1 & Hcv1).
  destruct (created_record _ _ _ _ _ _ _ _ Hrun2) as
    (p2 & ot2 & md2 & wb & _ & -> & -> & Hst2 & Hcv2).
  destruct (run_counter _ _ _ _ _ (kc_session_handler req1) Hrun1 Hc0) as [Hc1 _].
  destruct (history_counter _ _ Hhist Hc1) as [Hc2 Hle].
  pose proof (counterValue_nonneg _ Hc0) as Hnn.
  eexists _, _.
  split. { unfold storedSession. rewrite Hst1.
           rewrite lookup_insert_ne by apply session_key_not_address.
           rewrite lookup_insert_eq. reflexivity. }
  split. { unfold storedSession. rewrite Hst2.
           rewrite lookup_insert_ne by apply session_key_not_address.
           rewrite lookup_insert_eq. reflexivity. }
  simpl. split; [lia|]. split; [lia|].
  split. { intros Heq. apply sessionId_inj in Heq. lia. }
  repeat split; intros Heq; apply derivationPath_inj in Heq; lia.
Qed.

(** X15. In every world the two handlers can bring about from an empty
    store, whatever the ledger and the clock do and whichever keys expire,
    a key [session:<id>] holds a session record whose [sessionId] is that
    id, of the form [sess_<index>_<time>], with an index between 1 and the
    counter and the required amount 2,250,000; a minted or swept record has
    its mint address and signature, a pending one has no buyer, mint or
    sweep field yet. The counter itself is a non-negative integer that
    never expires. *)
Theorem reachable_records_in_order (w : World) (id : string) (v : StoreVal)
    (ttl : option Z) :
  reachable w ->
  store w !! poll.sessionKey id = Some (v, ttl) ->
  counterKept w /\
  exists s,
    v = VSession s /\ storedSession w id = Some s /\
    sessionId s = id /\
    (exists t : Z, id = "sess_" +:+ pretty (sessionIndex s) +:+ "_" +:+ pretty t) /\
    1 <= sessionIndex s /\ sessionIndex s <= counterValue w /\
    requiredUsdc s = 2250000 /\
    (status s = Minted \/ status s = Swept ->
     is_Some (mintAddress s) /\ is_Some (mintSignature s)) /\
    (status s = Pending ->
     buyerWallet s = None /\ mintAddress s = None /\ mintSignature s = None /\
     sweepSignature s = None).
Proof.
  intros Hreach Hlook. split; [exact (reachable_counterKept _ Hreach)|].
  destruct (reachable_storeTyped _ Hreach _ _ _ Hlook) as
    (s & -> & (Hid & Hidx & Hfmt & Hreq & Hmint & Hpend) & Hle).
  exists s. split; [reflexivity|].
  split. { unfold storedSession. now rewrite Hlook. }
  repeat (split; [assumption|]). exact Hpend.
Qed.

(** X16. A creation never overwrites a session. In a world the handlers
    can bring about, the id a creation answers with was not a key of the
    store before, and no session stored before has the new index. *)
Theorem creation_never_overwrites (req : session.Request) (w w' : World) (t : list Op)
    (sid addr : string) (required expires : Z) :
  reachable w ->
  run (session.handler req) w =
    (Ok (session.mkResponse 200 (session.JCreated sid addr required expires)), w', t) ->
  store w !! poll.sessionKey sid = None /\
  (forall id s, storedSession w id = Some s ->
     id <> sid /\ sessionIndex s < counterValue w' /\
     storedSession w' id = Some s) /\
  exists s', storedSession w' sid = Some s' /\ sessionIndex s' = counterValue w'.
Proof.
  intros Hreach Hrun.
  pose proof (reachable_storeTyped _ Hreach) as Ht.
  destruct (created_record _ _ _ _ _ _ _ _ Hrun) as
    (phrase & ot & md & w1 & Hincr & -> & -> & Hstore & Hcv).
  cbv zeta in *.
  destruct (counterValue_incr _ _ _ Hincr) as (_ & _ & Hframe & _).
  set (s' := newSession phrase (counterValue w + 1) (now w) ot md) in *.
  assert (Hold : forall id s, storedSession w id = Some s ->
                   id <> sessionId s' /\ sessionIndex s <= counterValue w).
  { intros id s Hs. unfold storedSession in Hs.
    destruct (store w !! poll.sessionKey id) as [[v ttl]|] eqn:Hlook; [|discriminate].
    destruct (Ht _ _ _ Hlook) as (s0 & -> & (_ & _ & (t0 & Hfmt) & _) & Hle).
    injection Hs as <-. split; [|exact Hle].
    intros Heq. rewrite Hfmt in Heq. apply sessionId_inj in Heq. lia. }
  split.
  { destruct (store w !! poll.sessionKey (sessionId s')) as [[v ttl]|] eqn:Hlook;
      [|reflexivity].
    destruct (Ht _ _ _ Hlook) as (s0 & -> & _).
    destruct (Hold (sessionId s') s0) as [Hne _]; [|now contradiction Hne].
    unfold storedSession. now rewrite Hlook. }
  split.
  - intros id s Hs. destruct (Hold id s Hs) as [Hne Hle].
    split; [exact Hne|]. split; [lia|].
    unfold storedSession. rewrite Hstore.
    rewrite lookup_insert_ne by apply session_key_not_address.
    rewrite lookup_insert_ne by (intros Heq; apply sessionKey_inj in Heq; now apply Hne).
    rewrite Hframe by apply sessionKey_not_counter. exact Hs.
  - exists s'. split; [|now rewrite Hcv].
    unfold storedSession. rewrite Hstore.
    rewrite lookup_insert_ne by apply session_key_not_address.
    now rewrite lookup_insert_eq.
Qed.
End records.

(** ** Counting the transactions and the mints of a program *)


Section counting.
Context `{SolanaPrimitives}.

Lemma bounded_mono {A : Type} (P : Op -> bool) (n m : nat) (p : Prog A) :
  (n <= m)%nat -> bounded P n p -> bounded P m p.
Proof.
  revert n m. induction p as [a | e | o k IH]; intros n m Hle; simpl; auto.
  destruct (P o).
  - destruct n as [|n]; [contradiction|]. destruct m as [|m]; [lia|].
    intros Hk r. apply (IH r n m); [lia | apply Hk].
  - intros Hk r. apply (IH r n m Hle), Hk.
Qed.

Lemma bounded_free {A : Type} (P : Op -> bool) (n : nat) (p : Prog A) :
  allOps (fun o => P o = false) p -> bounded P n p.
Proof.
  induction p as [a | e | o k IH]; simpl; auto.
  intros [-> Hk] r. apply IH, Hk.
Qed.

Lemma bounded_bind {A B : Type} (P : Op -> bool) (n m : nat) (p : Prog A)
    (f : A -> Prog B) :
  bounded P n p -> (forall a, bounded P m (f a)) -> bounded P (n + m) (bind p f).
Proof.
  intros Hp Hf. revert n Hp. induction p as [a | e | o k IH]; intros n; simpl.
  - intros _. apply (bounded_mono P m); [lia | apply Hf].
  - auto.
  - destruct (P o).
    + destruct n as [|n]; [contradiction|]. intros Hk r. apply IH, Hk.
    + intros Hk r. apply IH, Hk.
Qed.

Lemma bounded_tryCatch {A : Type} (P : Op -> bool) (n m : nat) (p : Prog A)
    (h : Err -> Prog A) :
  bounded P n p -> (forall e, bounded P m (h e)) -> bounded P (n + m) (tryCatch p h).
Proof.
  intros Hp Hh. revert n Hp. induction p as [a | e | o k IH]; intros n; simpl.
  - auto.
  - intros _. apply (bounded_mono P m); [lia | apply Hh].
  - destruct (P o).
    + destruct n as [|n]; [contradiction|]. intros Hk r. apply IH, Hk.
    + intros Hk r. apply IH, Hk.
Qed.

Lemma bounded_call (P : Op -> bool) (o : Op) : bounded P 1 (call o).
Proof. simpl. destruct (P o); intros [v | e]; exact I. Qed.

Lemma bounded_run {A : Type} (P : Op -> bool) (n : nat) (p : Prog A)
    (w w' : World) r t :
  bounded P n p -> run p w = (r, w', t) ->
  (length (filter (fun o => P o = true) t) <= n)%nat.
Proof.
  revert n w w' r t. induction p as [a | e | o k IH]; intros n w w' r t; simpl.
  - intros _ [= _ _ <-]. simpl. lia.
  - intros _ [= _ _ <-]. simpl. lia.
  - destruct (exec o w) as [x wx].
    destruct (run (k x) wx) as [[r' w''] t'] eqn:Hrun.
    destruct (P o) eqn:HP.
    + destruct n as [|n]; [contradiction|]. intros Hk [= _ _ <-].
      rewrite filter_cons_True by exact HP. simpl.
      pose proof (IH x n _ _ _ _ (Hk x) Hrun). lia.
    + intros Hk [= _ _ <-].
      rewrite filter_cons_False by (rewrite HP; discriminate).
      exact (IH x n _ _ _ _ (Hk x) Hrun).
Qed.

Lemma free_scanSignatures (P : Op -> bool) receiver sigs :
  (forall sig, P (GetTransaction sig) = false) ->
  allOps (fun o => P o = false) (solana.scanSignatures receiver sigs).
Proof.
  intros HP. induction sigs as [|sig rest IH]; [exact I|].
  rewrite scanSignatures_cons. apply allOps_bind.
  - apply allOps_call, HP.
  - intros [meta|]; [|exact IH].
    destruct (solana.scanPreBalances _ _ _); [exact I | exact IH].
Qed.

(** Programs free of an operation kind, by walking through them. *)
Ltac free :=
  repeat match goal with
    | |- allOps _ (bind _ _) => apply allOps_bind; [|intros ?]
    | |- allOps _ (tryCatch _ _) => apply allOps_tryCatch; [|intros ?]
    | |- allOps _ (call _) => apply allOps_call
    | |- allOps _ (Ret _) => exact I
    | |- allOps _ (Throw _) => exact I
    | |- allOps _ (solana.scanSignatures _ _) =>
        apply free_scanSignatures; intros ?; reflexivity
    | |- allOps _ (match ?x with _ => _ end) => destruct x
    | |- allOps _ (if ?x then _ else _) => destruct x
    | |- allOps _ (wallet.getMasterKeypair) => unfold wallet.getMasterKeypair
    | |- allOps _ (wallet.getSessionKeypair _) => unfold wallet.getSessionKeypair
    | |- allOps _ (wallet.deriveKeypair _) => unfold wallet.deriveKeypair
    | |- allOps _ (solana.getUsdcBalance _) => unfold solana.getUsdcBalance
    | |- allOps _ (solana.findUsdcSender _) => unfold solana.findUsdcSender
    | |- allOps _ (solana.sweepUsdc _ _) => unfold solana.sweepUsdc
    | |- allOps _ (solana.sweepSol _ _) => unfold solana.sweepSol
    | |- allOps _ (poll.mintNft _ _) => unfold poll.mintNft
    | |- allOps _ (poll.mintStep _ _ _) => unfold poll.mintStep
    | |- allOps _ (poll.mintFailed _ _ _ _) => unfold poll.mintFailed
    | |- allOps _ solana.getConnection => unfold solana.getConnection
    | |- allOps _ (poll.sweepStep _ _ _) => unfold poll.sweepStep
    | |- allOps _ (poll.sweepBody _ _ _) => unfold poll.sweepBody
    | |- _ = false => reflexivity
    end.

(** A bind whose one side is free of the operation kind. *)
Lemma bounded_bind_free {A B : Type} (P : Op -> bool) (n : nat) (p : Prog A)
    (f : A -> Prog B) :
  allOps (fun o => P o = false) p -> (forall a, bounded P n (f a)) ->
  bounded P n (bind p f).
Proof.
  intros Hp Hf. apply (bounded_bind P 0 n); [apply bounded_free, Hp | exact Hf].
Qed.

Lemma bounded_then_free {A B : Type} (P : Op -> bool) (n : nat) (p : Prog A)
    (f : A -> Prog B) :
  bounded P n p -> (forall a, allOps (fun o => P o = false) (f a)) ->
  bounded P n (bind p f).
Proof.
  intros Hp Hf. rewrite <- (Nat.add_0_r n).
  apply bounded_bind; [exact Hp | intros a; apply bounded_free, Hf].
Qed.

Lemma bounded_tryCatch_free {A : Type} (P : Op -> bool) (n : nat) (p : Prog A)
    (h : Err -> Prog A) :
  bounded P n p -> (forall e, allOps (fun o => P o = false) (h e)) ->
  bounded P n (tryCatch p h).
Proof.
  intros Hp Hh. rewrite <- (Nat.add_0_r n).
  apply bounded_tryCatch; [exact Hp | intros e; apply bounded_free, Hh].
Qed.

Lemma mints_mintNft s buyer : bounded is_mint_submission 1 (poll.mintNft s buyer).
Proof.
  unfold poll.mintNft.
  repeat first
    [ apply bounded_bind_free; [solve [free] | intros ?]
    | match goal with
      | |- bounded _ _ (match ?x with _ => _ end) => destruct x
      | |- bounded _ _ (if ?x then _ else _) => destruct x
      | |- bounded _ _ (Throw _) => exact I
      end ].
  all: try (apply bounded_then_free; [apply bounded_call | intros ?; free]).
Qed.

Lemma transfers_sweepUsdc kp master : bounded is_transfer 1 (solana.sweepUsdc kp master).
Proof.
  unfold solana.sweepUsdc. apply bounded_bind_free; [free | intros balance].
  destruct (balance =? 0); [exact I|].
  apply bounded_then_free; [apply bounded_call | intros ?; free].
Qed.

Lemma transfers_sweepSol kp master : bounded is_transfer 1 (solana.sweepSol kp master).
Proof.
  unfold solana.sweepSol. apply bounded_bind_free; [free | intros balance].
  cbv zeta. destruct (_ <=? 0); [exact I|].
  apply bounded_then_free; [apply bounded_call | intros ?; free].
Qed.

Lemma transfers_sweepStep key s kp : bounded is_transfer 2 (poll.sweepStep key s kp).
Proof.
  unfold poll.sweepStep. apply bounded_tryCatch_free; [|intros ?; free].
  unfold poll.sweepBody. apply bounded_bind_free; [free | intros master].
  apply (bounded_bind is_transfer 1 1); [apply transfers_sweepUsdc | intros sig].
  apply bounded_then_free; [apply transfers_sweepSol | intros ?; free].
Qed.

Lemma mints_confirmed key s kp : bounded is_mint_submission 1 (poll.confirmed key s kp).
Proof.
  unfold poll.confirmed.
  apply bounded_bind_free; [free | intros ?].
  apply bounded_bind_free; [free | intros buyer].
  apply bounded_bind_free; [free | intros ?].
  apply bounded_then_free.
  - unfold poll.mintStep. apply bounded_then_free.
    + apply bounded_tryCatch_free; [|intros e; free].
      apply bounded_then_free; [apply mints_mintNft | intros ?; free].
    + intros [m | e]; free.
  - intros [s3 | response]; free.
Qed.

Lemma transfers_confirmed key s kp : bounded is_transfer 2 (poll.confirmed key s kp).
Proof.
  unfold poll.confirmed.
  apply bounded_bind_free; [free | intros ?].
  apply bounded_bind_free; [free | intros buyer].
  apply bounded_bind_free; [free | intros ?].
  apply bounded_bind_free; [free | intros [s3 | response]]; [|exact I].
  apply bounded_then_free; [apply transfers_sweepStep | intros ?; free].
Qed.

Lemma bounded_poll (P : Op -> bool) (n : nat) sessionId test :
  (forall o, keepsLedger o -> P o = false) ->
  (forall key s kp, bounded P n (poll.confirmed key s kp)) ->
  bounded P n (poll.poll sessionId test).
Proof.
  intros HP Hc. unfold poll.poll. cbv zeta.
  apply bounded_bind_free; [apply allOps_call, HP; exact I | intros loaded].
  assert (Hfree : forall A (p : Prog A), allOps keepsLedger p ->
                    allOps (fun o => P o = false) p).
  { intros A p. apply allOps_impl. exact HP. }
  destruct loaded as [[s | str | z]|]; [| | |exact I].
  - destruct (bool_decide _); [exact I|]. destruct (bool_decide _); [exact I|].
    apply bounded_bind_free; [apply Hfree; free; exact I | intros t].
    destruct (t >? _); [exact I|].
    apply bounded_bind_free; [apply Hfree; free; exact I | intros ?].
    apply bounded_bind_free;
      [apply Hfree; unfold wallet.getSessionKeypair, wallet.deriveKeypair; free; exact I
      | intros kp].
    apply bounded_bind_free.
    + apply Hfree. destruct (bool_decide _); [exact I|].
      unfold solana.getUsdcBalance. free; exact I.
    + intros balance. destruct (_ && _); [exact I | apply Hc].
  - apply bounded_free, Hfree. free; exact I.
  - destruct z; [exact I| |]; apply bounded_free, Hfree; free; exact I.
Qed.

Lemma bounded_poll_handler (P : Op -> bool) (n : nat) req :
  (forall o, keepsLedger o -> P o = false) ->
  (forall key s kp, bounded P n (poll.confirmed key s kp)) ->
  bounded P n (poll.handler req).
Proof.
  intros HP Hc. unfold poll.handler.
  destruct (bool_decide _); [exact I|]. destruct (negb _); [exact I|].
  destruct (poll.query_sessionId req) as [[|c sid]|]; try exact I.
  apply bounded_tryCatch_free; [apply bounded_poll; assumption|].
  intros e. apply allOps_bind; [apply allOps_call, HP; exact I | intros ?; exact I].
Qed.
Lemma free_mintNft_transfer s buyer :
  allOps (fun o => is_transfer o = false) (poll.mintNft s buyer).
Proof. free. Qed.

Lemma free_sweepStep_mint key s kp :
  allOps (fun o => is_mint_submission o = false) (poll.sweepStep key s kp).
Proof. free. Qed.

Lemma free_findUsdcSender_transfer receiver :
  allOps (fun o => is_transfer o = false) (solana.findUsdcSender receiver).
Proof. free. Qed.

End counting.

(** ** Funds and assets *)

Section funds.
Context `{SolanaPrimitives}.

Lemma exec_ledger (o : Op) (w : World) :
  keepsLedger o ->
  nfts (snd (exec o w)) = nfts w /\ usdc (snd (exec o w)) = usdc w /\
  lamports (snd (exec o w)) = lamports w.
Proof.
  intros Hk. unfold exec.
  destruct (if external o then rpcFault w o else None); [repeat split|].
  destruct o; simpl in Hk; try contradiction; simpl; repeat split;
    repeat match goal with
      | |- context [match ?x with _ => _ end] => destruct x; simpl
      end; reflexivity.
Qed.

Lemma run_ledger {A : Type} (p : Prog A) (w w' : World) r t :
  allOps keepsLedger p -> run p w = (r, w', t) ->
  nfts w' = nfts w /\ usdc w' = usdc w /\ lamports w' = lamports w.
Proof.
  revert w w' r t. induction p as [a | e | o k IH]; intros w w' r t; simpl.
  - intros _ [= _ <- _]. repeat split.
  - intros _ [= _ <- _]. repeat split.
  - intros [Ho Hk]. pose proof (exec_ledger o w Ho) as Hx.
    destruct (exec o w) as [x wx].
    destruct (run (k x) wx) as [[r' w''] t'] eqn:Hrun.
    intros [= _ <- _]. destruct (IH x _ _ _ _ (Hk x) Hrun) as (-> & -> & ->).
    exact Hx.
Qed.

Lemma submit_nfts (tx : Tx) (w : World) : nfts (snd (submit tx w)) = nfts w.
Proof.
  destruct tx; simpl;
    repeat match goal with
      | |- context [match ?x with _ => _ end] => destruct x; simpl
      end; reflexivity.
Qed.

Lemma exec_nfts (o : Op) (w : World) :
  is_mint_submission o = false -> nfts (snd (exec o w)) = nfts w.
Proof.
  intros Hk. unfold exec.
  destruct (if external o then rpcFault w o else None); [reflexivity|].
  destruct o; try discriminate; simpl;
    try (pose proof (submit_nfts tx w) as Hs; destruct (submit tx w) as [[[] | e] ws];
         exact Hs);
    repeat match goal with
      | |- context [match ?x with _ => _ end] => destruct x; simpl
      end; reflexivity.
Qed.

Lemma exec_nfts_eq (o : Op) (w w' : World) x :
  exec o w = (x, w') -> is_mint_submission o = false -> nfts w' = nfts w.
Proof. intros Hx Ho. pose proof (exec_nfts o w Ho) as Hn. now rewrite Hx in Hn. Qed.

Lemma run_nfts {A : Type} (p : Prog A) (w w' : World) r t :
  allOps (fun o => is_mint_submission o = false) p -> run p w = (r, w', t) ->
  nfts w' = nfts w.
Proof.
  revert w w' r t. induction p as [a | e | o k IH]; intros w w' r t; simpl.
  - now intros _ [= _ <- _].
  - now intros _ [= _ <- _].
  - intros [Ho Hk]. pose proof (exec_nfts o w Ho) as Hx.
    destruct (exec o w) as [x wx].
    destruct (run (k x) wx) as [[r' w''] t'] eqn:Hrun.
    intros [= _ <- _]. rewrite (IH x _ _ _ _ (Hk x) Hrun). exact Hx.
Qed.

(** What [mintNft] does to the ledger. *)
Lemma mintNft_ledger (s : Session) (buyer : option string) (w w' : World)
    (r : Outcome poll.MintResult) (t : list Op) :
  run (poll.mintNft s buyer) w = (r, w', t) ->
  usdc w' = usdc w /\ lamports w' = lamports w /\
  match r with
  | Ok _ => exists x, nfts w' = nfts w ++ [x]
  | Thrown _ => nfts w' = nfts w
  end.
Proof.
  destruct (masterSecret w) as [phrase|] eqn:Hs.
  - rewrite (run_mintNft _ _ _ _ Hs). cbv zeta.
    destruct (blank _); [intros [= <- <- _]; repeat split|].
    destruct (rpcFault w (PinFileToIPFS _ _)); [intros [= <- <- _]; repeat split|].
    destruct (truthy (ipfsHash w)); [|intros [= <- <- _]; repeat split].
    destruct (rpcFault w (CreateNft _ _ _)); intros [= <- <- _]; repeat split.
    eexists. reflexivity.
  - unfold poll.mintNft, wallet.getMasterKeypair.
    rewrite run_bind, run_deriveKeypair, Hs. intros [= <- <- _]. repeat split.
Qed.

Lemma app_one_ne {A : Type} (l : list A) (x : A) : l ++ [x] <> l.
Proof.
  intros Heq. apply (f_equal length) in Heq. rewrite length_app in Heq. simpl in Heq. lia.
Qed.

Ltac transferless :=
  repeat match goal with
    | |- Forall _ (_ :: _) => constructor; [reflexivity|]
    | |- Forall _ (_ ++ _) => apply Forall_app_2
    | |- Forall _ [] => constructor
    | |- Forall _ _ => assumption
    end.

(** The [catch] of the mint moves nothing on the ledger. *)
Lemma mintFailed_funds key s buyer e w r w' t :
  run (poll.mintFailed key s buyer e) w = (r, w', t) ->
  nfts w' = nfts w /\ usdc w' = usdc w /\ lamports w' = lamports w /\
  Forall (fun o => is_transfer o = false) t.
Proof.
  rewrite run_mintFailed. cbv zeta.
  destruct (rpcFault w _); intros [= _ <- <-]; repeat split; repeat constructor.
Qed.

(** From the write of [minting] on: either an asset was created, or
    nothing on the ledger moved. *)
Lemma confirmed_funds key s kp w r w' t :
  run (poll.confirmed key s kp) w = (r, w', t) ->
  (exists x, nfts w' = nfts w ++ [x]) \/
  (nfts w' = nfts w /\ usdc w' = usdc w /\ lamports w' = lamports w /\
   Forall (fun o => is_transfer o = false) t).
Proof.
  assert (Hdet : forall w0 pk,
            Forall (fun o => is_transfer o = false) (detectionTrace w0 pk)).
  { intros w0 pk. unfold detectionTrace.
    destruct (run (solana.findUsdcSender pk) w0) as [[rd wd] td] eqn:Hd.
    exact (allOps_run _ _ _ _ _ _ (free_findUsdcSender_transfer _) Hd). }
  rewrite run_confirmed_cases. cbv zeta.
  destruct (rpcFault w (RedisSet key (VSession (set_status Minting s)) 3600)).
  { intros [= _ <- <-]. right. repeat split. repeat constructor. }
  destruct (rpcFault w (RedisSet key (VSession (sessionAtMint key s kp w)) 3600)).
  { intros [= _ <- <-]. right. repeat split.
    constructor; [reflexivity|]. apply Forall_app_2; [apply Hdet | repeat constructor]. }
  rewrite run_mintStep_cases.
  destruct (run (poll.mintNft _ _) _) as [[[m | e] w3] t3] eqn:Hmint;
    destruct (mintNft_ledger _ _ _ _ _ _ Hmint) as (Hu & Hl & Hn).
  - cbv zeta. destruct Hn as [x Hn].
    destruct (rpcFault w3 (RedisSet key _ 86400)).
    + rewrite run_mintFailed. cbv zeta.
      destruct (rpcFault w3 _); intros [= _ <- _]; left; exists x; exact Hn.
    + destruct (run (poll.sweepStep _ _ _) _) as [[r4 w4] t4] eqn:Hsweep.
      intros [= _ <- _]. left. exists x.
      rewrite (run_nfts _ _ _ _ _ (free_sweepStep_mint _ _ _) Hsweep). exact Hn.
  - pose proof (allOps_run _ _ _ _ _ _ (free_mintNft_transfer _ _) Hmint) as Ht3.
    rewrite run_mintFailed. cbv zeta.
    destruct (rpcFault w3 _); intros [= _ <- <-]; right;
      (split; [exact Hn|]); (split; [exact Hu|]); (split; [exact Hl|]);
      unfold traceToMint; cbv zeta;
      repeat match goal with
        | |- Forall _ (_ :: _) => constructor; [reflexivity|]
        | |- Forall _ (_ ++ _) => apply Forall_app_2
        | |- Forall _ [] => constructor
        | |- Forall _ (detectionTrace _ _) => apply Hdet
        | |- Forall _ _ => assumption
        end.
Qed.

Lemma poll_funds (sessionId : string) (test : option string) (w w' : World)
    (r : Outcome poll.Response) (t : list Op) :
  sessionId <> "" ->
  run (poll.handler (pollRequest sessionId test)) w = (r, w', t) ->
  (exists x, nfts w' = nfts w ++ [x]) \/
  (nfts w' = nfts w /\ usdc w' = usdc w /\ lamports w' = lamports w /\
   Forall (fun o => is_transfer o = false) t).
Proof.
  intros Hne. rewrite (run_handler _ _ _ Hne).
  destruct (rpcFault w (RedisGetJson (poll.sessionKey sessionId))) as [e|] eqn:Hload.
  { rewrite (run_poll_fault _ _ _ _ Hload). intros [= _ <- <-].
    right. repeat split; repeat constructor. }
  rewrite (run_poll _ _ _ Hload). cbv zeta.
  destruct (getJson_result _) as [[s | str | n]|].
  - destruct (bool_decide (status s = Minting)).
    { intros [= _ <- <-]. right. repeat split; repeat constructor. }
    destruct (bool_decide (status s = Minted)).
    { intros [= _ <- <-]. right. repeat split; repeat constructor. }
    destruct (now w >? expiresAt s).
    { intros [= _ <- <-]. right. repeat split; repeat constructor. }
    destruct (connectionFailure w).
    { intros [= _ <- <-]. right. repeat split; repeat constructor. }
    destruct (masterSecret w) as [phrase|].
    + destruct (bool_decide (test = Some "true")).
      * destruct (run (poll.confirmed _ _ _) w) as [[r0 w1] t0] eqn:Hc.
        intros Hrun.
        destruct (confirmed_funds _ _ _ _ _ _ _ Hc) as [Hx | (Hn & Hu & Hl & Ht0)];
          destruct r0; injection Hrun as _ <- <-;
          first [left; exact Hx | right; repeat (split; [assumption|]); transferless].
      * destruct (_ <? solana.REQUIRED_USDC).
        { intros [= _ <- <-]. right. repeat split; repeat constructor. }
        destruct (run (poll.confirmed _ _ _) w) as [[r0 w1] t0] eqn:Hc.
        intros Hrun.
        destruct (confirmed_funds _ _ _ _ _ _ _ Hc) as [Hx | (Hn & Hu & Hl & Ht0)];
          destruct r0; injection Hrun as _ <- <-;
          first [left; exact Hx | right; repeat (split; [assumption|]); transferless].
    + intros [= _ <- <-]. right. repeat split; repeat constructor.
  - destruct (connectionFailure w); intros [= _ <- <-]; right;
      repeat split; repeat constructor.
  - destruct n; [|destruct (connectionFailure w)..]; intros [= _ <- <-]; right;
      repeat split; repeat constructor.
  - intros [= _ <- <-]. right. repeat split; repeat constructor.
Qed.

(** X17. A poll moves funds only for an asset it has minted. In any run of
    the poll handler at most one mint and at most two transactions are
    submitted; and unless the run has added an asset to the ledger, it has
    submitted no transaction at all and every token and lamport balance is
    what it was: neither a failed mint nor a pending, expired, unknown or
    refused poll takes anything out of the escrow. *)
Theorem poll_moves_funds_only_after_mint (req : poll.Request) (w w' : World)
    (r : Outcome poll.Response) (t : list Op) :
  run (poll.handler req) w = (r, w', t) ->
  (mintSubmissions t <= 1)%nat /\ (transfers t <= 2)%nat /\
  ((exists x, nfts w' = nfts w ++ [x]) \/ nfts w' = nfts w) /\
  (nfts w' = nfts w ->
   transfers t = 0%nat /\ mintSubmissions t <= 1 /\
   Forall (fun o => is_transfer o = false) t /\
   usdc w' = usdc w /\ lamports w' = lamports w)%nat.
Proof.
  intros Hrun.
  assert (Hm : (mintSubmissions t <= 1)%nat).
  { refine (bounded_run is_mint_submission 1 _ _ _ _ _ _ Hrun).
    apply bounded_poll_handler; [|apply mints_confirmed].
    intros o Ho. destruct o; try reflexivity; contradiction. }
  assert (Ht : (transfers t <= 2)%nat).
  { refine (bounded_run is_transfer 2 _ _ _ _ _ _ Hrun).
    apply bounded_poll_handler; [|apply transfers_confirmed].
    intros o Ho. destruct o; try reflexivity; contradiction. }
  split; [exact Hm|]. split; [exact Ht|].
  assert (Hf : (exists x, nfts w' = nfts w ++ [x]) \/
               (nfts w' = nfts w /\ usdc w' = usdc w /\ lamports w' = lamports w /\
                Forall (fun o => is_transfer o = false) t)).
  { destruct (poll_request_cases req w) as [(response & Hr & _) | (sid & Hsid & Hreq)].
    - rewrite Hr in Hrun. injection Hrun as _ <- <-. right. repeat split. constructor.
    - rewrite Hreq in Hrun. exact (poll_funds _ _ _ _ _ _ Hsid Hrun). }
  split.
  - destruct Hf as [Hx | (Hn & _)]; [left; exact Hx | right; exact Hn].
  - intros Hsame. destruct Hf as [[x Hx] | (_ & Hu & Hl & Hall)].
    + rewrite Hx in Hsame. now apply app_one_ne in Hsame.
    + split; [|repeat (split; [assumption|]); assumption].
      unfold transfers. clear -Hall. induction Hall as [|o l Ho _ IH]; [reflexivity|].
      rewrite filter_cons_False by (rewrite Ho; discriminate). exact IH.
Qed.

(** The funding block of the session handler, by what the ledger answers. *)
Lemma run_fund (master kp : Keypair) (w : World) :
  run (session.fund master kp) w =
  match exec (fundingTx master (publicKey kp)) w with
  | (Thrown e, wa) => (Thrown e, wa, [fundingTx master (publicKey kp)])
  | (Ok _, wa) =>
      match exec (ataInit master (publicKey kp)) wa with
      | (Ok _, wb) =>
          (Ok tt, wb, [fundingTx master (publicKey kp); ataInit master (publicKey kp)])
      | (Thrown e, wb) =>
          (Thrown e, wb, [fundingTx master (publicKey kp); ataInit master (publicKey kp)])
      end
  end.
Proof.
  unfold session.fund, solana.fundDerivedWallet, solana.initUsdcAta, fundingTx, ataInit.
  rewrite !run_bind, run_call.
  destruct (exec _ w) as [[sig | e] wa]; [|reflexivity].
  rewrite run_Ret. cbv beta iota. rewrite !run_bind, run_call.
  destruct (exec _ wa) as [[ata | e] wb]; [|reflexivity].
  rewrite !run_Ret. reflexivity.
Qed.

Lemma exec_fundingTx_Ok (master : Keypair) (a : string) (w wa : World) (sig : string) :
  exec (fundingTx master a) w = (Ok sig, wa) ->
  wa = with_lamports (move (publicKey master) a 3000000) w.
Proof.
  unfold fundingTx, exec. cbn [external perform].
  destruct (rpcFault w _); [discriminate|].
  unfold submit. change solana.ATA_INIT_LAMPORTS with 3000000.
  destruct (_ <? 3000000); [discriminate|]. now intros [= _ <-].
Qed.

Lemma exec_ataInit_Ok (master : Keypair) (a : string) (w wb : World) (ata : string) :
  exec (ataInit master a) w = (Ok ata, wb) ->
  match usdc w !! getAssociatedTokenAddress solana.USDC_MINT a with
  | Some _ => wb = w
  | None =>
      accountRent w <= balanceIn (lamports w) (publicKey master) /\
      wb = with_usdc (insert (getAssociatedTokenAddress solana.USDC_MINT a) 0)
             (with_lamports
                (insert (publicKey master)
                   (balanceIn (lamports w) (publicKey master) - accountRent w)) w)
  end.
Proof.
  unfold ataInit, exec. cbn [external perform].
  destruct (rpcFault w _); [discriminate|]. cbv zeta.
  destruct (usdc w !! _); [now intros [= _ <-]|].
  destruct (Z.ltb_spec (balanceIn (lamports w) (publicKey master)) (accountRent w));
    [discriminate|].
  intros [= _ <-]. split; [assumption | reflexivity].
Qed.

(** X18. What a creation does on the ledger.  A creation that answers with
    a session calls [sendAndConfirmTransaction] exactly once: for 3,000,000
    lamports from the master key to the payment address it returns, signed
    by the master key, after the two records are stored and the connection
    is built.  When that transfer fails nothing else is tried and no balance
    has changed.  When it went through, the handler asks for the token
    account of the payment address with the master key as payer: if the
    account is there nothing more moves; if it is not, the request creates
    it by a transaction of its own, which costs the master the rent of the
    account on top of the 3,000,000; if the request fails, the 3,000,000
    stay with the payment address.  A creation never mints. *)
Theorem creation_funds_escrow_from_master (req : session.Request) (w w' : World)
    (t : list Op) (sid addr : string) (required expires : Z) :
  run (session.handler req) w =
    (Ok (session.mkResponse 200 (session.JCreated sid addr required expires)), w', t) ->
  exists phrase before after,
    masterSecret w = Some phrase /\
    let master := keypairAt phrase 0 in
    let ata := getAssociatedTokenAddress solana.USDC_MINT addr in
    let funded := move (publicKey master) addr 3000000 (lamports w) in
    t = before ++ fundingTx master addr :: after /\
    fundingTx master addr =
      SendAndConfirmTransaction (SystemTransfer (publicKey master) addr 3000000)
        (publicKey master) /\
    ataInit master addr =
      GetOrCreateAssociatedTokenAccount (publicKey master) solana.USDC_MINT addr /\
    Forall keepsLedger before /\
    (exists start ex,
       before = start ++ [RedisSet ("address:" +:+ addr) (VString sid) ex;
                          GetEnv "SOLANA_RPC_URL"]) /\
    (after = [ConsoleError "ATA init error:"] /\
       usdc w' = usdc w /\ lamports w' = lamports w \/
     after = [ataInit master addr; ConsoleError "ATA init error:"] /\
       usdc w' = usdc w /\ lamports w' = funded \/
     after = [ataInit master addr] /\ is_Some (usdc w !! ata) /\
       usdc w' = usdc w /\ lamports w' = funded \/
     after = [ataInit master addr] /\ usdc w !! ata = None /\
       usdc w' = <[ata := 0]> (usdc w) /\
       accountRent w <= balanceIn funded (publicKey master) /\
       lamports w' =
         <[publicKey master := balanceIn funded (publicKey master) - accountRent w]> funded) /\
    transfers t = 1%nat /\ mintSubmissions t = 0%nat /\ nfts w' = nfts w.
Proof.
  intros Hrun.
  destruct (created_request _ _ _ _ _ _ _ _ Hrun) as (ot & md & Hot & ->).
  destruct (created_index _ _ _ _ _ _ _ _ _ Hot Hrun)
    as (phrase & idx & w1 & Hsec & Hincr & Hgo).
  rewrite (run_create _ _ _ _ _ _ Hot Hsec Hincr Hgo) in Hrun. cbv zeta in Hrun.
  rewrite run_fund in Hrun.
  destruct (exec_RedisIncr_Ok _ _ _ _ Hincr) as (ttl & -> & _).
  exists phrase.
  match type of Hrun with
  | context [exec (fundingTx ?m ?a) ?w2] =>
      destruct (exec (fundingTx m a) w2) as [[sig | e] wa] eqn:Hfund
  end.
  - match type of Hfund with exec _ ?w0 = _ => set (w2 := w0) in * end.
    pose proof (exec_fundingTx_Ok _ _ _ _ _ Hfund) as Hwa.
    match type of Hrun with
    | context [exec (ataInit ?m ?a) wa] =>
        destruct (exec (ataInit m a) wa) as [[ata | e] wb] eqn:Hinit
    end.
    + pose proof (exec_ataInit_Ok _ _ _ _ _ Hinit) as Hwb.
      injection Hrun as Hsid Haddr Hreq Hexp Hw Ht; subst sid addr required expires w' t.
      eexists [_; _; _; _; _; _; _; _; _], _. split; [exact Hsec|]. cbv zeta.
      split; [reflexivity|]. split; [reflexivity|]. split; [reflexivity|].
      split; [repeat constructor|].
      split; [eexists [_; _; _; _; _; _; _], _; reflexivity|].
      split.
      { right. right. rewrite Hwa in Hwb.
        pose (a := getAssociatedTokenAddress solana.USDC_MINT
                     (publicKey (keypairAt phrase (1000 + idx)))).
        change (match usdc w !! a with
                | Some _ => wb = with_lamports (move (publicKey (keypairAt phrase 0))
                                  (publicKey (keypairAt phrase (1000 + idx))) 3000000) w2
                | None => accountRent w <=
                          balanceIn (move (publicKey (keypairAt phrase 0))
                                       (publicKey (keypairAt phrase (1000 + idx))) 3000000
                                       (lamports w)) (publicKey (keypairAt phrase 0)) /\
                    wb = with_usdc (insert a 0)
                           (with_lamports
                              (insert (publicKey (keypairAt phrase 0))
                                 (balanceIn (move (publicKey (keypairAt phrase 0))
                                               (publicKey (keypairAt phrase (1000 + idx)))
                                               3000000 (lamports w))
                                    (publicKey (keypairAt phrase 0)) - accountRent w))
                              (with_lamports (move (publicKey (keypairAt phrase 0))
                                  (publicKey (keypairAt phrase (1000 + idx))) 3000000) w2))
                end) in Hwb.
        change (getAssociatedTokenAddress solana.USDC_MINT _) with a.
        destruct (usdc w !! a) as [x|] eqn:Hata.
        - left. subst wb wa. split; [reflexivity|]. split; [eauto|]. split; reflexivity.
        - right. destruct Hwb as [Hrent ->]. subst wa.
          split; [reflexivity|]. split; [reflexivity|]. split; [reflexivity|].
          split; [exact Hrent | reflexivity]. }
      split; [reflexivity|]. split; [reflexivity|].
      rewrite (exec_nfts_eq _ _ _ _ Hinit eq_refl), (exec_nfts_eq _ _ _ _ Hfund eq_refl).
      reflexivity.
    + apply exec_Thrown_world in Hinit. subst wb.
      injection Hrun as Hsid Haddr Hreq Hexp Hw Ht; subst sid addr required expires w' t.
      eexists [_; _; _; _; _; _; _; _; _], _. split; [exact Hsec|]. cbv zeta.
      split; [reflexivity|]. split; [reflexivity|]. split; [reflexivity|].
      split; [repeat constructor|].
      split; [eexists [_; _; _; _; _; _; _], _; reflexivity|].
      split; [right; left; subst wa; repeat split|].
      split; [reflexivity|]. split; [reflexivity|].
      rewrite (exec_nfts_eq _ _ _ _ Hfund eq_refl). reflexivity.
  - injection Hrun as Hsid Haddr Hreq Hexp Hw Ht; subst sid addr required expires w' t.
    apply exec_Thrown_world in Hfund. subst wa.
    eexists [_; _; _; _; _; _; _; _; _], _. split; [exact Hsec|]. cbv zeta.
    split; [reflexivity|]. split; [reflexivity|]. split; [reflexivity|].
    split; [repeat constructor|].
    split; [eexists [_; _; _; _; _; _; _], _; reflexivity|].
    split; [left; repeat split|].
    split; [reflexivity|]. split; reflexivity.
Qed.
End funds.

(** ** Sender detection when reads fail *)

Section detection.
Context `{SolanaPrimitives}.

(** A sender the scan returns is the one a scan without failures finds. *)
Lemma scanSignatures_found (receiver : string) (sigs : list string) (w w' : World)
    (r : Outcome (option string)) (t : list Op) (sender : string) :
  run (solana.scanSignatures receiver sigs) w = (r, w', t) ->
  r = Ok (Some sender) ->
  firstSender w receiver sigs = Some sender.
Proof.
  revert r w' t. induction sigs as [|sig rest IH]; intros r w' t.
  - simpl. intros [= <- _ _]. discriminate.
  - rewrite scanSignatures_cons, run_bind, run_call, exec_GetTransaction.
    destruct (rpcFault w (GetTransaction sig)); [intros [= <- _ _]; discriminate|].
    cbv beta iota. simpl firstSender.
    destruct (transactions w !! sig) as [meta|].
    + destruct (solana.scanPreBalances _ _ _) as [found|].
      * rewrite run_Ret. intros [= <- _ _]. now intros [= ->].
      * destruct (run (solana.scanSignatures receiver rest) w) as [[r1 w1] t1].
        intros [= <- _ _] Hr. exact (IH _ _ _ eq_refl Hr).
    + destruct (run (solana.scanSignatures receiver rest) w) as [[r1 w1] t1].
      intros [= <- _ _] Hr. exact (IH _ _ _ eq_refl Hr).
Qed.

Lemma detectedBuyer_found (w : World) (receiver sender : string) :
  detectedBuyer w receiver = Some sender ->
  firstSender w receiver (scannedWindow w receiver) = Some sender.
Proof.
  unfold detectedBuyer, solana.findUsdcSender, scannedWindow.
  rewrite run_tryCatch, run_bind, run_call, exec_GetSignaturesForAddress.
  destruct (rpcFault w (GetSignaturesForAddress _ _)).
  { rewrite run_bind, run_ConsoleError. cbv beta iota. rewrite run_Ret. discriminate. }
  cbv beta iota.
  destruct (run (solana.scanSignatures receiver _) w) as [[[found | e] w1] t1] eqn:Hscan.
  - intros ->. exact (scanSignatures_found _ _ _ _ _ _ _ Hscan eq_refl).
  - destruct (run_scanSignatures_reads receiver
                (take 10 (default [] (signatures w !! getAssociatedTokenAddress
                                        solana.USDC_MINT receiver))) w)
      as (r0 & t0 & Hr0 & _).
    rewrite Hr0 in Hscan. injection Hscan as _ <- _.
    rewrite run_bind, run_ConsoleError. cbv beta iota. rewrite run_Ret. discriminate.
Qed.

(** X19. Failing reads never make up a buyer. Whatever the ledger does,
    a sender that [findUsdcSender] returns is the sender of the newest
    scanned transaction that has one (the result a scan without failures
    gives), it owns a USDC account that the transaction decreased, and it is
    never the receiving escrow itself. When the signatures cannot be read,
    or the newest transaction cannot be read, the result is null, though an
    older transaction may show a sender. *)
Theorem detected_buyer_is_newest_sender (w : World) (receiver : string) :
  let ata := getAssociatedTokenAddress solana.USDC_MINT receiver in
  (forall sender, detectedBuyer w receiver = Some sender ->
     sender <> receiver /\
     firstSender w receiver (scannedWindow w receiver) = Some sender /\
     exists sig meta pre,
       In sig (scannedWindow w receiver) /\ transactions w !! sig = Some meta /\
       sentFrom receiver meta pre /\ owner pre = sender) /\
  (forall e, rpcFault w (GetSignaturesForAddress ata 10) = Some e ->
     run (solana.findUsdcSender receiver) w =
       (Ok None, w,
        [GetSignaturesForAddress ata 10; ConsoleError "findUsdcSender error:"])) /\
  (forall sig rest e,
     rpcFault w (GetSignaturesForAddress ata 10) = None ->
     scannedWindow w receiver = sig :: rest ->
     rpcFault w (GetTransaction sig) = Some e ->
     run (solana.findUsdcSender receiver) w =
       (Ok None, w,
        [GetSignaturesForAddress ata 10; GetTransaction sig;
         ConsoleError "findUsdcSender error:"])).
Proof.
  intros ata. split; [|split].
  - intros sender Hd. pose proof (detectedBuyer_found _ _ _ Hd) as Hf.
    destruct (firstSender_Some _ _ _ _ Hf) as (i & sig & meta & pre & Hi & Htx & Hsent & Ho & _).
    split.
    { rewrite <- Ho. destruct Hsent as (_ & _ & _ & Hne). exact Hne. }
    split; [exact Hf|]. exists sig, meta, pre.
    split; [|split; [exact Htx | split; [exact Hsent | exact Ho]]].
    apply list_elem_of_In. eapply list_elem_of_lookup_2. exact Hi.
  - intros e He. unfold solana.findUsdcSender.
    rewrite run_tryCatch, run_bind, run_call, exec_GetSignaturesForAddress.
    fold ata. rewrite He. rewrite run_bind, run_ConsoleError. cbv beta iota.
    rewrite run_Ret. reflexivity.
  - intros sig rest e Hs Hwin He. unfold solana.findUsdcSender.
    rewrite run_tryCatch, run_bind, run_call, exec_GetSignaturesForAddress.
    fold ata. rewrite Hs. cbv beta iota.
    unfold scannedWindow in Hwin. fold ata in Hwin. rewrite Hwin.
    rewrite scanSignatures_cons, run_bind, run_call, exec_GetTransaction, He.
    rewrite run_bind, run_ConsoleError. cbv beta iota. rewrite run_Ret. reflexivity.
Qed.
End detection.

(** ** The health endpoint *)

Section health_endpoint.
Context `{SolanaPrimitives}.

Lemma configured_spec (w : World) (name : string) :
  health.configured w name = true <-> exists v, env w !! name = Some v /\ v <> "".
Proof.
  unfold health.configured. destruct (env w !! name) as [[|c v]|]; simpl; split.
  - discriminate.
  - intros (v & [= <-] & Hv). now contradiction Hv.
  - intros _. eexists. split; [reflexivity | discriminate].
  - reflexivity.
  - discriminate.
  - intros (v & Hv & _). discriminate Hv.
Qed.

(** X20. The health endpoint answers 200 [ok] exactly when the six
    variables it looks at are set and non-empty, and 500 [degraded]
    otherwise. The Redis ping decides the [redis] field only: it is
    [connected] exactly when the ping goes through and has no part in the
    status code. The handler leaves one key behind, [health-ping], so no
    session, address index or counter is touched. [PINATA_JWT] is not among
    the variables looked at: with it missing or blank the endpoint can
    answer [ok] while [mintNft] throws before it mints. *)
Theorem health_reports_configuration_only (ping : health.Ping) (w : World) :
  let response := fst (health.handler ping w) in
  let w' := snd (health.handler ping w) in
  (health.code response = 200 <->
   forall name, In name health.checked -> exists v, env w !! name = Some v /\ v <> "") /\
  (health.code response = 200 /\ health.status response = "ok" \/
   health.code response = 500 /\ health.status response = "degraded") /\
  health.code response = health.code (fst (health.handler health.Answers w)) /\
  (health.redis response = "connected" <-> ping = health.Answers) /\
  (forall key, key <> health.pingKey -> store w' !! key = store w !! key) /\
  (forall id, storedSession w' id = storedSession w id) /\
  counterValue w' = counterValue w /\
  (health.code response = 200 ->
   blank (default "" (env w !! "PINATA_JWT")) = true ->
   forall s buyer,
     run (poll.mintNft s buyer) w =
       (Thrown "PINATA_JWT not configured", w,
        [GetEnv "MASTER_SEED_PHRASE"; GetEnv "PINATA_JWT"])).
Proof.
  cbv zeta.
  assert (Hcode : forall p,
            health.code (fst (health.handler p w)) =
            if health.every
                 (health.mkChecks (health.configured w "MASTER_SEED_PHRASE")
                    (health.configured w "SOLANA_RPC_URL")
                    (health.configured w "NFT_STORAGE_KEY")
                    (health.configured w "PERSONAL_WALLET_PUBLIC_KEY")
                    (health.configured w "dayafterday_KV_REST_API_URL")
                    (health.configured w "dayafterday_KV_REST_API_TOKEN"))
            then 200 else 500).
  { intros p. unfold health.handler. cbv zeta. destruct p; reflexivity. }
  assert (Hall : health.every
                   (health.mkChecks (health.configured w "MASTER_SEED_PHRASE")
                      (health.configured w "SOLANA_RPC_URL")
                      (health.configured w "NFT_STORAGE_KEY")
                      (health.configured w "PERSONAL_WALLET_PUBLIC_KEY")
                      (health.configured w "dayafterday_KV_REST_API_URL")
                      (health.configured w "dayafterday_KV_REST_API_TOKEN")) = true <->
                 forall name, In name health.checked ->
                   exists v, env w !! name = Some v /\ v <> "").
  { unfold health.every. cbn [health.seedPhrase health.solanaRpc health.nftStorage
                             health.personalWallet health.upstashUrl health.upstashToken].
    rewrite !andb_true_iff, !configured_spec. split.
    - intros (((((H1 & H2) & H3) & H4) & H5) & H6) name Hin.
      repeat (destruct Hin as [<- | Hin]; [assumption|]). destruct Hin.
    - intros Hin. repeat split; apply Hin; simpl; tauto. }
  assert (Hframe : forall key, key <> health.pingKey ->
            store (snd (health.handler ping w)) !! key = store w !! key).
  { intros key Hkey. unfold health.handler. cbv zeta.
    destruct ping; simpl; rewrite ?lookup_insert_ne by (intros Heq; now apply Hkey);
      reflexivity. }
  split.
  { rewrite Hcode, <- Hall. destruct (health.every _); split; first [reflexivity | discriminate]. }
  split.
  { unfold health.handler. cbv zeta. destruct (health.every _); destruct ping; simpl; auto. }
  split; [now rewrite !Hcode|].
  split.
  { unfold health.handler. cbv zeta. destruct ping; simpl.
    - rewrite lookup_insert_eq. simpl. split; reflexivity.
    - split; discriminate.
    - split; discriminate. }
  split; [exact Hframe|].
  split.
  { intros id. unfold storedSession. rewrite Hframe; [reflexivity | discriminate]. }
  split.
  { unfold counterValue. rewrite Hframe; [reflexivity | discriminate]. }
  rewrite Hcode. intros Hok Hblank s buyer.
  assert (Hsec : exists phrase, masterSecret w = Some phrase).
  { destruct (health.every _) eqn:Hev; [|discriminate].
    destruct (proj1 Hall eq_refl "MASTER_SEED_PHRASE") as (v & Hv & Hne); [simpl; tauto|].
    exists v. unfold masterSecret. rewrite Hv. destruct v; [now contradiction Hne | reflexivity]. }
  destruct Hsec as [phrase Hsec].
  rewrite (run_mintNft _ _ _ _ Hsec). cbv zeta. rewrite Hblank. reflexivity.
Qed.
End health_endpoint.

(** ** The further properties on concrete worlds *)

Section further_scenarios.
Local Existing Instance demoPrimitives.

Local Ltac concrete :=
  vm_compute; first [reflexivity | discriminate | intros; discriminate].


(** The mint of the demo session for the buyer. *)
Lemma mintNft_mints_once_to_buyer_or_master_witness :
  let w := demoWorld Pending 2000 2250000 noFault in
  let r := run (poll.mintNft demoSession (Some "buyer")) w in
  nfts (snd (fst r)) =
    [("mint0", "https://gateway.pinata.cloud/ipfs/QmHash", "buyer")] /\
  (mintSubmissions (snd r) <= 1)%nat /\
  store (snd (fst r)) = store w.
Proof.
  intros w r.
  destruct (mintNft_mints_once_to_buyer_or_master demoSession (Some "buyer") w
              (snd (fst r)) (fst (fst r)) (snd r))
    as (Hstore & _ & _ & Hcount & Hok).
  { vm_compute. reflexivity. }
  destruct (Hok (poll.mkMintResult "mint0" "5ig" "https://gateway.pinata.cloud/ipfs/QmHash"))
    as (phrase & hash & _ & _ & _ & _ & _ & _ & Hnfts & Hbuyer & _).
  { vm_compute. reflexivity. }
  split; [|split; [exact Hcount | exact Hstore]].
  rewrite Hnfts, (Hbuyer eq_refl). reflexivity.
Defined.

(** A minted session long past its expiry is still answered [minted]. *)
Lemma poll_guards_come_first_witness :
  let w := demoWorld Minted 5000000 2250000 noFault in
  now w > expiresAt demoSession /\
  run (poll.handler (pollRequest demoId (Some "true"))) w =
    (Ok (poll.mkResponse 200 (poll.JMintedStored None None)), w,
     [RedisGetJson (poll.sessionKey demoId)]).
Proof.
  intros w. split; [reflexivity|].
  refine (poll_guards_come_first w demoId (Some "true") (set_status Minted demoSession)
            _ eq_refl eq_refl _).
  - concrete.
  - right. reflexivity.
Defined.

(** The demo session in a world whose environment has the endpoint and no
    master secret, and in a world with an empty environment. *)
Lemma poll_without_master_secret_witness :
  (let w := demoEnvWorld demoNoSecret in
   run (poll.handler (pollRequest demoId None)) w =
     (Ok (poll.mkResponse 500 (poll.JError "MASTER_SEED_PHRASE not configured")), w,
      [RedisGetJson (poll.sessionKey demoId); DateNow; GetEnv "SOLANA_RPC_URL";
       GetEnv "MASTER_SEED_PHRASE"; ConsoleError "Poll error:"])) /\
  (let w := demoEnvWorld ∅ in
   run (poll.handler (pollRequest demoId None)) w =
     (Ok (poll.mkResponse 500
            (poll.JError "Endpoint URL must start with `http:` or `https:`.")), w,
      [RedisGetJson (poll.sessionKey demoId); DateNow; GetEnv "SOLANA_RPC_URL";
       ConsoleError "Poll error:"])).
Proof.
  split; intros w.
  - refine (proj1 (poll_without_master_secret w demoId None demoSession
                     _ eq_refl eq_refl _ _ _) _ _).
    + concrete.
    + discriminate.
    + discriminate.
    + concrete.
    + vm_compute. reflexivity.
    + reflexivity.
  - refine (proj1 (proj2 (poll_without_master_secret w demoId None demoSession
                            _ eq_refl eq_refl _ _ _)) _ _).
    + concrete.
    + discriminate.
    + discriminate.
    + concrete.
    + reflexivity.
Defined.

(** The escrow account holds the payment, but its read is refused. *)
Lemma poll_read_failure_is_no_payment_witness :
  let w := demoWorld Pending 2000 2250000 accountFault in
  usdc w !! demoAta = Some 2250000 /\
  run (poll.handler (pollRequest demoId None)) w =
    (Ok (poll.mkResponse 200 (poll.JPending (publicKey demoEscrow) 2250000 0)), w,
     [RedisGetJson (poll.sessionKey demoId); DateNow; GetEnv "SOLANA_RPC_URL";
      GetEnv "MASTER_SEED_PHRASE"; GetAccount demoAta]).
Proof.
  intros w. split; [reflexivity|].
  refine (poll_read_failure_is_no_payment w demoId None demoSession demoPhrase
            "429 Too Many Requests" _ eq_refl eq_refl _ _ _ _ eq_refl _ eq_refl).
  - concrete.
  - discriminate.
  - discriminate.
  - concrete.
  - vm_compute. reflexivity.
  - discriminate.
Defined.

(** A poll that mints and sweeps leaves counter and other keys alone. *)
Lemma poll_confined_to_its_record_witness :
  let w := demoWorld Pending 2000 2250000 noFault in
  let r := run (poll.handler (pollRequest demoId None)) w in
  Forall (writesOnly (poll.sessionKey demoId)) (snd r) /\
  counterValue (snd (fst r)) = counterValue w /\
  store (snd (fst r)) !! session.counterKey = store w !! session.counterKey.
Proof.
  intros w r.
  destruct (poll_confined_to_its_record (pollRequest demoId None) w
              (snd (fst r)) (fst (fst r)) (snd r)) as [_ Hsome].
  { vm_compute. reflexivity. }
  destruct (Hsome demoId eq_refl) as (Hw & Hframe & Hc).
  split; [exact Hw|]. split; [exact Hc|].
  apply Hframe. discriminate.
Defined.

(** The same poll takes the demo session from [pending] to [swept].  When
    the store refuses the write of the buyer, the poll answers 500 and the
    record stays [minting] for an hour. *)
Lemma poll_transition_witness :
  (let w := demoWorld Pending 2000 2250000 noFault in
   let r := run (poll.handler (pollRequest demoId None)) w in
   exists s',
     storedSession (snd (fst r)) demoId = Some s' /\
     status s' = Swept /\
     sameIdentity demoSession s') /\
  (let w := demoWorld Pending 2000 2250000 buyerWriteFault in
   let r := run (poll.handler (pollRequest demoId None)) w in
   exists s',
     storedSession (snd (fst r)) demoId = Some s' /\
     status s' = Minting /\
     store (snd (fst r)) !! poll.sessionKey demoId = Some (VSession s', Some 3600) /\
     writeFailed w (snd r) /\
     sameIdentity demoSession s').
Proof.
  split; intros w r.
  - destruct (poll_transition demoId None w (snd (fst r)) (fst (fst r)) (snd r) demoSession)
      as (s' & Hst & _ & Hsame & _).
    { concrete. }
    { reflexivity. }
    { vm_compute. reflexivity. }
    exists s'. split; [exact Hst|]. split; [|exact Hsame].
    assert (Hst' : storedSession (snd (fst r)) demoId = Some demoSwept)
      by (vm_compute; reflexivity).
    rewrite Hst in Hst'. injection Hst' as ->. reflexivity.
  - destruct (poll_transition demoId None w (snd (fst r)) (fst (fst r)) (snd r) demoSession)
      as (s' & Hst & Hcase & Hsame & _ & _ & Hleft).
    { concrete. }
    { reflexivity. }
    { vm_compute. reflexivity. }
    assert (Hst' : storedSession (snd (fst r)) demoId =
                   Some (set_status Minting demoSession))
      by (vm_compute; reflexivity).
    rewrite Hst in Hst'. injection Hst' as ->.
    exists (set_status Minting demoSession).
    split; [exact Hst|]. split; [reflexivity|].
    split; [vm_compute; reflexivity|].
    split; [apply Hleft; [discriminate | reflexivity] | exact Hsame].
Defined.

(** Payment received, mint and sweep go through.  And the same with the
    test parameter while every read of a token account is refused: the
    record says [swept] with no sweep signature, and the escrow account still
    holds the payment. *)
Lemma mint_and_sweep_success_witness :
  (let w := demoWorld Pending 2000 2250000 noFault in
   exists w' t after buyer,
     run (poll.handler (pollRequest demoId None)) w =
       (Ok (poll.mkResponse 200 (poll.JMinted (Some "mint0") (Some "5ig") buyer)), w', t) /\
     store w' !! poll.sessionKey demoId = Some (VSession after, Some 86400) /\
     status after = Swept /\ sweepSignature after <> None) /\
  (let w := demoWorld Pending 2000 2250000 accountFault in
   exists w' t after buyer,
     run (poll.handler (pollRequest demoId (Some "true"))) w =
       (Ok (poll.mkResponse 200 (poll.JMinted (Some "mint0") (Some "5ig") buyer)), w', t) /\
     store w' !! poll.sessionKey demoId = Some (VSession after, Some 86400) /\
     status after = Swept /\ sweepSignature after = None /\
     usdc w' !! demoAta = Some 2250000).
Proof.
  pose (key := poll.sessionKey demoId).
  pose (kp := keypairAt demoPhrase (1000 + sessionIndex demoSession)).
  pose (m := poll.mkMintResult "mint0" "5ig" "https://gateway.pinata.cloud/ipfs/QmHash").
  split; intros w.
  - assert (Hdue : mintDue w demoId None demoSession demoPhrase).
    { apply demo_mintDue; [lia | intros o _; reflexivity | reflexivity | lia]. }
    pose (atMint := sessionAtMint key demoSession kp w).
    pose (mint := run (poll.mintNft atMint (buyerWallet atMint))
                    (worldAtMint key demoSession kp w)).
    pose (sweep := run (poll.sweepBody key (mintedSession m atMint) kp)
                     (stored key (mintedSession m atMint) 86400 (snd (fst mint)))).
    destruct (mint_and_sweep_success w demoId None demoSession demoPhrase m
                (snd (fst mint)) (snd mint) (snd (fst sweep)) (snd sweep) Hdue)
      as (sig & t & Hrun & Hstore & _ & Hnone & _).
    { vm_compute. reflexivity. }
    { vm_compute. reflexivity. }
    eexists _, t, _, _. split; [exact Hrun|].
    split; [exact Hstore|]. split; [reflexivity|].
    intros Hs. apply Hnone in Hs. vm_compute in Hs. discriminate Hs.
  - assert (Hdue : mintDue w demoId (Some "true") demoSession demoPhrase).
    { unfold mintDue. split; [concrete|]. split; [intros [] Ho; (discriminate Ho || reflexivity)|].
      split; [vm_compute; reflexivity|]. split; [reflexivity|].
      split; [discriminate|]. split; [discriminate|].
      split; [vm_compute; discriminate|]. split; [reflexivity|]. left. reflexivity. }
    pose (atMint := sessionAtMint key demoSession kp w).
    pose (mint := run (poll.mintNft atMint (buyerWallet atMint))
                    (worldAtMint key demoSession kp w)).
    pose (sweep := run (poll.sweepBody key (mintedSession m atMint) kp)
                     (stored key (mintedSession m atMint) 86400 (snd (fst mint)))).
    destruct (mint_and_sweep_success w demoId (Some "true") demoSession demoPhrase m
                (snd (fst mint)) (snd mint) (snd (fst sweep)) (snd sweep) Hdue)
      as (sig & t & Hrun & Hstore & _ & _ & _ & _ & Hrefused).
    { vm_compute. reflexivity. }
    { vm_compute. reflexivity. }
    destruct (Hrefused "429 Too Many Requests" eq_refl) as [-> Hheld].
    eexists _, t, _, _. split; [exact Hrun|].
    split; [exact Hstore|]. split; [reflexivity|]. split; [reflexivity|].
    transitivity (usdc w !! demoAta); [exact Hheld | reflexivity].
Defined.

(** A [POST] without a body: 500, and the counter is where it was. *)
Lemma refused_creation_costs_no_index_witness :
  let w := demoFreshWorld 10000000 in
  let req := session.mkRequest "POST" None in
  let r := run (session.handler req) w in
  exists response,
    fst (fst r) = Ok response /\ session.code response = 500 /\
    snd (fst r) = w /\ ~ In (RedisIncr session.counterKey) (snd r).
Proof.
  intros w req r.
  destruct (refused_creation_costs_no_index req w (snd (fst r)) (fst (fst r)) (snd r))
    as (response & Hr & Hw & Hn & _ & _ & _).
  { vm_compute. reflexivity. }
  { intros ot md Heq. discriminate Heq. }
  exists response. split; [exact Hr|]. split; [|split; [exact Hw | exact Hn]].
  assert (Hr' : fst (fst r) =
                Ok (session.mkResponse 500
                      (session.JError "Cannot destructure property 'outputType' of 'req.body' as it is undefined.")))
    by (vm_compute; reflexivity).
  rewrite Hr in Hr'. injection Hr' as ->. reflexivity.
Defined.

(** A creation in a world with an empty environment: index 1 is gone. *)
Lemma creation_without_secret_spends_index_witness :
  let w := demoEnvWorld ∅ in
  let w1 := snd (exec (RedisIncr session.counterKey) w) in
  run (session.handler (createRequest "photo" demoMetadata)) w =
    (Ok (session.mkResponse 500 (session.JError "MASTER_SEED_PHRASE not configured")), w1,
     [RedisIncr session.counterKey; GetEnv "MASTER_SEED_PHRASE";
      ConsoleError "Session creation error:"]) /\
  counterValue w = 0 /\ counterValue w1 = 1.
Proof.
  intros w w1.
  destruct (creation_without_secret_spends_index w "photo" demoMetadata 1 w1)
    as (Hrun & Hc & _).
  { discriminate. }
  { reflexivity. }
  { vm_compute. reflexivity. }
  split; [exact Hrun|]. split; [reflexivity | exact Hc].
Defined.

(** The first creation of a fresh world. *)
Lemma creation_writes_three_keys_witness :
  exists s,
    store demoCreated !! poll.sessionKey "sess_1_1000" = Some (VSession s, Some 1800) /\
    store demoCreated !! ("address:" +:+ publicKey demoEscrow) =
      Some (VString "sess_1_1000", Some 1800) /\
    paymentAddress s = publicKey demoEscrow /\
    counterValue demoCreated = 1.
Proof.
  destruct (creation_writes_three_keys (createRequest "photo" demoMetadata)
              (demoFreshWorld 10000000) demoCreated (snd demoCreation)
              "sess_1_1000" (publicKey demoEscrow) 2250000 1801000)
    as (s & Hs & Ha & _ & Hp & _ & _ & _ & _ & _ & _ & _ & Hc & _).
  { vm_compute. reflexivity. }
  exists s. split; [exact Hs|]. split; [exact Ha|]. split; [exact Hp | exact Hc].
Defined.

(** A poll right after the creation: the token account exists and is
    empty. *)
Lemma poll_after_creation_witness :
  run (poll.handler (pollRequest "sess_1_1000" None)) demoCreated =
    (Ok (poll.mkResponse 200 (poll.JPending (publicKey demoEscrow) 2250000 0)),
     demoCreated,
     [RedisGetJson (poll.sessionKey "sess_1_1000"); DateNow; GetEnv "SOLANA_RPC_URL";
      GetEnv "MASTER_SEED_PHRASE"; GetAccount demoAta]).
Proof.
  destruct (poll_after_creation (createRequest "photo" demoMetadata)
              (demoFreshWorld 10000000) demoCreated demoCreated (snd demoCreation)
              "sess_1_1000" (publicKey demoEscrow) 2250000 1801000 None)
    as (_ & Hheld & _).
  { vm_compute. reflexivity. }
  { reflexivity. }
  { discriminate. }
  { reflexivity. }
  destruct (Hheld eq_refl) as (Hpending & _).
  rewrite Hpending;
    [|vm_compute; reflexivity | vm_compute; discriminate | vm_compute; reflexivity].
  assert (Hb : usdcBalanceOf demoCreated (publicKey demoEscrow) = 0)
    by (vm_compute; reflexivity).
  rewrite Hb. reflexivity.
Defined.

(** Two creations in a row: indices 1 and 2. *)
Lemma later_creation_gets_higher_index_witness :
  counterKept (demoFreshWorld 10000000) /\
  exists s1 s2,
    storedSession demoCreated "sess_1_1000" = Some s1 /\
    storedSession (snd (fst demoSecond)) "sess_2_1000" = Some s2 /\
    sessionIndex s1 < sessionIndex s2.
Proof.
  assert (Hc : counterKept (demoFreshWorld 10000000)).
  { intros v ttl Hlook. discriminate Hlook. }
  split; [exact Hc|].
  destruct (later_creation_gets_higher_index (demoFreshWorld 10000000) demoCreated
              demoCreated (snd (fst demoSecond))
              (createRequest "photo" demoMetadata) (createRequest "audio" demoMetadata)
              (snd demoCreation) (snd demoSecond)
              "sess_1_1000" (publicKey demoEscrow)
              "sess_2_1000" (publicKey (keypairAt demoPhrase 1002))
              2250000 1801000 2250000 1801000 Hc)
    as (s1 & s2 & H1 & H2 & _ & Hlt & _).
  { vm_compute. reflexivity. }
  { apply history_here. }
  { vm_compute. reflexivity. }
  exists s1, s2. split; [exact H1|]. split; [exact H2 | exact Hlt].
Defined.

(** The record of the first session in the world its creation leaves. *)
Lemma reachable_records_in_order_witness :
  reachable demoCreated /\
  exists s,
    storedSession demoCreated "sess_1_1000" = Some s /\
    sessionId s = "sess_1_1000" /\
    sessionIndex s <= counterValue demoCreated.
Proof.
  assert (Hr : reachable demoCreated).
  { apply (reach_session (demoFreshWorld 10000000) (createRequest "photo" demoMetadata)
             (fst (fst demoCreation)) demoCreated (snd demoCreation)).
    - apply reach_empty. reflexivity.
    - vm_compute. reflexivity. }
  split; [exact Hr|].
  destruct (reachable_records_in_order demoCreated "sess_1_1000" (VSession demoSession)
              (Some 1800) Hr)
    as (_ & s & _ & Hs & Hid & _ & _ & Hle & _).
  { vm_compute. reflexivity. }
  exists s. split; [exact Hs|]. split; [exact Hid | exact Hle].
Defined.

(** The second creation does not touch the first session. *)
Lemma creation_never_overwrites_witness :
  store demoCreated !! poll.sessionKey "sess_2_1000" = None /\
  storedSession (snd (fst demoSecond)) "sess_1_1000" = Some demoSession.
Proof.
  assert (Hr : reachable demoCreated).
  { apply (reach_session (demoFreshWorld 10000000) (createRequest "photo" demoMetadata)
             (fst (fst demoCreation)) demoCreated (snd demoCreation)).
    - apply reach_empty. reflexivity.
    - vm_compute. reflexivity. }
  destruct (creation_never_overwrites (createRequest "audio" demoMetadata) demoCreated
              (snd (fst demoSecond)) (snd demoSecond)
              "sess_2_1000" (publicKey (keypairAt demoPhrase 1002)) 2250000 1801000 Hr)
    as (Hnone & Hold & _).
  { vm_compute. reflexivity. }
  split; [exact Hnone|].
  destruct (Hold "sess_1_1000" demoSession) as (_ & _ & Hkept); [|exact Hkept].
  vm_compute. reflexivity.
Defined.

(** A mint that fails for lack of gas moves nothing. *)
Lemma poll_moves_funds_only_after_mint_witness :
  let w := demoWorld Pending 2000 2250000 mintFaultGas in
  let r := run (poll.handler (pollRequest demoId None)) w in
  transfers (snd r) = 0%nat /\
  usdc (snd (fst r)) = usdc w /\ lamports (snd (fst r)) = lamports w.
Proof.
  intros w r.
  destruct (poll_moves_funds_only_after_mint (pollRequest demoId None) w
              (snd (fst r)) (fst (fst r)) (snd r)) as (_ & _ & _ & Hsame).
  { vm_compute. reflexivity. }
  destruct Hsame as (Ht & _ & _ & Hu & Hl); [vm_compute; reflexivity|].
  split; [exact Ht|]. split; [exact Hu | exact Hl].
Defined.

(** The first creation funds the escrow wallet and then asks for its
    token account, which is not there yet: the master pays the 3,000,000
    and the rent. *)
Lemma creation_funds_escrow_from_master_witness :
  (exists before,
     snd demoCreation =
       before ++
       [SendAndConfirmTransaction
          (SystemTransfer (publicKey demoMaster) (publicKey demoEscrow) 3000000)
          (publicKey demoMaster);
        ataInit demoMaster (publicKey demoEscrow)]) /\
  transfers (snd demoCreation) = 1%nat /\
  usdc demoCreated !! demoAta = Some 0 /\
  lamports demoCreated !! publicKey demoMaster = Some (10000000 - 3000000 - demoRent) /\
  lamports demoCreated !! publicKey demoEscrow = Some 3000000.
Proof.
  destruct (creation_funds_escrow_from_master (createRequest "photo" demoMetadata)
              (demoFreshWorld 10000000) demoCreated (snd demoCreation)
              "sess_1_1000" (publicKey demoEscrow) 2250000 1801000)
    as (phrase & before & after & Hsec & Ht & Htx & _ & _ & _ & Hafter & Hone & _).
  { vm_compute. reflexivity. }
  assert (Hp : phrase = demoPhrase).
  { assert (Hsec' : masterSecret (demoFreshWorld 10000000) = Some demoPhrase)
      by reflexivity.
    rewrite Hsec in Hsec'. now injection Hsec'. }
  subst phrase.
  assert (Hlast : last (snd demoCreation) = Some (ataInit demoMaster (publicKey demoEscrow)))
    by (vm_compute; reflexivity).
  assert (Hnone : usdc (demoFreshWorld 10000000) !! demoAta = None) by reflexivity.
  destruct Hafter as [(Ha & _) | [(Ha & _) | [(Ha & Hsome & _) | (Ha & _ & Hu & _ & Hl)]]].
  - exfalso. rewrite Ht, Ha, last_app in Hlast. discriminate Hlast.
  - exfalso. rewrite Ht, Ha, last_app in Hlast. discriminate Hlast.
  - exfalso.
    change (getAssociatedTokenAddress solana.USDC_MINT (publicKey demoEscrow))
      with demoAta in Hsome.
    rewrite Hnone in Hsome. destruct Hsome as [x Hx]. discriminate Hx.
  - split.
    { exists before. rewrite Ht, Htx, Ha. reflexivity. }
    split; [exact Hone|].
    rewrite Hu, Hl. split; [|split]; vm_compute; reflexivity.
Defined.
End further_scenarios.
